(** * Admission-webhook configuration of the controller
    (controller/nvk8sapi/nvvalidatewebhookcfg/nvvalidatewebhookcfg.go)

    A shallow embedding of the Go package [admission]: the trust-bundle
    registry, the namespace label verification, the drift detection and the
    reconcile loop of the validating webhook configuration, and the
    connectivity probe.

    Conventions.
    - A Go pointer that the code tests against nil is an [option]; a pointer
      that the code dereferences without a test is a plain field, except
      where a wrong dynamic type or a nil makes the Go run time panic on a
      value the model can build: that is the outcome [Panicked].
    - [global.ORCH] is the class [Orchestrator] over an abstract [World],
      with the class [Lister] for its listing call: each call may answer
      anything and change the world (other writers included). Every call is
      appended to a trace together with its answer.
    - Time is not modelled: a loop that waits on a ticker is driven by the
      events its [select] receives.
    - Package-level variables are the record [Globals].
    - Constants, tables and predicates of the packages [resource], [share],
      [api] and [k8s] are the class [Consts].
    - Log output is not modelled. *)

From Stdlib Require Import ZArith String Ascii List Bool Lia.
From stdpp Require Import base option gmap strings list pretty fin_maps.

Open Scope string_scope.
Open Scope Z_scope.

(** ** Go library functions *)

(** [strings.Index]: the byte index of the first occurrence, [-1] if none. *)
Fixpoint strings_Index_from (s substr : string) (i : Z) : Z :=
  if String.prefix substr s then i
  else match s with
       | EmptyString => -1
       | String _ s' => strings_Index_from s' substr (i + 1)
       end.

Definition strings_Index (s substr : string) : Z := strings_Index_from s substr 0.

(** [strings.Contains s substr] is [strings.Index s substr >= 0]. *)
Definition strings_Contains (s substr : string) : bool := 0 <=? strings_Index s substr.

(** [strings.EqualFold]. Go compares under Unicode simple case folding of
    UTF-8 text; this definition folds the ASCII letters only, and is Go's
    function on strings of ASCII bytes (the URLs and paths compared here are
    built from ASCII constants, service names and ports). *)
Definition asciiLower (c : ascii) : ascii :=
  let n := nat_of_ascii c in
  if ((65 <=? n) && (n <=? 90))%nat then ascii_of_nat (n + 32) else c.

Fixpoint strings_ToLower (s : string) : string :=
  match s with
  | EmptyString => EmptyString
  | String c s' => String (asciiLower c) (strings_ToLower s')
  end.

Definition strings_EqualFold (s t : string) : bool :=
  bool_decide (strings_ToLower s = strings_ToLower t).

(** [sort.Strings]: ascending byte-wise order. *)
Fixpoint insertString (x : string) (l : list string) : list string :=
  match l with
  | [] => [x]
  | y :: l' => if String.leb x y then x :: l else y :: insertString x l'
  end.

Definition sort_Strings (l : list string) : list string := foldr insertString [] l.

(** [len(s)] of a Go string, in bytes. *)
Definition len (s : string) : Z := Z.of_nat (String.length s).

(** ** Data model *)

Record ValidateWebhookSvcInfo := {
  Status : Z;
  SvcNodePort : Z;
  SvcType : string;
  LabelTag : string;
  LabelEcho : string
}.

Record WebhookSvcLabelKey := {
  TagKey : string;
  EchoKey : string
}.

Record ClientConfig := {
  ClientMode : string;
  ServiceName : string;
  Path : string;
  Port : Z
}.

Record WebhookInfo := {
  wi_Name : string;
  wi_ClientConfig : ClientConfig;
  wi_FailurePolicy : string;
  wi_TimeoutSeconds : Z
}.

Record ValidatingWebhookConfigInfo := {
  vi_Name : string;
  WebhooksInfo : list WebhookInfo
}.

(** [share.CLUSAdmCtrlState], the two fields read here. *)
Record CLUSAdmCtrlState := {
  Enable : bool;
  Uri : string
}.

Definition K8sResOpCreate : string := "create".
Definition K8sResOpUpdate : string := "update".
Definition K8sResOpDelete : string := "delete".

Definition TestSucceeded : Z := 0.
Definition TestFailedAtRead : Z := 1.
Definition TestFailedAtWrite : Z := 2.
Definition TestFailed : Z := 3.
Definition TestAborted : Z := 4.

(** *** Objects of the orchestrator (packages metav1, corev1,
    admissionregistration/v1 and /v1beta1) *)

Record ObjectMeta := {
  om_Name : option string;
  om_ResourceVersion : option string;
  om_Labels : option (gmap string string)
}.

Record ServiceReference := {
  sr_Namespace : option string;
  sr_Name : option string;
  sr_Path : option string
}.

Record WebhookClientConfig := {
  cc_Url : option string;
  cc_Service : option ServiceReference;
  cc_CaBundle : string
}.

Record Rule := {
  ApiGroups : list string;
  ApiVersions : list string;
  Resources : list string;
  Scope : option string
}.

Record RuleWithOperations := {
  Operations : list string;
  rwo_Rule : Rule
}.

Record LabelSelectorRequirement := {
  Key : option string;
  Operator : option string
}.

Record LabelSelector := {
  MatchExpressions : list LabelSelectorRequirement
}.

(** One record for [apiv1.ValidatingWebhook] and [apiv1beta1.Webhook]: the
    fields this package reads or writes. *)
Record Webhook := {
  wh_Name : option string;
  wh_ClientConfig : WebhookClientConfig;
  wh_Rules : list RuleWithOperations;
  wh_FailurePolicy : option string;
  wh_NamespaceSelector : option LabelSelector;
  wh_SideEffects : option string;
  wh_AdmissionReviewVersions : list string;
  wh_MatchPolicy : option string;
  wh_TimeoutSeconds : option Z
}.

Record ValidatingWebhookConfiguration := {
  vwc_Metadata : ObjectMeta;
  vwc_Webhooks : list Webhook
}.

Record ServicePort := {
  NodePort : option Z
}.

Record ServiceSpec := {
  spec_Type : option string;
  spec_Ports : list (option ServicePort)
}.

Record Service := {
  svc_Metadata : option ObjectMeta;
  svc_Spec : option ServiceSpec
}.

Record Namespace := {
  ns_Metadata : option ObjectMeta
}.

(** What [GetResource] may return and the write calls take: an interface
    value of one of these dynamic types. *)
Inductive Obj :=
| ObjV1Config (c : ValidatingWebhookConfiguration)
| ObjV1beta1Config (c : ValidatingWebhookConfiguration)
| ObjService (s : option Service)
| ObjNamespace (n : option Namespace)
| ObjOther.

(** [resource.K8sAdmRegWebhook], the generation-neutral form. *)
Record K8sAdmRegWebhook := {
  k_Name : option string;
  k_AdmissionReviewVersions : list string;
  k_ClientConfig : WebhookClientConfig;
  k_Rules : list RuleWithOperations;
  k_FailurePolicy : option string;
  k_NamespaceSelector : option LabelSelector;
  k_SideEffects : option string
}.

(** [resource.NvAdmRegRuleSetting]; each [utils.Set] is the slice that its
    [ToStringSlice] returns. *)
Record NvAdmRegRuleSetting := {
  rs_Operations : list string;
  rs_ApiGroups : list string;
  rs_Resources : list string;
  rs_Scope : string
}.

(** Modelled from the spec: the three side-effect annotations of package
    [resource], whose declarations are not part of this file's source. *)
Definition SideEffectNone : string := "None".
Definition SideEffectNoneOnDryRun : string := "NoneOnDryRun".
Definition SideEffectSome : string := "Some".

(** Constants, tables and predicates declared in other packages. *)
Class Consts := {
  NvAdmValidatingName : string;
  NvCrdValidatingName : string;
  NvAdmValidatingWebhookName : string;
  NvCrdValidatingWebhookName : string;
  NvStatusValidatingWebhookName : string;
  RscTypeValidatingWebhookConfiguration : string;
  RscTypeService : string;
  RscTypeNamespace : string;
  AllNamespaces : string;
  K8sApiVersionV1 : string;
  K8sApiVersionV1Beta1 : string;
  K8sApiVersionV1Beta2 : string;
  NvAdmSvcNamespace : string;
  NsSelectorKeySkipNV : string;
  NsSelectorKeyStatusNV : string;
  NsSelectorKeyCtrlPlane : string;
  NsSelectorOpNotExist : string;
  NsSelectorOpExists : string;
  CtrlPlaneOpInWhExpr : string;
  Ignore : string;
  AdmResForOpsSettings : list NvAdmRegRuleSetting;
  CrdResForOpsSettings : list NvAdmRegRuleSetting;
  StatusResForOpsSettings : list NvAdmRegRuleSetting;
  ServiceTypeClusterIP : string;
  ServiceTypeNodePort : string;
  AdmClientModeUrl : string;
  RESTErrWebhookSvcForAdmCtrl : Z;
  RESTErrNvPermission : Z;
  EqualMatch : string -> string -> bool;
  IsK8sNvWebhookConfigured : string -> string -> K8sAdmRegWebhook -> bool -> bool
}.

(** ** The orchestrator and the trace of its calls *)

(** [err.Error()] of a Go error. *)
Definition Err := string.

Class Orchestrator (World : Type) := {
  GetResource : string -> string -> string -> World -> (Err + Obj) * World;
  AddResource : string -> Obj -> World -> option Err * World;
  UpdateResource : string -> Obj -> World -> option Err * World;
  DeleteResource : string -> Obj -> World -> option Err * World;
  GetK8sVersion : World -> Z * Z
}.

(** [resource.Namespace], the two fields read here, and what
    [ListResource] returns: interface values, of which the loops of
    [InitK8sNsSelectorInfo] and [UpdateAllowedK8sNs] assert the type
    [*resource.Namespace] without a test (a panic on any other type) and then
    test the pointer against nil. *)
Record ResourceNamespace := {
  rn_Name : string;
  rn_Labels : option (gmap string string)
}.

Inductive Listed :=
| ListedNamespace (n : option ResourceNamespace)
| ListedOther.

Inductive StoreCall :=
| CallGet (rt ns name : string) (res : Err + Obj)
| CallAdd (rt : string) (obj : Obj) (res : option Err)
| CallUpdate (rt : string) (obj : Obj) (res : option Err)
| CallDelete (rt : string) (obj : Obj) (res : option Err)
| CallList (rt : string) (objs : list Listed) (err : option Err).

Definition isWrite (c : StoreCall) : bool :=
  match c with CallGet _ _ _ _ | CallList _ _ _ => false | _ => true end.

Definition isGet (c : StoreCall) : bool := negb (isWrite c).

Definition writeResult (c : StoreCall) : option (option Err) :=
  match c with
  | CallGet _ _ _ _ | CallList _ _ _ => None
  | CallAdd _ _ r | CallUpdate _ _ r | CallDelete _ _ r => Some r
  end.

Record Store (World : Type) := mkStore {
  world : World;
  trace : list StoreCall
}.
Arguments mkStore {World} _ _.
Arguments world {World} _.
Arguments trace {World} _.

Inductive Outcome (A : Type) :=
| Returned (a : A)
| Panicked.
Arguments Returned {A} _.
Arguments Panicked {A}.

Definition M (World A : Type) : Type := Store World -> Outcome A * Store World.

Definition ret {W A} (a : A) : M W A := fun s => (Returned a, s).

Definition bind {W A B} (m : M W A) (k : A -> M W B) : M W B :=
  fun s => match m s with
           | (Returned a, s') => k a s'
           | (Panicked, s') => (Panicked, s')
           end.

Definition panic {W A} : M W A := fun s => (Panicked, s).

Declare Scope go_scope.
Delimit Scope go_scope with go.
Notation "'do' x <- m ; k" := (bind m (fun x => k))
  (at level 10, x name, m at level 100, k at level 200) : go_scope.
Notation "'do' ' p <- m ; k" := (bind m (fun x => match x with p => k end))
  (at level 10, p pattern, m at level 100, k at level 200) : go_scope.
Open Scope go_scope.

Section Orch.
Context {World : Type} {ORCH : Orchestrator World}.

Definition orchGet (rt ns name : string) : M World (Err + Obj) :=
  fun s => let '(r, w) := GetResource rt ns name (world s) in
           (Returned r, mkStore w (trace s ++ [CallGet rt ns name r])).

Definition orchAdd (rt : string) (o : Obj) : M World (option Err) :=
  fun s => let '(r, w) := AddResource rt o (world s) in
           (Returned r, mkStore w (trace s ++ [CallAdd rt o r])).

Definition orchUpdate (rt : string) (o : Obj) : M World (option Err) :=
  fun s => let '(r, w) := UpdateResource rt o (world s) in
           (Returned r, mkStore w (trace s ++ [CallUpdate rt o r])).

Definition orchDelete (rt : string) (o : Obj) : M World (option Err) :=
  fun s => let '(r, w) := DeleteResource rt o (world s) in
           (Returned r, mkStore w (trace s ++ [CallDelete rt o r])).

Definition orchVersion : M World (Z * Z) :=
  fun s => (Returned (GetK8sVersion (world s)), s).

End Orch.

(** ** Package-level variables *)

Record Globals := {
  admCaBundle : gmap string string;
  svcLabelKeys : gmap string WebhookSvcLabelKey;
  defAllowedNamespaces : gset string;
  allowedNamespaces : gset string;
  allowedNamespacesWild : gset string;
  nsSelectorValue : string
}.

(** [m[k]] on a Go [map[string]string]: the zero value when [k] is absent. *)
Definition mapGet (m : gmap string string) (k : string) : string := default "" (m !! k).

(** ** The trust-bundle registry *)

(** [SetCABundle] (its md5 log line and the version refresh left out). *)
Definition SetCABundle (g : Globals) (svcName caBundle : string) : Globals :=
  {| admCaBundle := <[svcName := caBundle]> (admCaBundle g);
     svcLabelKeys := <[svcName := {| TagKey := "tag-" +:+ svcName;
                                     EchoKey := "echo-" +:+ svcName |}]> (svcLabelKeys g);
     defAllowedNamespaces := defAllowedNamespaces g;
     allowedNamespaces := allowedNamespaces g;
     allowedNamespacesWild := allowedNamespacesWild g;
     nsSelectorValue := nsSelectorValue g |}.

(** [ResetCABundle]: the new globals and the returned flag. *)
Definition ResetCABundle (g : Globals) (svcName caBundle : string) : Globals * bool :=
  let newCert := caBundle in
  let oldCert := mapGet (admCaBundle g) svcName in
  if (0 <? len newCert) && negb (bool_decide (oldCert = newCert)) then
    ({| admCaBundle := <[svcName := newCert]> (admCaBundle g);
        svcLabelKeys := svcLabelKeys g;
        defAllowedNamespaces := defAllowedNamespaces g;
        allowedNamespaces := allowedNamespaces g;
        allowedNamespacesWild := allowedNamespacesWild g;
        nsSelectorValue := nsSelectorValue g |}, true)
  else (g, false).

Section Package.
Context {K : Consts} {World : Type} {ORCH : Orchestrator World}.

(** [IsNsSelectorSupported] *)
Definition IsNsSelectorSupported : M World bool :=
  do '(k8sVersionMajor, k8sVersionMinor) <- orchVersion;
  ret (bool_decide (k8sVersionMajor = 1) && (14 <=? k8sVersionMinor)).

(** The first port with a node port, lines 700-706 of the source. *)
Fixpoint firstNodePort (ports : list (option ServicePort)) : option Z :=
  match ports with
  | [] => None
  | Some {| NodePort := Some p |} :: _ => Some p
  | _ :: rest => firstNodePort rest
  end.

(** Lines 684-714 of [GetValidateWebhookSvcInfo]: what is made of the
    orchestrator's answer [r]. A service without metadata panics at line 692
    when the label keys of [svcname] are known. *)
Definition svcInfoOfAnswer (g : Globals) (svcname : string) (r : Err + Obj)
  : Outcome (option Err * ValidateWebhookSvcInfo) :=
  let svcInfo := {| SvcNodePort := 443;
                    Status := RESTErrWebhookSvcForAdmCtrl;
                    SvcType := ServiceTypeClusterIP;
                    LabelTag := ""; LabelEcho := "" |} in
  match r with
  | inl err =>
      if (0 <? strings_Index err " 403 ") && (0 <? strings_Index err "forbidden") then
        Returned (Some err, {| SvcNodePort := SvcNodePort svcInfo;
                               Status := RESTErrNvPermission;
                               SvcType := SvcType svcInfo;
                               LabelTag := LabelTag svcInfo;
                               LabelEcho := LabelEcho svcInfo |})
      else Returned (Some err, svcInfo)
  | inr (ObjService (Some svc)) =>
      let labelled :=
        match svcLabelKeys g !! svcname with
        | Some keys =>
            match svc_Metadata svc with
            | None => Panicked
            | Some md =>
                let labels := default ∅ (om_Labels md) in
                let tag := default (LabelTag svcInfo) (labels !! TagKey keys) in
                let echo := default (LabelEcho svcInfo) (labels !! EchoKey keys) in
                Returned {| SvcNodePort := SvcNodePort svcInfo;
                            Status := Status svcInfo;
                            SvcType := SvcType svcInfo;
                            LabelTag := tag; LabelEcho := echo |}
            end
        | None => Returned svcInfo
        end in
      match labelled with
      | Panicked => Panicked
      | Returned svcInfo =>
          match svc_Spec svc with
          | Some {| spec_Type := Some t; spec_Ports := ports |} =>
              if bool_decide (t = ServiceTypeNodePort) then
                match firstNodePort ports with
                | Some p => Returned (None, {| SvcNodePort := p;
                                               Status := Status svcInfo;
                                               SvcType := ServiceTypeNodePort;
                                               LabelTag := LabelTag svcInfo;
                                               LabelEcho := LabelEcho svcInfo |})
                | None => Returned (None, svcInfo)
                end
              else Returned (None, svcInfo)
          | _ => Returned (None, svcInfo)
          end
      end
  | inr _ => Returned (None, svcInfo)
  end.

(** [GetValidateWebhookSvcInfo]: (error, info). *)
Definition GetValidateWebhookSvcInfo (g : Globals) (svcname : string)
  : M World (option Err * ValidateWebhookSvcInfo) :=
  do r <- orchGet RscTypeService NvAdmSvcNamespace svcname;
  fun s => (svcInfoOfAnswer g svcname r, s).

(** ** Namespace labels *)

(** The wildcard loop of [VerifyK8sNs], lines 160-165: the first matching
    pattern marks the skip key and ends the loop. *)
Fixpoint markWildcard (wild : list string) (nsName : string)
    (labelKeys : gmap string (option bool)) : gmap string (option bool) :=
  match wild with
  | [] => labelKeys
  | allowedNsWild :: rest =>
      if EqualMatch allowedNsWild nsName
      then <[NsSelectorKeySkipNV := Some true]> labelKeys
      else markWildcard rest nsName labelKeys
  end.

(** Lines 142-172 of [VerifyK8sNs]: the map from label key to whether the
    key should exist ([Some true]), should not exist ([Some false]) or may do
    either (a nil pointer, [None]). *)
Definition desiredLabelKeys (g : Globals) (admCtrlEnabled : bool) (nsName : string)
  : gmap string (option bool) :=
  let shouldExist := Some true in
  let shouldNotExist := Some false in
  let labelKeys : gmap string (option bool) :=
    <[NsSelectorKeyStatusNV := shouldNotExist]> {[ NsSelectorKeySkipNV := shouldNotExist ]} in
  if admCtrlEnabled then
    let labelKeys :=
      if bool_decide (CtrlPlaneOpInWhExpr = NsSelectorOpNotExist) then
        let labelKeys := <[NsSelectorKeyCtrlPlane := shouldNotExist]> labelKeys in
        if bool_decide (nsName ∈ defAllowedNamespaces g)
        then <[NsSelectorKeyCtrlPlane := None]> labelKeys
        else labelKeys
      else labelKeys in
    let labelKeys :=
      if bool_decide (nsName ∈ allowedNamespaces g)
      then <[NsSelectorKeySkipNV := shouldExist]> labelKeys
      else markWildcard (elements (allowedNamespacesWild g)) nsName labelKeys in
    if bool_decide (NvAdmSvcNamespace = nsName)
    then <[NsSelectorKeyStatusNV := shouldExist]> labelKeys
    else labelKeys
  else labelKeys.

(** The test of lines 176-177 and 782-786 on one key. *)
Definition labelDisagrees (labels : gmap string string) (labelKey : string)
    (shouldExist : option bool) : bool :=
  match shouldExist with
  | None => false
  | Some b =>
      let exists_ := bool_decide (is_Some (labels !! labelKey)) in
      (b && negb exists_) || (negb b && exists_)
  end.

(** One iteration of the loop of [workSingleK8sNsLabels], lines 780-791. *)
Definition correctLabel (value : string) (acc : gmap string string * bool)
    (entry : string * option bool) : gmap string string * bool :=
  let '(labels, needUpdate) := acc in
  let '(labelKey, shouldExist) := entry in
  match shouldExist with
  | None => acc
  | Some b =>
      let exists_ := bool_decide (is_Some (labels !! labelKey)) in
      if b && negb exists_ then (<[labelKey := value]> labels, true)
      else if negb b && exists_ then (delete labelKey labels, true)
      else acc
  end.

(** The loop of lines 779-791 over the keys of [labelKeys]: the labels
    after it and [needUpdate]. *)
Definition correctLabels (value : string) (labelKeys : gmap string (option bool))
    (labels0 : gmap string string) : gmap string string * bool :=
  foldl (correctLabel value) (labels0, false) (map_to_list labelKeys).

(** [workSingleK8sNsLabels] *)
Definition workSingleK8sNsLabels (g : Globals) (nsName : string)
    (labelKeys : gmap string (option bool)) : M World (option Err) :=
  do r <- orchGet RscTypeNamespace "" nsName;
  match r with
  | inl err => ret (Some err)
  | inr (ObjNamespace nsObj) =>
      match nsObj with
      | Some {| ns_Metadata := Some md |} =>
          let labels0 := default ∅ (om_Labels md) in
          let '(labels, needUpdate) :=
            correctLabels (nsSelectorValue g) labelKeys labels0 in
          if needUpdate then
            do err <- orchUpdate RscTypeNamespace
                        (ObjNamespace (Some {| ns_Metadata :=
                           Some {| om_Name := om_Name md;
                                   om_ResourceVersion := om_ResourceVersion md;
                                   om_Labels := Some labels |} |}));
            ret err
          else ret None
      | _ => ret (Some "ns/metadata is nil")
      end
  | inr _ => panic
  end.

(** The loop of [VerifyK8sNs], lines 174-182: the first key that disagrees
    starts the correction and ends the loop. *)
Fixpoint verifyLoop (g : Globals) (nsName : string) (nsLabels : gmap string string)
    (labelKeys : gmap string (option bool)) (entries : list (string * option bool))
  : M World unit :=
  match entries with
  | [] => ret tt
  | (labelKey, shouldExist) :: rest =>
      if labelDisagrees nsLabels labelKey shouldExist then
        do _ <- workSingleK8sNsLabels g nsName labelKeys;
        ret tt
      else verifyLoop g nsName nsLabels labelKeys rest
  end.

(** [VerifyK8sNs]; a nil [nsLabels] is [None]. *)
Definition VerifyK8sNs (g : Globals) (admCtrlEnabled : bool) (nsName : string)
    (nsLabels : option (gmap string string)) : M World unit :=
  let nsLabels := match nsLabels with None => ∅ | Some m => m end in
  let labelKeys := desiredLabelKeys g admCtrlEnabled nsName in
  verifyLoop g nsName nsLabels labelKeys (map_to_list labelKeys).

(** ** Drift detection *)

(** Lines 252-283 and 294-324: one webhook in the generation-neutral form.
    The legacy branch does not copy the review versions. *)
Definition normalizeWebhook (useApiV1 : bool) (wh : Webhook) : K8sAdmRegWebhook :=
  {| k_Name := wh_Name wh;
     k_AdmissionReviewVersions := if useApiV1 then wh_AdmissionReviewVersions wh else [];
     k_ClientConfig :=
       {| cc_Url := cc_Url (wh_ClientConfig wh);
          cc_CaBundle := cc_CaBundle (wh_ClientConfig wh);
          cc_Service :=
            match cc_Service (wh_ClientConfig wh) with
            | Some svc => Some {| sr_Namespace := sr_Namespace svc;
                                  sr_Name := sr_Name svc;
                                  sr_Path := sr_Path svc |}
            | None => None
            end |};
     k_Rules :=
       map (fun rops =>
              {| Operations := Operations rops;
                 rwo_Rule := {| ApiGroups := ApiGroups (rwo_Rule rops);
                                ApiVersions := ApiVersions (rwo_Rule rops);
                                Resources := Resources (rwo_Rule rops);
                                Scope := Scope (rwo_Rule rops) |} |})
           (wh_Rules wh);
     k_FailurePolicy := wh_FailurePolicy wh;
     k_NamespaceSelector := wh_NamespaceSelector wh;
     k_SideEffects := wh_SideEffects wh |}.

(** Lines 348-355: the side-effect annotation the read phase expects. *)
Definition expectedSideEffects (name : string) (k8sVersionMajor k8sVersionMinor : Z) : string :=
  if bool_decide (name = NvCrdValidatingName) then
    if bool_decide (k8sVersionMajor = 1) && (22 <=? k8sVersionMinor)
    then SideEffectNoneOnDryRun
    else SideEffectSome
  else SideEffectNone.

(** The condition of line 356. *)
Definition sideEffectsAccepted (k8sVersionMinor : Z) (actual : option string)
    (sideEffects : string) : bool :=
  (k8sVersionMinor <=? 11)
  || ((11 <? k8sVersionMinor)
      && match actual with Some s => bool_decide (s = sideEffects) | None => false end).

(** [fmt.Sprintf("https://%s.%s.svc:%d%s", ...)] of lines 361, 488 and 581. *)
Definition expectedUrlOf (whInfo : WebhookInfo) : string :=
  "https://" +:+ ServiceName (wi_ClientConfig whInfo) +:+ "." +:+ NvAdmSvcNamespace
  +:+ ".svc:" +:+ pretty (Port (wi_ClientConfig whInfo)) +:+ Path (wi_ClientConfig whInfo).

(** Lines 336-383: whether the webhook [wh] read from the orchestrator is
    what [whInfo], of the same name, asks for ([whMatched]). *)
Definition webhookMatched (g : Globals) (name : string) (useApiV1 : bool)
    (k8sVersionMajor k8sVersionMinor : Z) (nsSelectorSupported : bool)
    (wh : K8sAdmRegWebhook) (whInfo : WebhookInfo) : bool :=
  let clientInUrlMode := bool_decide (ClientMode (wi_ClientConfig whInfo) = AdmClientModeUrl) in
  if negb useApiV1 || bool_decide (k_AdmissionReviewVersions wh = [K8sApiVersionV1Beta1]) then
    let clientCfg := k_ClientConfig wh in
    if (negb clientInUrlMode && bool_decide (is_Some (cc_Service clientCfg)))
       || (clientInUrlMode && bool_decide (is_Some (cc_Url clientCfg))) then
      let sideEffects := expectedSideEffects name k8sVersionMajor k8sVersionMinor in
      if sideEffectsAccepted k8sVersionMinor (k_SideEffects wh) sideEffects then
        let svcName := ServiceName (wi_ClientConfig whInfo) in
        if (len (mapGet (admCaBundle g) svcName) =? 0)
           || bool_decide (mapGet (admCaBundle g) svcName = cc_CaBundle clientCfg) then
          if clientInUrlMode then
            match cc_Url clientCfg with
            | Some url =>
                strings_EqualFold url (expectedUrlOf whInfo)
                && IsK8sNvWebhookConfigured (wi_Name whInfo) (wi_FailurePolicy whInfo) wh
                     nsSelectorSupported
            | None => false
            end
          else
            match cc_Service clientCfg with
            | Some svc =>
                bool_decide (sr_Namespace svc = Some NvAdmSvcNamespace)
                && bool_decide (sr_Name svc = Some svcName)
                && match sr_Path svc with
                   | Some p => strings_EqualFold p (Path (wi_ClientConfig whInfo))
                   | None => false
                   end
                && IsK8sNvWebhookConfigured (wi_Name whInfo) (wi_FailurePolicy whInfo) wh
                     nsSelectorSupported
            | None => false
            end
        else false
      else false
    else false
  else false.

(** The inner loop of lines 331-385: the first [whInfo] of the same name
    decides; [whFound] stays false when there is none. *)
Fixpoint webhookFound (g : Globals) (name : string) (useApiV1 : bool)
    (k8sVersionMajor k8sVersionMinor : Z) (nsSelectorSupported : bool)
    (wh : K8sAdmRegWebhook) (infos : list WebhookInfo) : bool :=
  match infos with
  | [] => false
  | whInfo :: rest =>
      if bool_decide (k_Name wh = Some (wi_Name whInfo))
      then webhookMatched g name useApiV1 k8sVersionMajor k8sVersionMinor
             nsSelectorSupported wh whInfo
      else webhookFound g name useApiV1 k8sVersionMajor k8sVersionMinor
             nsSelectorSupported wh rest
  end.

(** Lines 240-391, after the dynamic type is known. *)
Definition compareConfig (g : Globals) (k8sResInfo : ValidatingWebhookConfigInfo)
    (useApiV1 : bool) (k8sVersionMajor k8sVersionMinor : Z)
    (k8sConfig : ValidatingWebhookConfiguration)
  : M World (bool * bool * string * option Err) :=
  match om_ResourceVersion (vwc_Metadata k8sConfig) with
  | None => panic
  | Some verRead =>
      if negb (Nat.eqb (length (vwc_Webhooks k8sConfig)) (length (WebhooksInfo k8sResInfo)))
      then ret (true, false, verRead, None)
      else
        let config := map (normalizeWebhook useApiV1) (vwc_Webhooks k8sConfig) in
        do nsSelectorSupported <- IsNsSelectorSupported;
        if forallb (fun wh => webhookFound g (vi_Name k8sResInfo) useApiV1
                                k8sVersionMajor k8sVersionMinor nsSelectorSupported
                                wh (WebhooksInfo k8sResInfo)) config
        then ret (true, true, verRead, None)
        else ret (true, false, verRead, None)
  end.

(** [isK8sConfiguredAsExpected]: (found, matchedCfg, verRead, error). *)
Definition isK8sConfiguredAsExpected (g : Globals) (k8sResInfo : ValidatingWebhookConfigInfo)
  : M World (bool * bool * string * option Err) :=
  if bool_decide (vi_Name k8sResInfo = NvAdmValidatingName)
     || bool_decide (vi_Name k8sResInfo = NvCrdValidatingName) then
    do r <- orchGet RscTypeValidatingWebhookConfiguration AllNamespaces (vi_Name k8sResInfo);
    match r with
    | inl err => ret (false, false, "", Some err)
    | inr obj =>
        do '(k8sVersionMajor, k8sVersionMinor) <- orchVersion;
        match obj with
        | ObjV1Config k8sConfig =>
            compareConfig g k8sResInfo true k8sVersionMajor k8sVersionMinor k8sConfig
        | ObjV1beta1Config k8sConfig =>
            compareConfig g k8sResInfo false k8sVersionMajor k8sVersionMinor k8sConfig
        | _ =>
            ret (true, false, "",
                 Some ("type assertion failed(" +:+ pretty k8sVersionMajor +:+ "."
                       +:+ pretty k8sVersionMinor +:+ ")"))
        end
    end
  else ret (false, false, "", Some "Unsupported admission control type").

(** ** Writing the configuration *)

(** The [switch whInfo.Name] of lines 432-449 and 524-541:
    (nvOpResources, sideEffects, nsSelectorKey, nsSelectorOp, failurePolicy).
    Only the side effect of the CRD webhook depends on the generation. *)
Definition ruleTable (useApiV1 : bool) (whInfo : WebhookInfo)
  : list NvAdmRegRuleSetting * string * string * string * string :=
  if bool_decide (wi_Name whInfo = NvAdmValidatingWebhookName) then
    (AdmResForOpsSettings, SideEffectNone, NsSelectorKeySkipNV, NsSelectorOpNotExist,
     wi_FailurePolicy whInfo)
  else if bool_decide (wi_Name whInfo = NvCrdValidatingWebhookName) then
    (CrdResForOpsSettings,
     if useApiV1 then SideEffectNoneOnDryRun else SideEffectSome, "", "", Ignore)
  else if bool_decide (wi_Name whInfo = NvStatusValidatingWebhookName) then
    (StatusResForOpsSettings, SideEffectNone, NsSelectorKeyStatusNV, NsSelectorOpExists,
     Ignore)
  else ([], SideEffectNone, "", "", "").

(** Lines 462-475 and 550-566: one rule, its lists sorted. *)
Definition buildRule (withScope : bool) (opRes : NvAdmRegRuleSetting) : RuleWithOperations :=
  {| Operations := sort_Strings (rs_Operations opRes);
     rwo_Rule := {| ApiGroups := rs_ApiGroups opRes;
                    ApiVersions := [K8sApiVersionV1; K8sApiVersionV1Beta1; K8sApiVersionV1Beta2];
                    Resources := sort_Strings (rs_Resources opRes);
                    Scope := if withScope then Some (rs_Scope opRes) else None |} |}.

(** Lines 477-486 and 569-578. *)
Definition buildSelector (nsSelectorKey nsSelectorOp : string) : option LabelSelector :=
  if negb (bool_decide (nsSelectorKey = "")) && negb (bool_decide (nsSelectorOp = ""))
  then Some {| MatchExpressions := [ {| Key := Some nsSelectorKey;
                                        Operator := Some nsSelectorOp |} ] |}
  else None.

(** Lines 487-496 and 580-589: a URL or a service reference, never both. *)
Definition buildClientConfig (g : Globals) (whInfo : WebhookInfo) : WebhookClientConfig :=
  let svcName := ServiceName (wi_ClientConfig whInfo) in
  if bool_decide (ClientMode (wi_ClientConfig whInfo) = AdmClientModeUrl) then
    {| cc_CaBundle := mapGet (admCaBundle g) svcName;
       cc_Url := Some (expectedUrlOf whInfo);
       cc_Service := None |}
  else
    {| cc_CaBundle := mapGet (admCaBundle g) svcName;
       cc_Url := None;
       cc_Service := Some {| sr_Namespace := Some NvAdmSvcNamespace;
                             sr_Name := Some svcName;
                             sr_Path := Some (Path (wi_ClientConfig whInfo)) |} |}.

(** The body of the loop of lines 422-497, past the bundle test. *)
Definition buildWebhookV1 (g : Globals) (whInfo : WebhookInfo) : Webhook :=
  let '(nvOpResources, sideEffects, nsSelectorKey, nsSelectorOp, failurePolicy) :=
    ruleTable true whInfo in
  {| wh_Name := Some (wi_Name whInfo);
     wh_ClientConfig := buildClientConfig g whInfo;
     wh_Rules := map (buildRule true) nvOpResources;
     wh_FailurePolicy := Some failurePolicy;
     wh_NamespaceSelector := buildSelector nsSelectorKey nsSelectorOp;
     wh_SideEffects := Some sideEffects;
     wh_AdmissionReviewVersions := [K8sApiVersionV1Beta1];
     wh_MatchPolicy := Some "Exact";
     wh_TimeoutSeconds := Some (wi_TimeoutSeconds whInfo) |}.

(** The body of the loop of lines 514-596, past the bundle test.
    [IsNsSelectorSupported] only reads the version: its calls within one
    iteration give one value, [nsSelectorSupported]. *)
Definition buildWebhookV1beta1 (g : Globals) (k8sVersionMajor k8sVersionMinor : Z)
    (nsSelectorSupported : bool) (whInfo : WebhookInfo) : Webhook :=
  let '(nvOpResources, sideEffects, nsSelectorKey, nsSelectorOp, failurePolicy) :=
    ruleTable false whInfo in
  {| wh_Name := Some (wi_Name whInfo);
     wh_ClientConfig := buildClientConfig g whInfo;
     wh_Rules := map (buildRule nsSelectorSupported) nvOpResources;
     wh_FailurePolicy := Some failurePolicy;
     wh_NamespaceSelector :=
       if nsSelectorSupported then buildSelector nsSelectorKey nsSelectorOp else None;
     wh_SideEffects :=
       if bool_decide (k8sVersionMajor = 1) && (11 <? k8sVersionMinor)
       then Some sideEffects else None;
     wh_AdmissionReviewVersions := [];
     wh_MatchPolicy := None;
     wh_TimeoutSeconds := None |}.

(** The loops of lines 422-497 and 514-596: the webhooks built so far, or
    the error of the first rule whose service has no bundle yet. *)
Fixpoint buildWebhooks (g : Globals) (useApiV1 : bool) (k8sVersionMajor k8sVersionMinor : Z)
    (infos : list WebhookInfo) : M World (Err + list Webhook) :=
  match infos with
  | [] => ret (inr [])
  | whInfo :: rest =>
      let svcName := ServiceName (wi_ClientConfig whInfo) in
      if len (mapGet (admCaBundle g) svcName) =? 0 then ret (inl "empty caBundle")
      else
        do wh <- (if useApiV1 then ret (buildWebhookV1 g whInfo)
                  else do nsSelectorSupported <- IsNsSelectorSupported;
                       ret (buildWebhookV1beta1 g k8sVersionMajor k8sVersionMinor
                              nsSelectorSupported whInfo));
        do r <- buildWebhooks g useApiV1 k8sVersionMajor k8sVersionMinor rest;
        match r with
        | inl err => ret (inl err)
        | inr webhooks => ret (inr (wh :: webhooks))
        end
  end.

Definition metaNamed (name : string) (resVersion : option string) : ObjectMeta :=
  {| om_Name := Some name; om_ResourceVersion := resVersion; om_Labels := None |}.

Definition configObj (useApiV1 : bool) (c : ValidatingWebhookConfiguration) : Obj :=
  if useApiV1 then ObjV1Config c else ObjV1beta1Config c.

(** [configK8sAdmCtrlValidateResource] *)
Definition configK8sAdmCtrlValidateResource (g : Globals) (op resVersion : string)
    (k8sResInfo : ValidatingWebhookConfigInfo) : M World (option Err) :=
  do '(k8sVersionMajor, k8sVersionMinor) <- orchVersion;
  let useApiV1 := bool_decide (k8sVersionMajor = 1) && (22 <=? k8sVersionMinor) in
  if bool_decide (op = K8sResOpDelete) then
    orchDelete RscTypeValidatingWebhookConfiguration
      (configObj useApiV1 {| vwc_Metadata := metaNamed (vi_Name k8sResInfo) None;
                             vwc_Webhooks := [] |})
  else if bool_decide (op = K8sResOpCreate) || bool_decide (op = K8sResOpUpdate) then
    do r <- buildWebhooks g useApiV1 k8sVersionMajor k8sVersionMinor (WebhooksInfo k8sResInfo);
    match r with
    | inl err => ret (Some err)
    | inr webhooks =>
        if bool_decide (op = K8sResOpCreate) then
          orchAdd RscTypeValidatingWebhookConfiguration
            (configObj useApiV1 {| vwc_Metadata := metaNamed (vi_Name k8sResInfo) None;
                                   vwc_Webhooks := webhooks |})
        else
          orchUpdate RscTypeValidatingWebhookConfiguration
            (configObj useApiV1 {| vwc_Metadata := metaNamed (vi_Name k8sResInfo) (Some resVersion);
                                   vwc_Webhooks := webhooks |})
    end
  else ret (Some "unsupported k8s resource operation").

(** [UnregK8sAdmissionControl] *)
Definition UnregK8sAdmissionControl (g : Globals) (admType nvAdmName : string)
  : M World (option Err) :=
  configK8sAdmCtrlValidateResource g K8sResOpDelete "" {| vi_Name := nvAdmName; WebhooksInfo := [] |}.

(** ** The reconcile loop *)

Definition withPort (whInfo : WebhookInfo) (port : Z) : WebhookInfo :=
  {| wi_Name := wi_Name whInfo;
     wi_ClientConfig := {| ClientMode := ClientMode (wi_ClientConfig whInfo);
                           ServiceName := ServiceName (wi_ClientConfig whInfo);
                           Path := Path (wi_ClientConfig whInfo);
                           Port := port |};
     wi_FailurePolicy := wi_FailurePolicy whInfo;
     wi_TimeoutSeconds := wi_TimeoutSeconds whInfo |}.

(** Lines 629-634: every rule in URL mode takes the port of its service.
    The rules are updated through their pointers: the list returned is what
    [k8sResInfo.WebhooksInfo] holds afterwards. *)
Fixpoint resolvePorts (g : Globals) (infos : list WebhookInfo) : M World (list WebhookInfo) :=
  match infos with
  | [] => ret []
  | whInfo :: rest =>
      do whInfo' <-
        (if bool_decide (ClientMode (wi_ClientConfig whInfo) = AdmClientModeUrl) then
           do '(_, svcInfo) <- GetValidateWebhookSvcInfo g (ServiceName (wi_ClientConfig whInfo));
           ret (withPort whInfo (SvcNodePort svcInfo))
         else ret whInfo);
      do rest' <- resolvePorts g rest;
      ret (whInfo' :: rest')
  end.

(** Lines 645-656: the operation for one attempt, [""] for none. *)
Definition selectOp (k8sConfigured matchedCfg enable : bool) : string :=
  if k8sConfigured && negb enable then K8sResOpDelete
  else if enable then
    if negb k8sConfigured then K8sResOpCreate
    else if negb matchedCfg then K8sResOpUpdate
    else ""
  else "".

(** How one iteration of the loop of lines 635-665 ends: with a [return]
    of [(skip, err)], or at [retry++] with the value of [err]. *)
Inductive Attempt :=
| Stop (skip : bool) (err : option Err)
| Again (err : option Err).

(** Lines 636-663: one iteration. *)
Definition reconcileAttempt (g : Globals) (k8sResInfo : ValidatingWebhookConfigInfo)
    (enable : bool) : M World Attempt :=
  do '(k8sConfigured, matchedCfg, verRead, err) <- isK8sConfiguredAsExpected g k8sResInfo;
  if negb k8sConfigured && negb matchedCfg && negb enable && bool_decide (is_Some err) then
    ret (Stop true None)
  else if (negb k8sConfigured && negb enable) || (matchedCfg && k8sConfigured && enable) then
    ret (Stop true None)
  else
    let op := selectOp k8sConfigured matchedCfg enable in
    if negb (bool_decide (op = "")) then
      do err <- configK8sAdmCtrlValidateResource g op verRead k8sResInfo;
      match err with
      | None => ret (Stop false None)
      | Some _ => ret (Again err)
      end
    else ret (Again err).

(** The loop [for retry < 3] of lines 635-665 with [remaining = 3 - retry],
    followed by the return of line 669; [err] is the variable of line 627. *)
Fixpoint reconcileLoop (g : Globals) (k8sResInfo : ValidatingWebhookConfigInfo)
    (enable : bool) (remaining : nat) (err : option Err) : M World (bool * option Err) :=
  match remaining with
  | O => ret (true, err)
  | S remaining' =>
      do a <- reconcileAttempt g k8sResInfo enable;
      match a with
      | Stop skip err => ret (skip, err)
      | Again err => reconcileLoop g k8sResInfo enable remaining' err
      end
  end.

(** [ConfigK8sAdmissionControl]: (skip, err); a nil [ctrlState] is [None]. *)
Definition ConfigK8sAdmissionControl (g : Globals) (k8sResInfo : ValidatingWebhookConfigInfo)
    (ctrlState : option CLUSAdmCtrlState) : M World (bool * option Err) :=
  match ctrlState with
  | None => ret (true, None)
  | Some ctrlState =>
      if bool_decide (Uri ctrlState = "") then ret (true, None)
      else
        do infos <- resolvePorts g (WebhooksInfo k8sResInfo);
        reconcileLoop g {| vi_Name := vi_Name k8sResInfo; WebhooksInfo := infos |}
          (Enable ctrlState) 3 None
  end.

(** ** The connectivity probe, initiator *)

(** What one [select] of the poll loop receives: a tick of the ticker of
    line 746 or a signal (interrupt, SIGTERM). Time is not modelled: the
    loops are driven by the events they receive, one for each iteration. *)
Inductive PollEvent := Tick | Signal.

(** The bound of line 747. *)
Definition pollBudget : nat := 10.

(** The loop of lines 747-760 from iteration [i], [fuel = 10 - i], followed
    by the return of line 765; [events i] is what the [select] of iteration
    [i] receives. *)
Fixpoint pollLoop (g : Globals) (svcname tag : string) (events : nat -> PollEvent)
    (i fuel : nat) : M World (Z * option Err) :=
  match fuel with
  | O => ret (TestFailed, None)
  | S fuel' =>
      match events i with
      | Tick =>
          do '(err, svcInfo) <- GetValidateWebhookSvcInfo g svcname;
          if bool_decide (err = None)
             && bool_decide (LabelTag svcInfo = tag)
             && bool_decide (LabelEcho svcInfo = tag)
          then ret (TestSucceeded, None)
          else pollLoop g svcname tag events (S i) fuel'
      | Signal => ret (TestAborted, None)
      end
  end.

(** [TestAdmWebhookConnection]; [now] is [time.Now().Unix()]. *)
Definition TestAdmWebhookConnection (g : Globals) (now : Z) (events : nat -> PollEvent)
    (svcname : string) : M World (Z * option Err) :=
  do r <- orchGet RscTypeService NvAdmSvcNamespace svcname;
  match r with
  | inl err => ret (TestFailedAtRead, Some err)
  | inr obj =>
      match svcLabelKeys g !! svcname with
      | None => ret (TestFailedAtRead, Some "svc labels unknown")
      | Some keys =>
          match obj with
          | ObjService svc =>
              match svc with
              | Some {| svc_Metadata := Some md; svc_Spec := spec |} =>
                  match om_ResourceVersion md with
                  | Some _ =>
                      let labels := default ∅ (om_Labels md) in
                      let tag := pretty now in
                      let labels := <[TagKey keys := tag]> labels in
                      let labels :=
                        if bool_decide (is_Some (labels !! EchoKey keys))
                        then delete (EchoKey keys) labels else labels in
                      do err <- orchUpdate RscTypeService
                                  (ObjService (Some
                                     {| svc_Metadata :=
                                          Some {| om_Name := om_Name md;
                                                  om_ResourceVersion := om_ResourceVersion md;
                                                  om_Labels := Some labels |};
                                        svc_Spec := spec |}));
                      match err with
                      | Some e => ret (TestFailedAtWrite, Some e)
                      | None => pollLoop g svcname tag events 0 pollBudget
                      end
                  | None => ret (TestFailed, None)
                  end
              | _ => ret (TestFailed, None)
              end
          | _ => panic
          end
      end
  end.

End Package.

(** ** Reading a run *)

(** The value a run returned, if it returned. *)
Definition returned {W A : Type} (x : Outcome A * Store W) : option A :=
  match fst x with
  | Returned a => Some a
  | Panicked => None
  end.

(** The orchestrator calls of a run, oldest first. *)
Definition calls {W A : Type} (x : Outcome A * Store W) : list StoreCall := trace (snd x).

(** A run from the world [w] with an empty trace. *)
Definition run {W A : Type} (m : M W A) (w : W) : Outcome A * Store W := m (mkStore w []).

(** What a trace last saw of an object: the answer of the read if the last
    call is a read, the object written if it is an update. *)
Definition lastSeen (tr : list StoreCall) : option (Err + Obj) :=
  match last tr with
  | Some (CallGet _ _ _ r) => Some r
  | Some (CallUpdate _ obj _) => Some (inr obj)
  | _ => None
  end.

(** The labels of a namespace as an answer or a written object shows them:
    the label map of a namespace that has metadata (a nil map is the empty
    map, as at lines 775-777), nothing for anything else. The name and the
    version token play no part. *)
Definition namespaceLabels (r : Err + Obj) : option (gmap string string) :=
  match r with
  | inr (ObjNamespace (Some {| ns_Metadata := Some md |})) => Some (default ∅ (om_Labels md))
  | _ => None
  end.

(** No write of the trace was refused. *)
Definition writesSucceeded (tr : list StoreCall) : bool :=
  forallb (fun c => match writeResult c with Some (Some _) => false | _ => true end) tr.

(** The trace holds no write. *)
Definition readOnly (tr : list StoreCall) : bool := forallb isGet tr.

(** The namespace object that [workSingleK8sNsLabels] writes: the object
    read, with the corrected labels. *)
Definition correctedNamespace (md : ObjectMeta) (labels : gmap string string) : Obj :=
  ObjNamespace (Some {| ns_Metadata :=
    Some {| om_Name := om_Name md;
            om_ResourceVersion := om_ResourceVersion md;
            om_Labels := Some labels |} |}).

(** ** Reading the polls of the probe *)

(** Whether the answer to a poll passes the test of lines 750-751: the read
    returned no error, and the tag label and the echo label both hold [tag]. *)
Definition echoed {K : Consts} (g : Globals) (svcname tag : string) (c : StoreCall) : bool :=
  match c with
  | CallGet _ _ _ r =>
      match svcInfoOfAnswer g svcname r with
      | Returned (None, svcInfo) =>
          bool_decide (LabelTag svcInfo = tag) && bool_decide (LabelEcho svcInfo = tag)
      | _ => false
      end
  | _ => false
  end.

(** Whether the answer to a poll makes [GetValidateWebhookSvcInfo] panic:
    line 692 reads the labels through the metadata without a nil test. *)
Definition pollPanics {K : Consts} (g : Globals) (svcname : string) (c : StoreCall) : bool :=
  match c with
  | CallGet _ _ _ r =>
      match svcInfoOfAnswer g svcname r with
      | Panicked => true
      | Returned _ => false
      end
  | _ => false
  end.


(** How a poll loop of [fuel] iterations that starts at iteration [i] can
    end, given the reads [polls] it made: no read but the last passes the
    test or panics, and
    - success: the last read passes the test;
    - aborted: a signal came in place of the next tick, within the budget;
    - failed: the budget is used up, one read for each iteration;
    - a panic on the last read. *)
Definition PollOutcome {K : Consts} (g : Globals) (svcname tag : string)
    (events : nat -> PollEvent) (i fuel : nat) (polls : list StoreCall)
    (out : Outcome (Z * option Err)) : Prop :=
  readOnly polls = true
  /\ (length polls <= fuel)%nat
  /\ (forall j, (j < length polls)%nat -> events (i + j)%nat = Tick)
  /\ exists pre,
       forallb (fun c => negb (echoed g svcname tag c) && negb (pollPanics g svcname c)) pre
       = true
       /\ ((out = Returned (TestSucceeded, None)
            /\ exists c, polls = (pre ++ [c])%list /\ echoed g svcname tag c = true)
           \/ (out = Returned (TestAborted, None)
               /\ polls = pre /\ (length polls < fuel)%nat
               /\ events (i + length polls)%nat = Signal)
           \/ (out = Returned (TestFailed, None)
               /\ polls = pre /\ length polls = fuel)
           \/ (out = Panicked
               /\ exists c, polls = (pre ++ [c])%list /\ pollPanics g svcname c = true)).

(** ** Reading the trace of the reconcile loop *)

(** The operation a write call stands for, [""] for a read. *)
Definition callOp (c : StoreCall) : string :=
  match c with
  | CallGet _ _ _ _ | CallList _ _ _ => ""
  | CallAdd _ _ _ => K8sResOpCreate
  | CallUpdate _ _ _ => K8sResOpUpdate
  | CallDelete _ _ _ => K8sResOpDelete
  end.

(** No write of the trace was accepted. *)
Definition noSuccessfulWrite (tr : list StoreCall) : bool :=
  forallb (fun c => match writeResult c with Some None => false | _ => true end) tr.

(** The numbers of write calls and of read calls of a trace. *)
Definition countWrites (tr : list StoreCall) : nat := length (List.filter isWrite tr).
Definition countReads (tr : list StoreCall) : nat := length (List.filter isGet tr).

(** How a reconcile loop of at most [n] attempts can end, given the calls
    [d] it made: at most [n] writes and [n] reads; a write that the
    orchestrator accepted is the last call and ends the loop with
    [(false, nil)]; otherwise the loop ends with [skip = true] (or a panic of
    the read phase). *)
Definition LoopOutcome (n : nat) (d : list StoreCall) (out : Outcome (bool * option Err))
  : Prop :=
  (countWrites d <= n)%nat
  /\ (countReads d <= n)%nat
  /\ exists pre,
       noSuccessfulWrite pre = true
       /\ ((out = Returned (false, None)
            /\ exists c, d = (pre ++ [c])%list /\ isWrite c = true
                         /\ writeResult c = Some None)
           \/ (d = pre /\ (out = Panicked \/ exists e, out = Returned (true, e)))).

(** ** A scripted orchestrator and concrete constants

    Used to run the package on concrete inputs. The scripted orchestrator
    answers each read with the next element of [gets] (an error once the
    list is used up) and each write with the next element of [writes]
    (success once the list is used up). The constants are sample values: the
    theorems below hold for every instance of [Consts] and of
    [Orchestrator]. *)

Module Demo.

Definition prefixMatch (pattern value : string) : bool :=
  match String.index 0 "*" pattern with
  | Some n => String.prefix (String.substring 0 n pattern) value
  | None => bool_decide (pattern = value)
  end.

Definition consts : Consts := {|
  NvAdmValidatingName := "neuvector-validating-admission-webhook";
  NvCrdValidatingName := "neuvector-validating-crd-webhook";
  NvAdmValidatingWebhookName := "neuvector-validating-admission-webhook.neuvector.svc";
  NvCrdValidatingWebhookName := "neuvector-validating-crd-webhook.neuvector.svc";
  NvStatusValidatingWebhookName := "neuvector-validating-status-webhook.neuvector.svc";
  RscTypeValidatingWebhookConfiguration := "validatingwebhookconfiguration";
  RscTypeService := "service";
  RscTypeNamespace := "namespace";
  AllNamespaces := "";
  K8sApiVersionV1 := "v1";
  K8sApiVersionV1Beta1 := "v1beta1";
  K8sApiVersionV1Beta2 := "v1beta2";
  NvAdmSvcNamespace := "neuvector";
  NsSelectorKeySkipNV := "NvSkipAdmissionControl";
  NsSelectorKeyStatusNV := "statusNeuvector";
  NsSelectorKeyCtrlPlane := "control-plane";
  NsSelectorOpNotExist := "DoesNotExist";
  NsSelectorOpExists := "Exists";
  CtrlPlaneOpInWhExpr := "DoesNotExist";
  Ignore := "Ignore";
  AdmResForOpsSettings :=
    [ {| rs_Operations := ["UPDATE"; "CREATE"]; rs_ApiGroups := ["*"];
         rs_Resources := ["pods"; "deployments"]; rs_Scope := "*" |} ];
  CrdResForOpsSettings :=
    [ {| rs_Operations := ["UPDATE"; "DELETE"; "CREATE"]; rs_ApiGroups := ["neuvector.com"];
         rs_Resources := ["nvsecurityrules"]; rs_Scope := "*" |} ];
  StatusResForOpsSettings :=
    [ {| rs_Operations := ["UPDATE"]; rs_ApiGroups := [""];
         rs_Resources := ["services"]; rs_Scope := "Namespaced" |} ];
  ServiceTypeClusterIP := "ClusterIP";
  ServiceTypeNodePort := "NodePort";
  AdmClientModeUrl := "url";
  RESTErrWebhookSvcForAdmCtrl := 31;
  RESTErrNvPermission := 43;
  EqualMatch := prefixMatch;
  IsK8sNvWebhookConfigured :=
    fun _ failurePolicy wh _ => bool_decide (k_FailurePolicy wh = Some failurePolicy)
|}.

Record Script := {
  version : Z * Z;
  gets : list (Err + Obj);
  writes : list (option Err)
}.

Definition scriptGet (w : Script) : (Err + Obj) * Script :=
  match gets w with
  | [] => (inl "not found", w)
  | r :: rest => (r, {| version := version w; gets := rest; writes := writes w |})
  end.

Definition scriptWrite (w : Script) : option Err * Script :=
  match writes w with
  | [] => (None, w)
  | r :: rest => (r, {| version := version w; gets := gets w; writes := rest |})
  end.

Definition orch : Orchestrator Script := {|
  GetResource := fun _ _ _ => scriptGet;
  AddResource := fun _ _ => scriptWrite;
  UpdateResource := fun _ _ => scriptWrite;
  DeleteResource := fun _ _ => scriptWrite;
  GetK8sVersion := version
|}.

Definition globals : Globals := {|
  admCaBundle := {[ "neuvector-svc-admission-webhook" := "PEM" ]};
  svcLabelKeys := {[ "neuvector-svc-admission-webhook" :=
                       {| TagKey := "tag-neuvector-svc-admission-webhook";
                          EchoKey := "echo-neuvector-svc-admission-webhook" |} ]};
  defAllowedNamespaces := {[ "kube-system" ]};
  allowedNamespaces := {[ "kube-system"; "neuvector" ]};
  allowedNamespacesWild := {[ "openshift-*" ]};
  nsSelectorValue := "true"
|}.

End Demo.

(** *** A store with version tokens

    An orchestrator that keeps, for each namespace, its labels and a version
    number. A read returns the namespace with its version token; an update is
    accepted when it names a namespace of the store and carries its current
    token, and stores the labels given under the next version. *)
Module Versioned.

Definition World := gmap string (Z * gmap string string).

Definition get (name : string) (w : World) : (Err + Obj) * World :=
  match w !! name with
  | Some (ver, labels) =>
      (inr (ObjNamespace (Some {| ns_Metadata :=
                                    Some {| om_Name := Some name;
                                            om_ResourceVersion := Some (pretty ver);
                                            om_Labels := Some labels |} |})), w)
  | None => (inl "not found", w)
  end.

Definition update (obj : Obj) (w : World) : option Err * World :=
  match obj with
  | ObjNamespace (Some {| ns_Metadata := Some md |}) =>
      match om_Name md with
      | Some name =>
          match w !! name with
          | Some (ver, _) =>
              if bool_decide (om_ResourceVersion md = Some (pretty ver)) then
                (None, <[name := (ver + 1, default ∅ (om_Labels md))]> w)
              else (Some "conflict", w)
          | None => (Some "not found", w)
          end
      | None => (Some "no name", w)
      end
  | _ => (Some "unsupported", w)
  end.

Definition orch : Orchestrator World := {|
  GetResource := fun _ _ name => get name;
  AddResource := fun _ _ w => (Some "unsupported", w);
  UpdateResource := fun _ => update;
  DeleteResource := fun _ _ w => (Some "unsupported", w);
  GetK8sVersion := fun _ => (1, 22)
|}.

End Versioned.

(** *** Concrete inputs *)

(** A versioned store that holds [kube-system] at version 41, carrying the
    status label. *)
Definition Demo_versionedWorld : Versioned.World :=
  {[ "kube-system" := (41, {[ "statusNeuvector" := "true" ]}) ]}.

(** A namespace of the scripted runs: [kube-system] carrying the status
    label, and the same namespace with the labels as the verification
    leaves them. *)
Definition Demo_kubeSystemMeta : ObjectMeta :=
  {| om_Name := Some "kube-system";
     om_ResourceVersion := Some "41";
     om_Labels := Some {[ "statusNeuvector" := "true" ]} |}.

Definition Demo_kubeSystem : Obj :=
  ObjNamespace (Some {| ns_Metadata := Some Demo_kubeSystemMeta |}).

Definition Demo_kubeSystemCorrected : Obj :=
  correctedNamespace Demo_kubeSystemMeta {[ "NvSkipAdmissionControl" := "true" ]}.

(** The CRD configuration of the scripted runs: what the controller asks
    for, and a configuration of the new generation that differs from it at
    most by its side-effect annotation [se]. *)
Definition Demo_crdInfo : ValidatingWebhookConfigInfo :=
  {| vi_Name := "neuvector-validating-crd-webhook";
     WebhooksInfo :=
       [ {| wi_Name := "neuvector-validating-crd-webhook.neuvector.svc";
            wi_ClientConfig := {| ClientMode := "service";
                                  ServiceName := "neuvector-svc-admission-webhook";
                                  Path := "/v1/validate/crd";
                                  Port := 443 |};
            wi_FailurePolicy := "Ignore";
            wi_TimeoutSeconds := 30 |} ] |}.

Definition Demo_crdConfig (se : string) : ValidatingWebhookConfiguration :=
  {| vwc_Metadata := {| om_Name := Some "neuvector-validating-crd-webhook";
                        om_ResourceVersion := Some "7";
                        om_Labels := None |};
     vwc_Webhooks :=
       [ {| wh_Name := Some "neuvector-validating-crd-webhook.neuvector.svc";
            wh_ClientConfig :=
              {| cc_Url := None;
                 cc_Service := Some {| sr_Namespace := Some "neuvector";
                                       sr_Name := Some "neuvector-svc-admission-webhook";
                                       sr_Path := Some "/v1/validate/crd" |};
                 cc_CaBundle := "PEM" |};
            wh_Rules := [];
            wh_FailurePolicy := Some "Ignore";
            wh_NamespaceSelector := None;
            wh_SideEffects := Some se;
            wh_AdmissionReviewVersions := ["v1beta1"];
            wh_MatchPolicy := Some "Exact";
            wh_TimeoutSeconds := Some 30 |} ] |}.

Definition Demo_crdWorld (k8sVersion : Z * Z) (newGeneration : bool) (se : string)
  : Demo.Script :=
  {| Demo.version := k8sVersion;
     Demo.gets := [inr (if newGeneration then ObjV1Config (Demo_crdConfig se)
                        else ObjV1beta1Config (Demo_crdConfig se))];
     Demo.writes := [] |}.

(** The probed service of the scripted runs, with the given labels. *)
Definition Demo_service (labels : option (gmap string string)) : Obj :=
  ObjService (Some {| svc_Metadata :=
                        Some {| om_Name := Some "neuvector-svc-admission-webhook";
                                om_ResourceVersion := Some "12";
                                om_Labels := labels |};
                      svc_Spec := Some {| spec_Type := Some "ClusterIP";
                                          spec_Ports := [] |} |}).

Definition Demo_tagged (tag : string) : Obj :=
  Demo_service (Some {[ "tag-neuvector-svc-admission-webhook" := tag ]}).


Definition Demo_probeWorld (answers : list Obj) : Demo.Script :=
  {| Demo.version := (1, 22);
     Demo.gets := map inr (Demo_service None :: answers);
     Demo.writes := [] |}.

(** The policy states of the scripted runs. *)
Definition Demo_enabled : CLUSAdmCtrlState := {| Enable := true; Uri := "/v1/validate" |}.

(** A world of server 1.22 where the CRD configuration is registered with
    the annotation ["Some"], hence not matched, and every update is refused. *)
Definition Demo_conflictWorld : Demo.Script :=
  {| Demo.version := (1, 22);
     Demo.gets := replicate 3 (inr (ObjV1Config (Demo_crdConfig "Some")));
     Demo.writes := [Some "conflict 1"; Some "conflict 2"; Some "conflict 3"] |}.

(** A world where nothing is registered: every read is answered by an error. *)
Definition Demo_emptyWorld : Demo.Script :=
  {| Demo.version := (1, 22); Demo.gets := []; Demo.writes := [] |}.

(** ** The rest of the package *)

(** [GetSvcLabelKeysForTest] *)
Definition GetSvcLabelKeysForTest (g : Globals) (svcname : string) : string * string :=
  match svcLabelKeys g !! svcname with
  | Some keys => (TagKey keys, EchoKey keys)
  | None => ("", "")
  end.

(** [global.ORCH.ListResource], the listing call of the orchestrator of
    lines 107 and 122; as every other call it may answer anything and change
    the world, and it is appended to the trace with its answer. *)
Class Lister (World : Type) := {
  ListResource : string -> World -> (list Listed * option Err) * World
}.

Section Rest.
Context {K : Consts} {World : Type} {ORCH : Orchestrator World} {LIST : Lister World}.






(** ** The connectivity probe, responder *)

(** Lines 826-845: one tick of the responder; [true] when it returns from
    the function (its update was accepted), [false] when the loop goes on. *)
Definition echoTick (g : Globals) (keys : WebhookSvcLabelKey) (tagExpected svcname : string)
  : M World bool :=
  do r <- orchGet RscTypeService NvAdmSvcNamespace svcname;
  match r with
  | inr (ObjService (Some {| svc_Metadata := Some md; svc_Spec := spec |})) =>
      match om_ResourceVersion md, om_Labels md with
      | Some _, Some labels =>
          if (0 <? Z.of_nat (size labels)) then
            match labels !! TagKey keys with
            | Some tag =>
                if bool_decide (tag = tagExpected) then
                  do err <- orchUpdate RscTypeService
                              (ObjService (Some
                                 {| svc_Metadata :=
                                      Some {| om_Name := om_Name md;
                                              om_ResourceVersion := om_ResourceVersion md;
                                              om_Labels := Some (<[EchoKey keys := tag]> labels) |};
                                    svc_Spec := spec |}));
                  match err with
                  | None => ret true
                  | Some _ => ret false
                  end
                else ret false
            | None => ret false
            end
          else ret false
      | _, _ => ret false
      end
  | _ => ret false
  end.

(** The loop of lines 823-849 from iteration [i], [fuel = 4 - i]. *)
Fixpoint echoLoop (g : Globals) (keys : WebhookSvcLabelKey) (tagExpected svcname : string)
    (events : nat -> PollEvent) (i fuel : nat) : M World unit :=
  match fuel with
  | O => ret tt
  | S fuel' =>
      match events i with
      | Tick =>
          do done <- echoTick g keys tagExpected svcname;
          if done then ret tt
          else echoLoop g keys tagExpected svcname events (S i) fuel'
      | Signal => ret tt
      end
  end.

(** [EchoAdmWebhookConnection] *)
Definition EchoAdmWebhookConnection (g : Globals) (events : nat -> PollEvent)
    (tagExpected svcname : string) : M World unit :=
  match svcLabelKeys g !! svcname with
  | None => ret tt
  | Some keys => echoLoop g keys tagExpected svcname events 0 4
  end.

End Rest.


(** A service of type NodePort for the scripted runs. *)
Definition Demo_nodePortService (port : Z) : Obj :=
  ObjService (Some {| svc_Metadata :=
                        Some {| om_Name := Some "neuvector-svc-admission-webhook";
                                om_ResourceVersion := Some "12";
                                om_Labels := None |};
                      svc_Spec := Some {| spec_Type := Some "NodePort";
                                          spec_Ports := [None; Some {| NodePort := None |};
                                                         Some {| NodePort := Some port |}] |} |}).

(** The admission rule in URL mode and in service mode. *)
Definition Demo_urlRule : WebhookInfo :=
  {| wi_Name := "neuvector-validating-admission-webhook.neuvector.svc";
     wi_ClientConfig := {| ClientMode := "url";
                           ServiceName := "neuvector-svc-admission-webhook";
                           Path := "/v1/validate/1";
                           Port := 0 |};
     wi_FailurePolicy := "Fail";
     wi_TimeoutSeconds := 30 |}.

Definition Demo_serviceRule : WebhookInfo :=
  {| wi_Name := "neuvector-validating-status-webhook.neuvector.svc";
     wi_ClientConfig := {| ClientMode := "service";
                           ServiceName := "neuvector-svc-admission-webhook";
                           Path := "/v1/validate/status";
                           Port := 8443 |};
     wi_FailurePolicy := "Ignore";
     wi_TimeoutSeconds := 30 |}.

(** Every write of the trace is one of the operations [ops]. *)
Definition writesAmong (ops : list string) (tr : list StoreCall) : bool :=
  forallb (fun c => isGet c || existsb (String.eqb (callOp c)) ops) tr.

(** The operations [ConfigK8sAdmissionControl] may apply in each policy
    state, lines 645-656. *)
Definition opsFor (enable : bool) : list string :=
  if enable then [K8sResOpCreate; K8sResOpUpdate] else [K8sResOpDelete].

(** ** Reading the trace of the responder *)

(** A call the responder may make: a read of the service [svcname], or an
    update of a service object that, were it the answer to a poll of the
    initiator, would pass the test of lines 750-751 for [tag]. *)
Definition responderCall {K : Consts} (g : Globals) (svcname tag : string) (c : StoreCall)
  : bool :=
  match c with
  | CallGet rt ns n _ =>
      bool_decide (rt = RscTypeService) && bool_decide (ns = NvAdmSvcNamespace)
      && bool_decide (n = svcname)
  | CallUpdate rt obj _ =>
      bool_decide (rt = RscTypeService)
      && echoed g svcname tag (CallGet rt NvAdmSvcNamespace svcname (inr obj))
  | _ => false
  end.

(** How a responder loop of [fuel] iterations can end, given the calls [d]
    it made: one read for each tick it served, at most one update after each
    read, and an accepted update comes last. *)
Definition EchoOutcome {K : Consts} (g : Globals) (svcname tag : string) (fuel : nat)
    (d : list StoreCall) : Prop :=
  forallb (responderCall g svcname tag) d = true
  /\ (countReads d <= fuel)%nat
  /\ (countWrites d <= countReads d)%nat
  /\ exists pre,
       noSuccessfulWrite pre = true
       /\ (d = pre \/ exists rt obj, d = (pre ++ [CallUpdate rt obj None])%list).

(** Whether a call is a read answered by a service that the responder
    echoes (lines 831-832): it has metadata, a version token, and the tag
    [tag] under the tag key (so its label map is not empty). *)
Definition carriesTag (keys : WebhookSvcLabelKey) (tag : string) (c : StoreCall) : bool :=
  match c with
  | CallGet _ _ _ (inr (ObjService (Some {| svc_Metadata := Some md |}))) =>
      match om_ResourceVersion md with
      | Some _ => bool_decide (default ∅ (om_Labels md) !! TagKey keys = Some tag)
      | None => false
      end
  | _ => false
  end.

(** A world for the responder: the service is read first without labels,
    then with another tag, then with the tag ["1700000000"]; the update is
    accepted. *)
Definition Demo_echoWorld : Demo.Script :=
  {| Demo.version := (1, 22);
     Demo.gets := map inr [Demo_service None; Demo_tagged "1699999999";
                           Demo_tagged "1700000000"];
     Demo.writes := [None] |}.

(** * Properties *)

(** ** Go library functions *)

Lemma len_pos (s : string) : (0 <? len s) = true <-> s <> "".
Proof.
  unfold len. destruct s as [|c s]; simpl.
  - split; [discriminate | congruence].
  - split; [discriminate | reflexivity].
Qed.

Lemma len_zero (s : string) : (len s =? 0) = true <-> s = "".
Proof.
  unfold len. destruct s as [|c s]; simpl.
  - split; reflexivity.
  - split; discriminate.
Qed.

(** ** The trust-bundle registry *)

Lemma ResetCABundle_changed (g : Globals) (svcName caBundle : string) :
  snd (ResetCABundle g svcName caBundle) = true
  <-> caBundle <> "" /\ mapGet (admCaBundle g) svcName <> caBundle.
Proof.
  unfold ResetCABundle.
  destruct (0 <? len caBundle) eqn:Hlen; simpl.
  - apply len_pos in Hlen. case_bool_decide; simpl.
    + split; [discriminate | intros [_ Hne]; contradiction].
    + split; [intros _; split; assumption | reflexivity].
  - split; [discriminate |].
    intros [Hne _]. apply len_pos in Hne. congruence.
Qed.

(** C8, as amended: [ResetCABundle] stores the new bundle exactly when it
    is not empty and differs from the stored value; it returns true exactly
    when it stored, which is exactly when the stored value changed; otherwise
    the globals are untouched; the label keys are never touched. *)
Theorem ResetCABundle_spec (g : Globals) (svcName caBundle : string) :
  let '(g', changed) := ResetCABundle g svcName caBundle in
  (changed = true <-> caBundle <> "" /\ mapGet (admCaBundle g) svcName <> caBundle)
  /\ (changed = true -> admCaBundle g' = <[svcName := caBundle]> (admCaBundle g))
  /\ (changed = false -> g' = g)
  /\ (changed = true <-> mapGet (admCaBundle g') svcName <> mapGet (admCaBundle g) svcName)
  /\ svcLabelKeys g' = svcLabelKeys g.
Proof.
  pose proof (ResetCABundle_changed g svcName caBundle) as Hch.
  unfold ResetCABundle in *.
  destruct ((0 <? len caBundle) && negb (bool_decide (mapGet (admCaBundle g) svcName = caBundle)))
    eqn:Hc; simpl in *.
  - destruct Hch as [Hch _]. specialize (Hch eq_refl). destruct Hch as [Hne Hdiff].
    split; [tauto |]. split; [reflexivity |]. split; [discriminate |].
    split; [| reflexivity].
    split; [| reflexivity].
    intros _. unfold mapGet at 1. rewrite lookup_insert_eq. simpl. congruence.
  - split; [exact Hch |]. split; [discriminate |]. split; [reflexivity |].
    split; [| reflexivity].
    split; [discriminate | intros Hne; contradiction Hne; reflexivity].
Qed.

(** C8, counterexample: the stored bundle is ["PEM"], the new bundle [""]
    differs from it, and yet nothing is stored and the answer is false. *)
Lemma ResetCABundle_ignores_empty_bundle :
  mapGet (admCaBundle Demo.globals) "neuvector-svc-admission-webhook" = "PEM"
  /\ "" <> "PEM"
  /\ ResetCABundle Demo.globals "neuvector-svc-admission-webhook" "" = (Demo.globals, false).
Proof.
  split; [vm_compute; reflexivity |].
  split; [discriminate | reflexivity].
Qed.

(** [SetCABundle], by contrast, writes the pair of label keys on every call. *)
Lemma SetCABundle_keys (g : Globals) (svcName caBundle : string) :
  svcLabelKeys (SetCABundle g svcName caBundle) !! svcName
  = Some {| TagKey := "tag-" +:+ svcName; EchoKey := "echo-" +:+ svcName |}
  /\ mapGet (admCaBundle (SetCABundle g svcName caBundle)) svcName = caBundle.
Proof.
  unfold SetCABundle, mapGet; simpl. rewrite !lookup_insert_eq. split; reflexivity.
Qed.

(** ** Service information *)

Section ServiceInfo.
Context {K : Consts} {World : Type} {ORCH : Orchestrator World}.

(** When the read of the service fails, the error is handed back and the
    status is the permission code exactly when both patterns occur at an
    index greater than zero. *)
Lemma GetValidateWebhookSvcInfo_on_error (g : Globals) (svcname : string)
    (s : Store World) (err : Err) (w' : World) :
  GetResource RscTypeService NvAdmSvcNamespace svcname (world s) = (inl err, w') ->
  exists info,
    GetValidateWebhookSvcInfo g svcname s
    = (Returned (Some err, info),
       mkStore w' (trace s ++ [CallGet RscTypeService NvAdmSvcNamespace svcname (inl err)]))
    /\ Status info
       = (if (0 <? strings_Index err " 403 ") && (0 <? strings_Index err "forbidden")
          then RESTErrNvPermission else RESTErrWebhookSvcForAdmCtrl)
    /\ SvcNodePort info = 443.
Proof.
  intros Hget.
  unfold GetValidateWebhookSvcInfo, bind, orchGet, svcInfoOfAnswer. rewrite Hget.
  destruct ((0 <? strings_Index err " 403 ") && (0 <? strings_Index err "forbidden"));
    eexists; (split; [reflexivity | split; reflexivity]).
Qed.

End ServiceInfo.

(** C9, the code at a failing input: the error text contains both [" 403 "]
    and ["forbidden"], the latter at index 0, and the status returned is the
    generic one, not the permission code. *)
Theorem GetValidateWebhookSvcInfo_forbidden_at_index_0 :
  let err := "forbidden: status 403 returned for services" in
  let w := {| Demo.version := (1, 22); Demo.gets := [inl err]; Demo.writes := [] |} in
  strings_Contains err " 403 " = true
  /\ strings_Contains err "forbidden" = true
  /\ strings_Index err "forbidden" = 0
  /\ option_map (fun r => (fst r, Status (snd r)))
       (returned (run (GetValidateWebhookSvcInfo (K := Demo.consts) (ORCH := Demo.orch)
                         Demo.globals "neuvector-svc-admission-webhook") w))
     = Some (Some err, RESTErrWebhookSvcForAdmCtrl (Consts := Demo.consts))
  /\ RESTErrWebhookSvcForAdmCtrl (Consts := Demo.consts)
     <> RESTErrNvPermission (Consts := Demo.consts).
Proof.
  repeat split; try (vm_compute; reflexivity).
  vm_compute. discriminate.
Qed.

(** The same error text with a leading word gets the permission code. *)
Lemma GetValidateWebhookSvcInfo_forbidden_inside :
  let err := "services is forbidden: status 403 returned" in
  let w := {| Demo.version := (1, 22); Demo.gets := [inl err]; Demo.writes := [] |} in
  option_map (fun r => (fst r, Status (snd r)))
    (returned (run (GetValidateWebhookSvcInfo (K := Demo.consts) (ORCH := Demo.orch)
                      Demo.globals "neuvector-svc-admission-webhook") w))
  = Some (Some err, RESTErrNvPermission (Consts := Demo.consts)).
Proof. vm_compute. reflexivity. Qed.

(** ** Namespace labels: the desired presence of each key *)

Section DesiredLabels.
Context {K : Consts}.

Lemma markWildcard_existsb (wild : list string) (nsName : string)
    (labelKeys : gmap string (option bool)) :
  markWildcard wild nsName labelKeys
  = if existsb (fun p => EqualMatch p nsName) wild
    then <[NsSelectorKeySkipNV := Some true]> labelKeys
    else labelKeys.
Proof.
  induction wild as [|p wild IH]; simpl; [reflexivity |].
  destruct (EqualMatch p nsName); simpl; [reflexivity | exact IH].
Qed.

(** Whether the namespace is in the allowed set, exactly or by a pattern. *)
Lemma allowed_reflect (g : Globals) (nsName : string) :
  bool_decide (nsName ∈ allowedNamespaces g)
  || existsb (fun p => EqualMatch p nsName) (elements (allowedNamespacesWild g)) = true
  <-> nsName ∈ allowedNamespaces g
      \/ exists p, p ∈ allowedNamespacesWild g /\ EqualMatch p nsName = true.
Proof.
  rewrite orb_true_iff, bool_decide_eq_true, existsb_exists.
  split; (intros [Hin | (p & Hp & Hm)]; [left; exact Hin | right; exists p; split; [| exact Hm]]).
  - apply elem_of_elements, list_elem_of_In, Hp.
  - apply list_elem_of_In, elem_of_elements, Hp.
Qed.

Lemma desiredLabelKeys_skip (g : Globals) (admCtrlEnabled : bool) (nsName : string) :
  NsSelectorKeySkipNV <> NsSelectorKeyStatusNV ->
  NsSelectorKeySkipNV <> NsSelectorKeyCtrlPlane ->
  desiredLabelKeys g admCtrlEnabled nsName !! NsSelectorKeySkipNV
  = Some (Some (admCtrlEnabled
                && (bool_decide (nsName ∈ allowedNamespaces g)
                    || existsb (fun p => EqualMatch p nsName)
                         (elements (allowedNamespacesWild g))))).
Proof.
  intros Hss Hsc. unfold desiredLabelKeys.
  rewrite markWildcard_existsb.
  destruct (existsb (fun p => EqualMatch p nsName) (elements (allowedNamespacesWild g))).
  all: destruct admCtrlEnabled; simpl.
  all: repeat case_bool_decide; simpl.
  all: repeat (rewrite ?lookup_insert_eq; rewrite ?lookup_insert_ne by congruence).
  all: rewrite ?lookup_singleton_eq; reflexivity.
Qed.

(** C5: the skip key must exist exactly when admission control is enabled
    and the namespace is in the exact allowed set or matches a pattern of
    the wildcard set; in every other case it must not exist. *)
Theorem skip_key_desired (g : Globals) (admCtrlEnabled : bool) (nsName : string)
    (Hstatus : NsSelectorKeySkipNV <> NsSelectorKeyStatusNV)
    (Hplane : NsSelectorKeySkipNV <> NsSelectorKeyCtrlPlane) :
  let allowed :=
    admCtrlEnabled = true
    /\ (nsName ∈ allowedNamespaces g
        \/ exists p, p ∈ allowedNamespacesWild g /\ EqualMatch p nsName = true) in
  (desiredLabelKeys g admCtrlEnabled nsName !! NsSelectorKeySkipNV = Some (Some true)
   <-> allowed)
  /\ (desiredLabelKeys g admCtrlEnabled nsName !! NsSelectorKeySkipNV = Some (Some false)
      <-> ~ allowed).
Proof.
  intros allowed. subst allowed.
  rewrite (desiredLabelKeys_skip g admCtrlEnabled nsName Hstatus Hplane).
  rewrite <- allowed_reflect.
  destruct (bool_decide (nsName ∈ allowedNamespaces g)
            || existsb (fun p => EqualMatch p nsName) (elements (allowedNamespacesWild g)));
    destruct admCtrlEnabled; simpl; (split; split).
  all: try (intros _; split; reflexivity).
  all: try reflexivity.
  all: try (intros [Ha Hb]; discriminate).
  all: try (intros Hn [Ha Hb]; discriminate).
  all: try (intros Hn; discriminate).
  all: try (intros Hn; exfalso; apply Hn; split; reflexivity).
Qed.

End DesiredLabels.

(** C5, an instance: with admission control enabled, [openshift-sdn]
    matches the pattern [openshift-*] and its skip key must exist. *)
Lemma skip_key_desired_witness :
  (desiredLabelKeys (K := Demo.consts) Demo.globals true "openshift-sdn"
     !! NsSelectorKeySkipNV (Consts := Demo.consts) = Some (Some true)
   <-> true = true
       /\ ("openshift-sdn" ∈ allowedNamespaces Demo.globals
           \/ exists p, p ∈ allowedNamespacesWild Demo.globals
                        /\ EqualMatch (Consts := Demo.consts) p "openshift-sdn" = true))
  /\ "openshift-*" ∈ allowedNamespacesWild Demo.globals
  /\ EqualMatch (Consts := Demo.consts) "openshift-*" "openshift-sdn" = true.
Proof.
  split.
  - apply (skip_key_desired (K := Demo.consts) Demo.globals true "openshift-sdn");
      vm_compute; discriminate.
  - split; [| vm_compute; reflexivity].
    unfold Demo.globals; simpl. apply elem_of_singleton. reflexivity.
Defined.

(** ** Namespace labels: correction *)

Lemma correctLabel_keep (value : string) (entries : list (string * option bool))
    (labels : gmap string string) (b : bool) (k : string) :
  k ∉ entries.*1 ->
  (foldl (correctLabel value) (labels, b) entries).1 !! k = labels !! k.
Proof.
  revert labels b. induction entries as [|[k' d] entries IH]; intros labels b Hk; [reflexivity |].
  simpl in Hk. apply not_elem_of_cons in Hk as [Hne Hk]. simpl.
  destruct d as [[|]|]; simpl; try (rewrite IH by exact Hk; reflexivity).
  - case_bool_decide; simpl; rewrite IH by exact Hk; [reflexivity |].
    rewrite lookup_insert_ne by congruence. reflexivity.
  - case_bool_decide; simpl; rewrite IH by exact Hk; [| reflexivity].
    rewrite lookup_delete_ne by congruence. reflexivity.
Qed.

Lemma correctLabel_head_agrees (value : string) (labels : gmap string string) (b : bool)
    (k : string) (d : option bool) :
  labelDisagrees (correctLabel value (labels, b) (k, d)).1 k d = false.
Proof.
  destruct d as [[|]|]; simpl; [| | reflexivity].
  - destruct (bool_decide (is_Some (labels !! k))) eqn:He; simpl.
    + rewrite He. reflexivity.
    + rewrite lookup_insert_eq. rewrite bool_decide_eq_true_2 by (eexists; reflexivity).
      reflexivity.
  - destruct (bool_decide (is_Some (labels !! k))) eqn:He; simpl.
    + rewrite lookup_delete_eq. rewrite bool_decide_eq_false_2; [reflexivity |].
      intros [x Hx]; discriminate.
    + rewrite He. reflexivity.
Qed.

Lemma labelDisagrees_ext (l1 l2 : gmap string string) (k : string) (d : option bool) :
  l1 !! k = l2 !! k -> labelDisagrees l1 k d = labelDisagrees l2 k d.
Proof. intros Heq. unfold labelDisagrees. rewrite Heq. reflexivity. Qed.

(** After the loop no key disagrees any more. *)
Lemma correctLabel_agrees (value : string) (entries : list (string * option bool))
    (labels : gmap string string) (b : bool) :
  NoDup entries.*1 ->
  forall k d, (k, d) ∈ entries ->
    labelDisagrees (foldl (correctLabel value) (labels, b) entries).1 k d = false.
Proof.
  revert labels b. induction entries as [|[k' d'] entries IH]; intros labels b Hnd k d Hin.
  - apply elem_of_nil in Hin. contradiction.
  - simpl in Hnd. apply NoDup_cons in Hnd as [Hnotin Hnd].
    apply elem_of_cons in Hin as [Heq | Hin].
    + inversion Heq; subst k' d'. cbn [foldl].
      destruct (correctLabel value (labels, b) (k, d)) as [labels1 b1] eqn:Hstep.
      rewrite (labelDisagrees_ext _ labels1).
      * pose proof (correctLabel_head_agrees value labels b k d) as Hh.
        rewrite Hstep in Hh. exact Hh.
      * apply correctLabel_keep. exact Hnotin.
    + cbn [foldl]. destruct (correctLabel value (labels, b) (k', d')) as [labels1 b1].
      apply IH; assumption.
Qed.

(** Labels that agree with every key are left as they are. *)
Lemma correctLabel_fixed (value : string) (entries : list (string * option bool))
    (labels : gmap string string) (b : bool) :
  (forall k d, (k, d) ∈ entries -> labelDisagrees labels k d = false) ->
  foldl (correctLabel value) (labels, b) entries = (labels, b).
Proof.
  induction entries as [|[k d] entries IH]; intros Hag; [reflexivity |].
  cbn [foldl].
  assert (Hstep : correctLabel value (labels, b) (k, d) = (labels, b)).
  { specialize (Hag k d (list_elem_of_here _ _)).
    destruct d as [[|]|]; simpl in *; [| | reflexivity].
    - destruct (bool_decide (is_Some (labels !! k))); simpl in *; [reflexivity | discriminate].
    - destruct (bool_decide (is_Some (labels !! k))); simpl in *; [discriminate | reflexivity]. }
  rewrite Hstep. apply IH. intros k0 d0 Hin. apply Hag. apply list_elem_of_further, Hin.
Qed.

(** The corrected labels need no further correction. *)
Lemma correctLabels_idempotent (value : string) (labelKeys : gmap string (option bool))
    (labels0 : gmap string string) :
  correctLabels value labelKeys (correctLabels value labelKeys labels0).1
  = ((correctLabels value labelKeys labels0).1, false).
Proof.
  unfold correctLabels. apply correctLabel_fixed.
  intros k d Hin. apply correctLabel_agrees; [| exact Hin].
  apply NoDup_fst_map_to_list.
Qed.

(** The corrected labels agree with every key that is not don't-care. *)
Lemma correctLabels_agree (value : string) (labelKeys : gmap string (option bool))
    (labels0 : gmap string string) (k : string) (b : bool) :
  labelKeys !! k = Some (Some b) ->
  (is_Some ((correctLabels value labelKeys labels0).1 !! k) <-> b = true).
Proof.
  intros Hk.
  assert (Hd : labelDisagrees (correctLabels value labelKeys labels0).1 k (Some b) = false).
  { unfold correctLabels. apply correctLabel_agrees; [apply NoDup_fst_map_to_list |].
    apply elem_of_map_to_list. exact Hk. }
  unfold labelDisagrees in Hd.
  destruct b; simpl in Hd.
  - rewrite orb_false_r in Hd. apply negb_false_iff, bool_decide_eq_true in Hd. tauto.
  - apply bool_decide_eq_false in Hd. split; [tauto | discriminate].
Qed.

(** [needUpdate] is false when no key disagrees with the labels read. *)
Lemma correctLabels_quiet (value : string) (labelKeys : gmap string (option bool))
    (labels0 : gmap string string) :
  (forall k d, labelKeys !! k = Some d -> labelDisagrees labels0 k d = false) ->
  correctLabels value labelKeys labels0 = (labels0, false).
Proof.
  intros Hag. unfold correctLabels. apply correctLabel_fixed.
  intros k d Hin. apply Hag. apply elem_of_map_to_list. exact Hin.
Qed.

(** ** Namespace labels: verification *)

Section Verify.
Context {K : Consts} {World : Type} {ORCH : Orchestrator World}.

Lemma verifyLoop_decides (g : Globals) (nsName : string) (nsLabels : gmap string string)
    (labelKeys : gmap string (option bool)) (entries : list (string * option bool)) :
  verifyLoop g nsName nsLabels labelKeys entries
  = if existsb (fun e => labelDisagrees nsLabels e.1 e.2) entries
    then (do _ <- workSingleK8sNsLabels g nsName labelKeys; ret tt)
    else ret tt.
Proof.
  induction entries as [|[k d] entries IH]; simpl; [reflexivity |].
  destruct (labelDisagrees nsLabels k d); simpl; [reflexivity | exact IH].
Qed.

Lemma workSingleK8sNsLabels_run (g : Globals) (nsName : string)
    (labelKeys : gmap string (option bool)) (s : Store World) :
  workSingleK8sNsLabels g nsName labelKeys s
  = let '(r, wa) := GetResource RscTypeNamespace "" nsName (world s) in
    let tr := (trace s ++ [CallGet RscTypeNamespace "" nsName r])%list in
    match r with
    | inl err => (Returned (Some err), mkStore wa tr)
    | inr (ObjNamespace (Some {| ns_Metadata := Some md |})) =>
        let '(labels, needUpdate) :=
          correctLabels (nsSelectorValue g) labelKeys (default ∅ (om_Labels md)) in
        if needUpdate then
          let '(res, wb) := UpdateResource RscTypeNamespace (correctedNamespace md labels) wa in
          (Returned res,
           mkStore wb (tr ++ [CallUpdate RscTypeNamespace (correctedNamespace md labels) res])%list)
        else (Returned None, mkStore wa tr)
    | inr (ObjNamespace _) => (Returned (Some "ns/metadata is nil"), mkStore wa tr)
    | inr _ => (Panicked, mkStore wa tr)
    end.
Proof.
  unfold workSingleK8sNsLabels, bind, orchGet, orchUpdate, ret, panic, correctedNamespace.
  destruct (GetResource RscTypeNamespace "" nsName (world s)) as [r wa].
  destruct r as [err | [c | c | sv | [[[md|]]|] | ]]; simpl; try reflexivity.
  destruct (correctLabels (nsSelectorValue g) labelKeys (default ∅ (om_Labels md)))
    as [labels [|]]; simpl; [| reflexivity].
  destruct (UpdateResource _ _ wa) as [res wb]. reflexivity.
Qed.

Lemma bind_ret_snd {A : Type} (m : M World A) (s : Store World) :
  snd ((do _ <- m; ret tt) s) = snd (m s).
Proof. unfold bind, ret. destruct (m s) as [[a|] s']; reflexivity. Qed.

(** C10: a nil label map is replaced by an empty map before any lookup:
    the run on nil is the run on the empty map, and on either no key counts
    as present. *)
Theorem VerifyK8sNs_nil_labels (g : Globals) (admCtrlEnabled : bool) (nsName : string)
    (s : Store World) :
  VerifyK8sNs g admCtrlEnabled nsName None s
  = VerifyK8sNs g admCtrlEnabled nsName (Some ∅) s
  /\ VerifyK8sNs g admCtrlEnabled nsName None s
     = verifyLoop g nsName ∅ (desiredLabelKeys g admCtrlEnabled nsName)
         (map_to_list (desiredLabelKeys g admCtrlEnabled nsName)) s
  /\ forall k d, labelDisagrees ∅ k d = match d with Some true => true | _ => false end.
Proof.
  split; [reflexivity |]. split; [reflexivity |].
  intros k [[|]|]; reflexivity.
Qed.

(** A correction that finds nothing to correct only reads. *)
Lemma workSingleK8sNsLabels_quiet (g : Globals) (nsName : string)
    (labelKeys : gmap string (option bool)) (w : World) (r : Err + Obj) :
  fst (GetResource RscTypeNamespace "" nsName w) = r ->
  (forall md, r = inr (ObjNamespace (Some {| ns_Metadata := Some md |})) ->
     (correctLabels (nsSelectorValue g) labelKeys (default ∅ (om_Labels md))).2 = false) ->
  readOnly (trace (snd (workSingleK8sNsLabels g nsName labelKeys (mkStore w [])))) = true.
Proof.
  intros Hr Hneed. rewrite workSingleK8sNsLabels_run. simpl.
  destruct (GetResource RscTypeNamespace "" nsName w) as [r0 wa0]. simpl in Hr. subst r0.
  destruct r as [err | [c | c | sv | [[[md|]]|] | ]]; simpl; try reflexivity.
  specialize (Hneed md eq_refl).
  destruct (correctLabels (nsSelectorValue g) labelKeys (default ∅ (om_Labels md)))
    as [labels0 need]. simpl in Hneed. subst need. reflexivity.
Qed.

Lemma VerifyK8sNs_store (g : Globals) (admCtrlEnabled : bool) (nsName : string)
    (nsLabels : option (gmap string string)) (s : Store World) :
  snd (VerifyK8sNs g admCtrlEnabled nsName nsLabels s)
  = if existsb (fun e => labelDisagrees (default ∅ nsLabels) e.1 e.2)
         (map_to_list (desiredLabelKeys g admCtrlEnabled nsName))
    then snd (workSingleK8sNsLabels g nsName (desiredLabelKeys g admCtrlEnabled nsName) s)
    else s.
Proof.
  unfold VerifyK8sNs. rewrite verifyLoop_decides.
  replace (match nsLabels with Some m => m | None => ∅ end) with (default ∅ nsLabels)
    by (destruct nsLabels; reflexivity).
  destruct (existsb _ _); [apply bind_ret_snd | reflexivity].
Qed.

(** C6: the verification run a second time, on a namespace that no one
    else changed since the first run, writes nothing. The first run's write,
    if any, is taken to have succeeded, and that no one else changed the
    namespace is: the next read of the namespace shows the labels that the
    first run last read or wrote, or no namespace if the first run was shown
    none (the version token of that read is free: a store that issues a new
    token on every update is covered). The second run is given the labels
    of the first run or, when the first run called the orchestrator, any
    labels (a refreshed copy, say). Moreover the labels the first run wrote
    agree with every key that is not don't-care. *)
Theorem VerifyK8sNs_idempotent (g : Globals) (admCtrlEnabled : bool) (nsName : string)
    (nsLabels nsLabels2 : option (gmap string string)) (w0 : World) :
  let first := run (VerifyK8sNs g admCtrlEnabled nsName nsLabels) w0 in
  let w1 := world (snd first) in
  writesSucceeded (calls first) = true ->
  (forall seen, lastSeen (calls first) = Some seen ->
                namespaceLabels (fst (GetResource RscTypeNamespace "" nsName w1))
                = namespaceLabels seen) ->
  (calls first = [] -> nsLabels2 = nsLabels) ->
  readOnly (calls (run (VerifyK8sNs g admCtrlEnabled nsName nsLabels2) w1)) = true
  /\ forall rt obj res, CallUpdate rt obj res ∈ calls first ->
       exists md labels,
         obj = ObjNamespace (Some {| ns_Metadata := Some md |})
         /\ om_Labels md = Some labels
         /\ forall k b, desiredLabelKeys g admCtrlEnabled nsName !! k = Some (Some b) ->
              (is_Some (labels !! k) <-> b = true).
Proof.
  intros first w1. subst first w1.
  unfold run, calls. rewrite !VerifyK8sNs_store.
  set (lk := desiredLabelKeys g admCtrlEnabled nsName).
  destruct (existsb (fun e => labelDisagrees (default ∅ nsLabels) e.1 e.2) (map_to_list lk))
    eqn:Hfirst.
  2: { simpl. intros _ _ Hsame. rewrite (Hsame eq_refl), Hfirst. split; [reflexivity |].
       intros rt obj res Hin. apply elem_of_nil in Hin. contradiction. }
  assert (Hsecond : forall w1 shown,
    namespaceLabels (fst (GetResource RscTypeNamespace "" nsName w1)) = shown ->
    (forall labels, shown = Some labels ->
       (correctLabels (nsSelectorValue g) lk labels).2 = false) ->
    readOnly (trace (if existsb (fun e => labelDisagrees (default ∅ nsLabels2) e.1 e.2)
                          (map_to_list lk)
                     then snd (workSingleK8sNsLabels g nsName lk (mkStore w1 []))
                     else mkStore w1 [])) = true).
  { intros w1 shown Hshown Hneed.
    destruct (existsb (fun e => labelDisagrees (default ∅ nsLabels2) e.1 e.2) (map_to_list lk));
      [| reflexivity].
    apply (workSingleK8sNsLabels_quiet g nsName lk w1 _ eq_refl).
    intros md2 Hr2. rewrite Hr2 in Hshown. simpl in Hshown.
    apply Hneed. symmetry. exact Hshown. }
  rewrite workSingleK8sNsLabels_run. simpl.
  destruct (GetResource RscTypeNamespace "" nsName w0) as [r wa].
  destruct r as [err | [c | c | sv | [[[md|]]|] | ]]; simpl.
  1-4,6-8: intros _ Hcoh _; (split;
    [ apply (Hsecond _ None); [exact (Hcoh _ eq_refl) | intros labels Hl; discriminate]
    | intros rt obj res Hin; apply list_elem_of_singleton in Hin; discriminate ]).
  destruct (correctLabels (nsSelectorValue g) lk (default ∅ (om_Labels md)))
    as [labels0 need] eqn:Hcorr.
  destruct need.
  - destruct (UpdateResource RscTypeNamespace (correctedNamespace md labels0) wa)
      as [res wb].
    simpl. unfold writesSucceeded, lastSeen. simpl.
    destruct res as [e|]; [discriminate |].
    intros _ Hcoh _. split.
    + apply (Hsecond _ (Some labels0)); [exact (Hcoh _ eq_refl) |].
      intros labels Hl. injection Hl as <-.
      pose proof (correctLabels_idempotent (nsSelectorValue g) lk (default ∅ (om_Labels md)))
        as Hid.
      rewrite Hcorr in Hid. simpl in Hid. rewrite Hid. reflexivity.
    + intros rt obj res Hin.
      apply elem_of_cons in Hin as [Hin | Hin]; [discriminate |].
      apply list_elem_of_singleton in Hin. inversion Hin; subst rt obj res.
      eexists _, labels0. split; [reflexivity |]. split; [reflexivity |].
      intros k b Hk.
      pose proof (correctLabels_agree (nsSelectorValue g) lk (default ∅ (om_Labels md)) k b Hk)
        as Hag.
      rewrite Hcorr in Hag. exact Hag.
  - simpl. intros _ Hcoh _. split.
    + apply (Hsecond _ (Some (default ∅ (om_Labels md)))); [exact (Hcoh _ eq_refl) |].
      intros labels Hl. injection Hl as <-. rewrite Hcorr. reflexivity.
    + intros rt obj res Hin. apply list_elem_of_singleton in Hin. discriminate.
Qed.

End Verify.

(** C6, an instance on the store with version tokens: [kube-system], at
    version 41, carries the status label and lacks the skip label. The first
    run reads it and updates it with the token read; the store accepts the
    update and moves to version 42. The second run, given the same stale
    labels, reads the namespace at version 42 with the corrected labels, and
    writes nothing. *)
Lemma VerifyK8sNs_idempotent_witness :
  let first := run (VerifyK8sNs (K := Demo.consts) (ORCH := Versioned.orch)
                      Demo.globals true "kube-system" None) Demo_versionedWorld in
  let second := run (VerifyK8sNs (K := Demo.consts) (ORCH := Versioned.orch)
                       Demo.globals true "kube-system" None) (world (snd first)) in
  calls first
  = [CallGet "namespace" "" "kube-system" (inr Demo_kubeSystem);
     CallUpdate "namespace" Demo_kubeSystemCorrected None]
  /\ world (snd first)
     = {[ "kube-system" := (42, {[ "NvSkipAdmissionControl" := "true" ]}) ]}
  /\ length (calls second) = 1%nat
  /\ readOnly (calls second) = true.
Proof.
  intros first second.
  split; [vm_compute; reflexivity |]. split; [vm_compute; reflexivity |].
  split; [vm_compute; reflexivity |].
  apply (VerifyK8sNs_idempotent (K := Demo.consts) (ORCH := Versioned.orch)
           Demo.globals true "kube-system" None None Demo_versionedWorld).
  - vm_compute. reflexivity.
  - intros seen Hseen. vm_compute in Hseen. injection Hseen as <-. vm_compute. reflexivity.
  - intros _. reflexivity.
Defined.

(** ** Drift detection: the side-effect annotation *)

Section SideEffects.
Context {K : Consts}.

(** A webhook is matched only if its side-effect annotation passes the
    test of line 356 against the expected value. *)
Lemma webhookMatched_sideEffects (g : Globals) (name : string) (useApiV1 : bool)
    (k8sVersionMajor k8sVersionMinor : Z) (nsSelectorSupported : bool)
    (wh : K8sAdmRegWebhook) (whInfo : WebhookInfo) :
  webhookMatched g name useApiV1 k8sVersionMajor k8sVersionMinor nsSelectorSupported wh whInfo
  = webhookMatched g name useApiV1 k8sVersionMajor k8sVersionMinor nsSelectorSupported
      wh whInfo
    && sideEffectsAccepted k8sVersionMinor (k_SideEffects wh)
         (expectedSideEffects name k8sVersionMajor k8sVersionMinor).
Proof.
  unfold webhookMatched.
  destruct (negb useApiV1 || bool_decide (k_AdmissionReviewVersions wh = [K8sApiVersionV1Beta1]));
    [| reflexivity].
  match goal with |- (if ?c then _ else _) = _ => destruct c; [| reflexivity] end.
  destruct (sideEffectsAccepted k8sVersionMinor (k_SideEffects wh)
              (expectedSideEffects name k8sVersionMajor k8sVersionMinor));
    [rewrite andb_true_r | ]; reflexivity.
Qed.

Lemma sideEffectsAccepted_checked (k8sVersionMinor : Z) (actual : option string)
    (sideEffects : string) :
  11 < k8sVersionMinor ->
  sideEffectsAccepted k8sVersionMinor actual sideEffects
  = bool_decide (actual = Some sideEffects).
Proof.
  intros Hm. unfold sideEffectsAccepted.
  rewrite (proj2 (Z.leb_gt _ _)) by lia. rewrite (proj2 (Z.ltb_lt _ _)) by lia. simpl.
  destruct actual as [s|].
  - repeat case_bool_decide; congruence.
  - rewrite bool_decide_eq_false_2 by discriminate. reflexivity.
Qed.

(** C1, as amended: for the CRD configuration the read phase expects
    ["NoneOnDryRun"] on server 1.22 and ["Some"] on server 1.15, on either
    schema generation ([useApiV1] is arbitrary): a webhook is matched only if
    it carries that value. For a server minor version of at most 11 the test
    accepts every annotation, and none. *)
Theorem side_effect_expected (g : Globals) (useApiV1 nsSelectorSupported : bool)
    (wh : K8sAdmRegWebhook) (whInfo : WebhookInfo)
    (k8sVersionMajor k8sVersionMinor : Z) (actual : option string) (name : string)
    (Hminor : k8sVersionMinor <= 11) :
  expectedSideEffects NvCrdValidatingName 1 22 = "NoneOnDryRun"
  /\ expectedSideEffects NvCrdValidatingName 1 15 = "Some"
  /\ webhookMatched g NvCrdValidatingName useApiV1 1 22 nsSelectorSupported wh whInfo
     = webhookMatched g NvCrdValidatingName useApiV1 1 22 nsSelectorSupported wh whInfo
       && bool_decide (k_SideEffects wh = Some "NoneOnDryRun")
  /\ webhookMatched g NvCrdValidatingName useApiV1 1 15 nsSelectorSupported wh whInfo
     = webhookMatched g NvCrdValidatingName useApiV1 1 15 nsSelectorSupported wh whInfo
       && bool_decide (k_SideEffects wh = Some "Some")
  /\ sideEffectsAccepted k8sVersionMinor actual
       (expectedSideEffects name k8sVersionMajor k8sVersionMinor) = true.
Proof.
  assert (H22 : expectedSideEffects NvCrdValidatingName 1 22 = "NoneOnDryRun").
  { unfold expectedSideEffects. rewrite bool_decide_eq_true_2 by reflexivity. reflexivity. }
  assert (H15 : expectedSideEffects NvCrdValidatingName 1 15 = "Some").
  { unfold expectedSideEffects. rewrite bool_decide_eq_true_2 by reflexivity. reflexivity. }
  split; [exact H22 |]. split; [exact H15 |].
  split; [| split].
  - rewrite webhookMatched_sideEffects at 1.
    rewrite H22, sideEffectsAccepted_checked by lia. reflexivity.
  - rewrite webhookMatched_sideEffects at 1.
    rewrite H15, sideEffectsAccepted_checked by lia. reflexivity.
  - unfold sideEffectsAccepted. rewrite (proj2 (Z.leb_le _ _)) by exact Hminor. reflexivity.
Qed.

End SideEffects.

(** C1, an instance: server 1.10. *)
Lemma side_effect_expected_witness :
  sideEffectsAccepted 10 (Some "Unknown")
    (expectedSideEffects (K := Demo.consts) "neuvector-validating-crd-webhook" 1 10) = true.
Proof.
  apply (side_effect_expected (K := Demo.consts) Demo.globals true true
           (normalizeWebhook true
              {| wh_Name := None;
                 wh_ClientConfig := {| cc_Url := None; cc_Service := None; cc_CaBundle := "" |};
                 wh_Rules := []; wh_FailurePolicy := None; wh_NamespaceSelector := None;
                 wh_SideEffects := None; wh_AdmissionReviewVersions := [];
                 wh_MatchPolicy := None; wh_TimeoutSeconds := None |})
           {| wi_Name := ""; wi_ClientConfig := {| ClientMode := ""; ServiceName := "";
                                                   Path := ""; Port := 0 |};
              wi_FailurePolicy := ""; wi_TimeoutSeconds := 0 |}
           1 10 (Some "Unknown") "neuvector-validating-crd-webhook").
  lia.
Defined.

(** C1, counterexample: server 1.15 and a configuration of the new schema
    generation. With the annotation ["NoneOnDryRun"] the configuration is
    found and not matched; the same configuration with ["Some"] is matched. *)
Lemma side_effect_new_generation_on_1_15 :
  returned (run (isK8sConfiguredAsExpected (K := Demo.consts) (ORCH := Demo.orch)
                   Demo.globals Demo_crdInfo)
                (Demo_crdWorld (1, 15) true "NoneOnDryRun"))
  = Some (true, false, "7", None)
  /\ returned (run (isK8sConfiguredAsExpected (K := Demo.consts) (ORCH := Demo.orch)
                      Demo.globals Demo_crdInfo)
                   (Demo_crdWorld (1, 15) true "Some"))
     = Some (true, true, "7", None).
Proof. split; vm_compute; reflexivity. Qed.

(** On server 1.22 the same configuration is matched with ["NoneOnDryRun"]
    and not with ["Some"]; on server 1.10 it is matched with either. *)
Lemma side_effect_runs :
  returned (run (isK8sConfiguredAsExpected (K := Demo.consts) (ORCH := Demo.orch)
                   Demo.globals Demo_crdInfo)
                (Demo_crdWorld (1, 22) true "NoneOnDryRun"))
  = Some (true, true, "7", None)
  /\ returned (run (isK8sConfiguredAsExpected (K := Demo.consts) (ORCH := Demo.orch)
                      Demo.globals Demo_crdInfo)
                   (Demo_crdWorld (1, 22) true "Some"))
     = Some (true, false, "7", None)
  /\ returned (run (isK8sConfiguredAsExpected (K := Demo.consts) (ORCH := Demo.orch)
                      Demo.globals Demo_crdInfo)
                   (Demo_crdWorld (1, 15) false "Some"))
     = Some (true, true, "7", None)
  /\ returned (run (isK8sConfiguredAsExpected (K := Demo.consts) (ORCH := Demo.orch)
                      Demo.globals Demo_crdInfo)
                   (Demo_crdWorld (1, 10) false "NoneOnDryRun"))
     = Some (true, true, "7", None)
  /\ returned (run (isK8sConfiguredAsExpected (K := Demo.consts) (ORCH := Demo.orch)
                      Demo.globals Demo_crdInfo)
                   (Demo_crdWorld (1, 10) false "Some"))
     = Some (true, true, "7", None).
Proof. repeat split; vm_compute; reflexivity. Qed.

(** ** Writing the configuration *)

Section Write.
Context {K : Consts} {World : Type} {ORCH : Orchestrator World}.

Lemma IsNsSelectorSupported_run (s : Store World) :
  IsNsSelectorSupported s
  = (Returned (bool_decide ((GetK8sVersion (world s)).1 = 1)
               && (14 <=? (GetK8sVersion (world s)).2)), s).
Proof.
  unfold IsNsSelectorSupported, bind, orchVersion, ret.
  destruct (GetK8sVersion (world s)) as [major minor]. reflexivity.
Qed.

(** Building the webhooks calls the orchestrator for nothing but its
    version: the store is left as it was, and the loop always returns. *)
Lemma buildWebhooks_pure (g : Globals) (useApiV1 : bool) (k8sVersionMajor k8sVersionMinor : Z)
    (infos : list WebhookInfo) (s : Store World) :
  exists r, buildWebhooks g useApiV1 k8sVersionMajor k8sVersionMinor infos s = (Returned r, s).
Proof.
  induction infos as [|whInfo infos IH]; simpl.
  - eexists. reflexivity.
  - destruct (len (mapGet (admCaBundle g) (ServiceName (wi_ClientConfig whInfo))) =? 0).
    + eexists. reflexivity.
    + destruct IH as [r IH]. unfold bind.
      destruct useApiV1.
      * unfold ret at 1. rewrite IH. destruct r; eexists; reflexivity.
      * rewrite IsNsSelectorSupported_run. unfold ret at 1. rewrite IH.
        destruct r; eexists; reflexivity.
Qed.

(** A rule whose service has no bundle makes the loop end with the error
    of lines 426 and 518. *)
Lemma buildWebhooks_empty_bundle (g : Globals) (useApiV1 : bool)
    (k8sVersionMajor k8sVersionMinor : Z) (infos : list WebhookInfo) (s : Store World)
    (whInfo : WebhookInfo) :
  whInfo ∈ infos ->
  mapGet (admCaBundle g) (ServiceName (wi_ClientConfig whInfo)) = "" ->
  buildWebhooks g useApiV1 k8sVersionMajor k8sVersionMinor infos s
  = (Returned (inl "empty caBundle"), s).
Proof.
  intros Hin Hempty. induction infos as [|whInfo' infos IH]; simpl.
  - apply elem_of_nil in Hin. contradiction.
  - destruct (len (mapGet (admCaBundle g) (ServiceName (wi_ClientConfig whInfo'))) =? 0)
      eqn:Hlen; [reflexivity |].
    apply elem_of_cons in Hin as [-> | Hin].
    + rewrite Hempty in Hlen. discriminate.
    + specialize (IH Hin). unfold bind.
      destruct useApiV1.
      * unfold ret at 1. rewrite IH. reflexivity.
      * rewrite IsNsSelectorSupported_run. unfold ret at 1. rewrite IH. reflexivity.
Qed.

(** C2: on create and on update, a rule whose service has an empty trust
    bundle in the registry makes [configK8sAdmCtrlValidateResource] return
    the error ["empty caBundle"] with the store exactly as it was: no call of
    the orchestrator, hence no add and no update. *)
Theorem write_needs_bundle (g : Globals) (op resVersion : string)
    (k8sResInfo : ValidatingWebhookConfigInfo) (whInfo : WebhookInfo) (s : Store World)
    (Hop : op = K8sResOpCreate \/ op = K8sResOpUpdate)
    (Hin : whInfo ∈ WebhooksInfo k8sResInfo)
    (Hempty : mapGet (admCaBundle g) (ServiceName (wi_ClientConfig whInfo)) = "") :
  configK8sAdmCtrlValidateResource g op resVersion k8sResInfo s
  = (Returned (Some "empty caBundle"), s).
Proof.
  unfold configK8sAdmCtrlValidateResource, bind, orchVersion.
  destruct (GetK8sVersion (world s)) as [major minor].
  destruct Hop as [-> | ->]; cbn [bool_decide]; simpl;
    rewrite (buildWebhooks_empty_bundle g _ major minor _ s whInfo Hin Hempty);
    reflexivity.
Qed.

End Write.

(** C2, an instance: an update of the CRD configuration while the registry
    holds no bundle at all. *)
Lemma write_needs_bundle_witness :
  let g := {| admCaBundle := ∅; svcLabelKeys := ∅; defAllowedNamespaces := ∅;
              allowedNamespaces := ∅; allowedNamespacesWild := ∅;
              nsSelectorValue := "true" |} in
  let w := Demo_crdWorld (1, 22) true "NoneOnDryRun" in
  run (configK8sAdmCtrlValidateResource (K := Demo.consts) (ORCH := Demo.orch)
         g "update" "7" Demo_crdInfo) w
  = (Returned (Some "empty caBundle"), mkStore w []).
Proof.
  intros g w.
  apply (write_needs_bundle (K := Demo.consts) (ORCH := Demo.orch) g "update" "7" Demo_crdInfo
           {| wi_Name := "neuvector-validating-crd-webhook.neuvector.svc";
              wi_ClientConfig := {| ClientMode := "service";
                                    ServiceName := "neuvector-svc-admission-webhook";
                                    Path := "/v1/validate/crd";
                                    Port := 443 |};
              wi_FailurePolicy := "Ignore";
              wi_TimeoutSeconds := 30 |} (mkStore w [])).
  - right. reflexivity.
  - simpl. apply list_elem_of_here.
  - vm_compute. reflexivity.
Defined.

(** ** The connectivity probe *)

Section Probe.
Context {K : Consts} {World : Type} {ORCH : Orchestrator World}.

Lemma GetValidateWebhookSvcInfo_run (g : Globals) (svcname : string) (s : Store World) :
  GetValidateWebhookSvcInfo g svcname s
  = let '(r, w) := GetResource RscTypeService NvAdmSvcNamespace svcname (world s) in
    (svcInfoOfAnswer g svcname r,
     mkStore w (trace s ++ [CallGet RscTypeService NvAdmSvcNamespace svcname r])%list).
Proof.
  unfold GetValidateWebhookSvcInfo, bind, orchGet.
  destruct (GetResource RscTypeService NvAdmSvcNamespace svcname (world s)) as [r w].
  reflexivity.
Qed.

(** The poll loop: its reads are appended to the trace, and it ends in one
    of the four ways of [PollOutcome]. *)
Lemma pollLoop_outcome (g : Globals) (svcname tag : string) (events : nat -> PollEvent)
    (fuel : nat) :
  forall (i : nat) (s : Store World),
  exists polls,
    trace (snd (pollLoop g svcname tag events i fuel s)) = (trace s ++ polls)%list
    /\ PollOutcome g svcname tag events i fuel polls
         (fst (pollLoop g svcname tag events i fuel s)).
Proof.
  induction fuel as [|fuel IH]; intros i s.
  - exists []. simpl. rewrite app_nil_r. split; [reflexivity |].
    split; [reflexivity |]. split; [simpl; lia |]. split; [simpl; intros; lia |].
    exists []. split; [reflexivity |]. right. right. left. repeat split.
  - simpl. destruct (events i) eqn:Hev.
    + unfold bind. rewrite GetValidateWebhookSvcInfo_run.
      destruct (GetResource RscTypeService NvAdmSvcNamespace svcname (world s)) as [r w].
      set (c := CallGet RscTypeService NvAdmSvcNamespace svcname r).
      destruct (svcInfoOfAnswer g svcname r) as [[err svcInfo]|] eqn:Hans.
      * destruct (bool_decide (err = None) && bool_decide (LabelTag svcInfo = tag)
                  && bool_decide (LabelEcho svcInfo = tag)) eqn:Hcond.
        -- exists [c]. simpl. split; [reflexivity |].
           split; [reflexivity |]. split; [simpl; lia |].
           split. { intros j Hj. simpl in Hj. replace (i + j)%nat with i by lia. exact Hev. }
           exists []. split; [reflexivity |]. left. split; [reflexivity |].
           exists c. split; [reflexivity |].
           unfold echoed, c. rewrite Hans.
           apply andb_true_iff in Hcond as [Hcond He].
           apply andb_true_iff in Hcond as [Hn Ht].
           apply bool_decide_eq_true in Hn. subst err. rewrite Ht, He. reflexivity.
        -- assert (Hne : echoed g svcname tag c = false).
           { unfold echoed, c. rewrite Hans. destruct err as [e|]; [reflexivity |].
             rewrite bool_decide_eq_true_2 in Hcond by reflexivity. exact Hcond. }
           destruct (IH (S i) (mkStore w (trace s ++ [c])%list))
             as (polls & Htr & Hro & Hlen & Hticks & pre & Hpre & Hcases).
           exists (c :: polls). simpl in Htr. rewrite Htr, <- app_assoc. simpl.
           split; [reflexivity |].
           split. { unfold readOnly in *. simpl. exact Hro. }
           split; [simpl; lia |].
           split. { intros j Hj. simpl in Hj. destruct j as [|j].
                    - replace (i + 0)%nat with i by lia. exact Hev.
                    - replace (i + S j)%nat with (S i + j)%nat by lia. apply Hticks. lia. }
           exists (c :: pre).
           split. { cbn [forallb]. rewrite Hne. unfold pollPanics at 1, c. rewrite Hans.
                    exact Hpre. }
           destruct Hcases as [(Ho & c' & Hp & Hc') | [(Ho & Hp & Hl & Hs)
                              | [(Ho & Hp & Hl) | (Ho & c' & Hp & Hc')]]].
           ++ left. split; [exact Ho |]. exists c'. subst polls. split; [reflexivity | exact Hc'].
           ++ right. left. split; [exact Ho |]. subst polls. split; [reflexivity |].
              split; [simpl; lia |].
              simpl. replace (i + S (length pre))%nat with (S i + length pre)%nat by lia.
              exact Hs.
           ++ right. right. left. split; [exact Ho |]. subst polls. split; [reflexivity |].
              simpl. lia.
           ++ right. right. right. split; [exact Ho |]. exists c'. subst polls.
              split; [reflexivity | exact Hc'].
      * exists [c]. simpl. split; [reflexivity |].
        split; [reflexivity |]. split; [simpl; lia |].
        split. { intros j Hj. simpl in Hj. replace (i + j)%nat with i by lia. exact Hev. }
        exists []. split; [reflexivity |]. right. right. right. split; [reflexivity |].
        exists c. split; [reflexivity |]. unfold pollPanics, c. rewrite Hans. reflexivity.
    + exists []. simpl. rewrite app_nil_r. split; [reflexivity |].
      split; [reflexivity |]. split; [simpl; lia |]. split; [simpl; intros; lia |].
      exists []. split; [reflexivity |]. right. left. split; [reflexivity |].
      split; [reflexivity |]. split; [simpl; lia |].
      simpl. replace (i + 0)%nat with i by lia. exact Hev.
Qed.



End Probe.



(** The fourth outcome: the second poll reads a service without metadata,
    and the probe panics there, after the read, the update and two polls. *)
Lemma probe_poll_panics :
  let bare := ObjService (Some {| svc_Metadata := None; svc_Spec := None |}) in
  let r := run (TestAdmWebhookConnection (K := Demo.consts) (ORCH := Demo.orch)
                  Demo.globals 1700000000 (fun _ => Tick)
                  "neuvector-svc-admission-webhook")
               (Demo_probeWorld [Demo_tagged "1700000000"; bare]) in
  fst r = Panicked
  /\ drop 2 (calls r)
     = [CallGet "service" "neuvector" "neuvector-svc-admission-webhook"
          (inr (Demo_tagged "1700000000"));
        CallGet "service" "neuvector" "neuvector-svc-admission-webhook" (inr bare)].
Proof. split; vm_compute; reflexivity. Qed.

(** A signal in place of the fourth tick: the probe is aborted after three
    polls. Without an echo and without a signal it fails after ten. *)
Lemma probe_runs :
  let svc := "neuvector-svc-admission-webhook" in
  let quiet := Demo_probeWorld (replicate 12 (Demo_tagged "1700000000")) in
  let aborted := run (TestAdmWebhookConnection (K := Demo.consts) (ORCH := Demo.orch)
                        Demo.globals 1700000000
                        (fun i => if Nat.eqb i 3 then Signal else Tick) svc) quiet in
  let failed := run (TestAdmWebhookConnection (K := Demo.consts) (ORCH := Demo.orch)
                       Demo.globals 1700000000 (fun _ => Tick) svc) quiet in
  returned aborted = Some (TestAborted, None) /\ length (calls aborted) = 5%nat
  /\ returned failed = Some (TestFailed, None) /\ length (calls failed) = 12%nat.
Proof. repeat split; vm_compute; reflexivity. Qed.

(** ** The reconcile loop *)

Section Reconcile.
Context {K : Consts} {World : Type} {ORCH : Orchestrator World}.

(** The comparison leaves the store as it is; when it returns, the
    configuration is found and there is no error. *)
Lemma compareConfig_run (g : Globals) (k8sResInfo : ValidatingWebhookConfigInfo)
    (useApiV1 : bool) (k8sVersionMajor k8sVersionMinor : Z)
    (k8sConfig : ValidatingWebhookConfiguration) (s : Store World) :
  exists out,
    compareConfig g k8sResInfo useApiV1 k8sVersionMajor k8sVersionMinor k8sConfig s = (out, s)
    /\ (out = Panicked \/ exists matched verRead, out = Returned (true, matched, verRead, None)).
Proof.
  unfold compareConfig.
  destruct (om_ResourceVersion (vwc_Metadata k8sConfig)) as [verRead|].
  - destruct (negb (Nat.eqb (length (vwc_Webhooks k8sConfig))
                            (length (WebhooksInfo k8sResInfo)))).
    + eexists. split; [reflexivity |]. right. eexists _, _. reflexivity.
    + unfold bind. rewrite IsNsSelectorSupported_run.
      match goal with |- context [if ?c then _ else _] => destruct c end;
        (eexists; split; [reflexivity |]; right; eexists _, _; reflexivity).
  - eexists. split; [reflexivity |]. left. reflexivity.
Qed.

(** The read phase makes at most one call, a read. When it does not find
    the configuration, it reports no match and an error. *)
Lemma isK8sConfiguredAsExpected_run (g : Globals) (k8sResInfo : ValidatingWebhookConfigInfo)
    (s : Store World) :
  exists d,
    trace (snd (isK8sConfiguredAsExpected g k8sResInfo s)) = (trace s ++ d)%list
    /\ readOnly d = true /\ (length d <= 1)%nat
    /\ (forall found matched verRead err,
          fst (isK8sConfiguredAsExpected g k8sResInfo s)
          = Returned (found, matched, verRead, err) ->
          found = false -> matched = false /\ is_Some err).
Proof.
  unfold isK8sConfiguredAsExpected.
  destruct (bool_decide (vi_Name k8sResInfo = NvAdmValidatingName)
            || bool_decide (vi_Name k8sResInfo = NvCrdValidatingName)).
  - unfold bind, orchGet.
    destruct (GetResource RscTypeValidatingWebhookConfiguration AllNamespaces
                (vi_Name k8sResInfo) (world s)) as [r w].
    eexists [_]. destruct r as [err | obj].
    + simpl. split; [reflexivity |]. split; [reflexivity |]. split; [lia |].
      intros found matched verRead err0 Heq _. inversion Heq. split; [reflexivity | eauto].
    + unfold orchVersion. cbn [fst snd world trace].
      destruct (GetK8sVersion w) as [major minor].
      destruct obj as [c | c | sv | n | ].
      1,2: edestruct (compareConfig_run g k8sResInfo) as (out & Hrun & Hout);
           rewrite Hrun; simpl;
           (split; [reflexivity |]); (split; [reflexivity |]); (split; [lia |]);
           intros found matched verRead err0 Heq Hf;
           (destruct Hout as [-> | (m & v & ->)]; [discriminate | inversion Heq; congruence]).
      all: simpl; (split; [reflexivity |]); (split; [reflexivity |]); (split; [lia |]);
           intros found matched verRead err0 Heq Hf; inversion Heq; congruence.
  - exists []. simpl. rewrite app_nil_r. split; [reflexivity |]. split; [reflexivity |].
    split; [lia |].
    intros found matched verRead err0 Heq _. inversion Heq. split; [reflexivity | eauto].
Qed.


(** The write phase always returns. It makes no call and returns an error,
    or it makes one write call, the one of its operation, and returns what
    the orchestrator answered. *)
Lemma configK8sAdmCtrlValidateResource_run (g : Globals) (op resVersion : string)
    (k8sResInfo : ValidatingWebhookConfigInfo) (s : Store World) :
  exists res d,
    fst (configK8sAdmCtrlValidateResource g op resVersion k8sResInfo s) = Returned res
    /\ trace (snd (configK8sAdmCtrlValidateResource g op resVersion k8sResInfo s))
       = (trace s ++ d)%list
    /\ ((d = [] /\ is_Some res)
        \/ exists c, d = [c] /\ isWrite c = true /\ writeResult c = Some res /\ callOp c = op).
Proof.
  unfold configK8sAdmCtrlValidateResource, bind, orchVersion.
  destruct (GetK8sVersion (world s)) as [major minor]. cbn [fst snd].
  case_bool_decide as Hdel.
  - unfold orchDelete. destruct (DeleteResource _ _ (world s)) as [res w].
    eexists res, [_]. split; [reflexivity |]. split; [reflexivity |].
    right. eexists. split; [reflexivity |]. split; [reflexivity |].
    split; [reflexivity |]. simpl. congruence.
  - destruct (bool_decide (op = K8sResOpCreate) || bool_decide (op = K8sResOpUpdate)) eqn:Hcu.
    + destruct (buildWebhooks_pure g (bool_decide (major = 1) && (22 <=? minor)) major minor
                  (WebhooksInfo k8sResInfo) s) as [r Hr].
      rewrite Hr. destruct r as [err | webhooks].
      * exists (Some err), []. split; [reflexivity |]. split; [simpl; rewrite app_nil_r; reflexivity |].
        left. split; [reflexivity | eauto].
      * destruct (bool_decide_reflect (op = K8sResOpCreate)) as [Hc | Hc].
        -- unfold orchAdd. destruct (AddResource _ _ (world s)) as [res w].
           eexists res, [_]. split; [reflexivity |]. split; [reflexivity |].
           right. eexists. split; [reflexivity |]. split; [reflexivity |].
           split; [reflexivity |]. simpl. congruence.
        -- unfold orchUpdate. destruct (UpdateResource _ _ (world s)) as [res w].
           eexists res, [_]. split; [reflexivity |]. split; [reflexivity |].
           right. eexists. split; [reflexivity |]. split; [reflexivity |].
           split; [reflexivity |]. simpl.
           simpl in Hcu. apply bool_decide_eq_true in Hcu. congruence.
    + eexists _, []. split; [reflexivity |]. split; [simpl; rewrite app_nil_r; reflexivity |].
      left. split; [reflexivity | eauto].
Qed.

Lemma selectOp_table :
  (forall matchedCfg, selectOp true matchedCfg false = K8sResOpDelete)
  /\ (forall matchedCfg, selectOp false matchedCfg true = K8sResOpCreate)
  /\ selectOp true false true = K8sResOpUpdate.
Proof. repeat split; intros []; reflexivity. Qed.

(** Past the two tests for "no change" there is always an operation. *)
Lemma selectOp_nonempty (k8sConfigured matchedCfg enable : bool) :
  (negb k8sConfigured && negb enable) || (matchedCfg && k8sConfigured && enable) = false ->
  bool_decide (selectOp k8sConfigured matchedCfg enable = "") = false.
Proof.
  destruct k8sConfigured, matchedCfg, enable; simpl; intros Hno; try discriminate;
    vm_compute; reflexivity.
Qed.

(** One attempt: read the configuration again; stop when nothing is to be
    done; otherwise apply the operation of the truth table with the version
    just read, stop when it is accepted and go on with its error when not. *)
Lemma reconcileAttempt_steps (g : Globals) (k8sResInfo : ValidatingWebhookConfigInfo)
    (enable : bool) (s : Store World) :
  reconcileAttempt g k8sResInfo enable s
  = match isK8sConfiguredAsExpected g k8sResInfo s with
    | (Panicked, s1) => (Panicked, s1)
    | (Returned (k8sConfigured, matchedCfg, verRead, _), s1) =>
        if (negb k8sConfigured && negb enable) || (matchedCfg && k8sConfigured && enable)
        then (Returned (Stop true None), s1)
        else
          match configK8sAdmCtrlValidateResource g
                  (selectOp k8sConfigured matchedCfg enable) verRead k8sResInfo s1 with
          | (Returned None, s2) => (Returned (Stop false None), s2)
          | (Returned (Some e), s2) => (Returned (Again (Some e)), s2)
          | (Panicked, s2) => (Panicked, s2)
          end
    end.
Proof.
  unfold reconcileAttempt, bind.
  destruct (isK8sConfiguredAsExpected g k8sResInfo s) as [[[[[found matched] ver] e]|] s1];
    [| reflexivity].
  destruct ((negb found && negb enable) || (matched && found && enable)) eqn:Hno.
  - destruct (negb found && negb matched && negb enable && bool_decide (is_Some e));
      reflexivity.
  - assert (Hfirst : negb found && negb matched && negb enable && bool_decide (is_Some e)
                     = false).
    { destruct found, matched, enable; simpl in *; try reflexivity; discriminate. }
    rewrite Hfirst. rewrite (selectOp_nonempty _ _ _ Hno). simpl.
    destruct (configK8sAdmCtrlValidateResource g (selectOp found matched enable) ver
                k8sResInfo s1) as [[[err|]|] s2]; reflexivity.
Qed.

Lemma readOnly_facts (d : list StoreCall) :
  readOnly d = true ->
  noSuccessfulWrite d = true /\ countWrites d = 0%nat /\ countReads d = length d.
Proof.
  unfold readOnly, noSuccessfulWrite, countWrites, countReads.
  induction d as [|c d IH]; simpl; [intros _; repeat split |].
  intros Hro. apply andb_true_iff in Hro as [Hc Hd]. destruct (IH Hd) as (H1 & H2 & H3).
  destruct c; simpl in *; try discriminate;
    (split; [assumption | split; [assumption | congruence]]).
Qed.

Lemma countWrites_app (a b : list StoreCall) :
  countWrites (a ++ b) = (countWrites a + countWrites b)%nat.
Proof. unfold countWrites. rewrite List.filter_app, length_app. reflexivity. Qed.

Lemma countReads_app (a b : list StoreCall) :
  countReads (a ++ b) = (countReads a + countReads b)%nat.
Proof. unfold countReads. rewrite List.filter_app, length_app. reflexivity. Qed.

Lemma noSuccessfulWrite_app (a b : list StoreCall) :
  noSuccessfulWrite (a ++ b) = noSuccessfulWrite a && noSuccessfulWrite b.
Proof. unfold noSuccessfulWrite. apply forallb_app. Qed.

(** The calls of one attempt: at most one read, then at most one write,
    whose answer decides how the attempt ends. *)
Lemma reconcileAttempt_run (g : Globals) (k8sResInfo : ValidatingWebhookConfigInfo)
    (enable : bool) (s : Store World) :
  exists dr dw,
    trace (snd (reconcileAttempt g k8sResInfo enable s)) = (trace s ++ dr ++ dw)%list
    /\ readOnly dr = true /\ (length dr <= 1)%nat
    /\ match fst (reconcileAttempt g k8sResInfo enable s) with
       | Panicked => dw = []
       | Returned (Stop skip e) =>
           e = None
           /\ if skip then dw = []
              else exists c, dw = [c] /\ isWrite c = true /\ writeResult c = Some None
       | Returned (Again e) =>
           exists err, e = Some err
             /\ (dw = [] \/ exists c, dw = [c] /\ isWrite c = true
                                       /\ writeResult c = Some (Some err))
       end.
Proof.
  rewrite reconcileAttempt_steps.
  destruct (isK8sConfiguredAsExpected_run g k8sResInfo s) as (dr & Htr & Hro & Hlen & _).
  destruct (isK8sConfiguredAsExpected g k8sResInfo s) as [[[[[found matched] ver] e]|] s1];
    simpl in Htr.
  - destruct ((negb found && negb enable) || (matched && found && enable)).
    + exists dr, []. simpl. rewrite app_nil_r. repeat split; assumption.
    + destruct (configK8sAdmCtrlValidateResource_run g (selectOp found matched enable) ver
                  k8sResInfo s1) as (res & dw & Hres & Htw & Hdw).
      destruct (configK8sAdmCtrlValidateResource g (selectOp found matched enable) ver
                  k8sResInfo s1) as [out s2]. simpl in Hres, Htw. subst out.
      exists dr, dw. rewrite Htr, <- app_assoc in Htw.
      destruct res as [err|]; simpl.
      * split; [exact Htw |]. split; [exact Hro |]. split; [exact Hlen |].
        exists err. split; [reflexivity |].
        destruct Hdw as [[Hd _] | (c & Hd & Hw & Hr & _)]; [left; exact Hd |].
        right. exists c. repeat split; assumption.
      * split; [exact Htw |]. split; [exact Hro |]. split; [exact Hlen |].
        split; [reflexivity |].
        destruct Hdw as [[_ [x Hx]] | (c & Hd & Hw & Hr & _)]; [discriminate |].
        exists c. repeat split; assumption.
  - exists dr, []. simpl. rewrite app_nil_r. repeat split; assumption.
Qed.

(** The loop of at most [n] attempts. *)
Lemma reconcileLoop_run (g : Globals) (k8sResInfo : ValidatingWebhookConfigInfo)
    (enable : bool) (n : nat) :
  forall (err0 : option Err) (s : Store World),
  exists d,
    trace (snd (reconcileLoop g k8sResInfo enable n err0 s)) = (trace s ++ d)%list
    /\ LoopOutcome n d (fst (reconcileLoop g k8sResInfo enable n err0 s)).
Proof.
  induction n as [|n IH]; intros err0 s.
  - exists []. simpl. rewrite app_nil_r. split; [reflexivity |].
    split; [unfold countWrites; simpl; lia |]. split; [unfold countReads; simpl; lia |].
    exists []. split; [reflexivity |]. right. split; [reflexivity |]. right. eauto.
  - cbn [reconcileLoop]. unfold bind.
    destruct (reconcileAttempt_run g k8sResInfo enable s) as (dr & dw & Htr & Hro & Hlen & Hend).
    destruct (readOnly_facts dr Hro) as (Hnsw & Hcw & Hcr).
    destruct (reconcileAttempt g k8sResInfo enable s) as [[[skip e | e]|] s1];
      cbn [fst snd] in *.
    + destruct Hend as [-> Hdw]. destruct skip.
      * subst dw. exists dr. rewrite app_nil_r in Htr. split; [exact Htr |].
        split; [lia |]. split; [lia |].
        exists dr. split; [exact Hnsw |]. right. split; [reflexivity |]. right. eauto.
      * destruct Hdw as (c & -> & Hw & Hr). exists (dr ++ [c])%list. split; [exact Htr |].
        split. { rewrite countWrites_app, Hcw. unfold countWrites. simpl. rewrite Hw. simpl. lia. }
        split. { rewrite countReads_app, Hcr. unfold countReads, isGet. simpl. rewrite Hw.
                 simpl. lia. }
        exists dr. split; [exact Hnsw |]. left. split; [reflexivity |].
        exists c. repeat split; assumption.
    + destruct Hend as (err & -> & Hdw).
      destruct (IH (Some err) s1) as (d' & Htr' & Hcw' & Hcr' & pre' & Hpre' & Hcases).
      exists (dr ++ dw ++ d')%list.
      split. { rewrite Htr', Htr, <- !app_assoc. reflexivity. }
      assert (Hdwf : noSuccessfulWrite dw = true /\ (countWrites dw <= 1)%nat
                     /\ countReads dw = 0%nat).
      { destruct Hdw as [-> | (c & -> & Hw & Hr)].
        - repeat split. unfold countWrites. simpl. lia.
        - unfold noSuccessfulWrite, countWrites, countReads, isGet. simpl.
          rewrite Hr, Hw. simpl. repeat split. lia. }
      destruct Hdwf as (Hdn & Hdc & Hdr).
      split. { rewrite !countWrites_app. lia. }
      split. { rewrite !countReads_app. lia. }
      exists (dr ++ dw ++ pre')%list.
      split. { rewrite !noSuccessfulWrite_app, Hnsw, Hdn, Hpre'. reflexivity. }
      destruct Hcases as [(Ho & c & -> & Hw & Hr) | (-> & Ho)].
      * left. split; [exact Ho |]. exists c. rewrite <- !app_assoc.
        repeat split; assumption.
      * right. split; [reflexivity | exact Ho].
    + subst dw. exists dr. rewrite app_nil_r in Htr. split; [exact Htr |].
      split; [lia |]. split; [lia |].
      exists dr. split; [exact Hnsw |]. right. split; [reflexivity |]. left. reflexivity.
Qed.

(** Three attempts that all end at [retry++]: the loop returns
    [skip = true] and the error of the third. *)
Lemma reconcileLoop_exhausted (g : Globals) (k8sResInfo : ValidatingWebhookConfigInfo)
    (enable : bool) (err0 e1 e2 e3 : option Err) (s s1 s2 s3 : Store World) :
  reconcileAttempt g k8sResInfo enable s = (Returned (Again e1), s1) ->
  reconcileAttempt g k8sResInfo enable s1 = (Returned (Again e2), s2) ->
  reconcileAttempt g k8sResInfo enable s2 = (Returned (Again e3), s3) ->
  reconcileLoop g k8sResInfo enable 3 err0 s = (Returned (true, e3), s3) /\ is_Some e3.
Proof.
  intros H1 H2 H3. cbn [reconcileLoop]. unfold bind. rewrite H1, H2, H3.
  split; [reflexivity |].
  pose proof (reconcileAttempt_run g k8sResInfo enable s2) as (dr & dw & _ & _ & _ & Hend).
  rewrite H3 in Hend. simpl in Hend. destruct Hend as (err & -> & _). eauto.
Qed.

(** Port discovery only reads, at most once for each rule. *)
Lemma resolvePorts_run (g : Globals) (infos : list WebhookInfo) :
  forall s : Store World,
  exists d,
    trace (snd (resolvePorts g infos s)) = (trace s ++ d)%list
    /\ readOnly d = true /\ (length d <= length infos)%nat.
Proof.
  induction infos as [|whInfo infos IH]; intros s.
  - exists []. simpl. rewrite app_nil_r. repeat split. lia.
  - cbn [resolvePorts]. unfold bind at 1.
    destruct (bool_decide (ClientMode (wi_ClientConfig whInfo) = AdmClientModeUrl)).
    + unfold bind at 1. rewrite GetValidateWebhookSvcInfo_run.
      destruct (GetResource RscTypeService NvAdmSvcNamespace
                  (ServiceName (wi_ClientConfig whInfo)) (world s)) as [r w].
      destruct (svcInfoOfAnswer g (ServiceName (wi_ClientConfig whInfo)) r)
        as [[err svcInfo]|].
      * unfold ret at 1. unfold bind.
        destruct (IH (mkStore w (trace s ++ [CallGet RscTypeService NvAdmSvcNamespace
                                   (ServiceName (wi_ClientConfig whInfo)) r])%list))
          as (d & Htr & Hro & Hlen).
        destruct (resolvePorts g infos _) as [[rest|] s'];
          simpl in *; (eexists (_ :: d); rewrite Htr, <- app_assoc;
                       split; [reflexivity |]; split; [exact Hro |]; simpl; lia).
      * eexists [_]. simpl. split; [reflexivity |]. split; [reflexivity |]. lia.
    + unfold ret at 1. unfold bind.
      destruct (IH s) as (d & Htr & Hro & Hlen).
      destruct (resolvePorts g infos s) as [[rest|] s'];
        simpl in *; (exists d; split; [exact Htr |]; split; [exact Hro |]; lia).
Qed.

(** C3: [ConfigK8sAdmissionControl] first discovers the ports (reads
    only), then makes at most three attempts: the trace of the loop holds at
    most three writes and three reads; a write that the orchestrator accepts
    is the last call, and the function then returns [(false, nil)], which it
    returns in no other case; each attempt reads the configuration again,
    stops when nothing is to be done, and otherwise applies the operation of
    the truth table with the version just read; and when three attempts in a
    row fail, the function returns [skip = true] with the error of the third. *)
Theorem reconcile_bounded_retry (g : Globals) (k8sResInfo : ValidatingWebhookConfigInfo)
    (ctrlState : CLUSAdmCtrlState) (w : World)
    (HUri : Uri ctrlState <> "") :
  let r := run (ConfigK8sAdmissionControl g k8sResInfo (Some ctrlState)) w in
  (exists ports d,
     calls r = (ports ++ d)%list /\ readOnly ports = true
     /\ (length ports <= length (WebhooksInfo k8sResInfo))%nat
     /\ LoopOutcome 3 d (fst r))
  /\ (forall k8sResInfo' s,
        reconcileAttempt g k8sResInfo' (Enable ctrlState) s
        = match isK8sConfiguredAsExpected g k8sResInfo' s with
          | (Panicked, s1) => (Panicked, s1)
          | (Returned (k8sConfigured, matchedCfg, verRead, _), s1) =>
              if (negb k8sConfigured && negb (Enable ctrlState))
                 || (matchedCfg && k8sConfigured && Enable ctrlState)
              then (Returned (Stop true None), s1)
              else
                match configK8sAdmCtrlValidateResource g
                        (selectOp k8sConfigured matchedCfg (Enable ctrlState))
                        verRead k8sResInfo' s1 with
                | (Returned None, s2) => (Returned (Stop false None), s2)
                | (Returned (Some e), s2) => (Returned (Again (Some e)), s2)
                | (Panicked, s2) => (Panicked, s2)
                end
          end)
  /\ ((forall matchedCfg, selectOp true matchedCfg false = K8sResOpDelete)
      /\ (forall matchedCfg, selectOp false matchedCfg true = K8sResOpCreate)
      /\ selectOp true false true = K8sResOpUpdate)
  /\ (forall infos s0 e1 s1 e2 s2 e3 s3,
        resolvePorts g (WebhooksInfo k8sResInfo) (mkStore w []) = (Returned infos, s0) ->
        let k8sResInfo' := {| vi_Name := vi_Name k8sResInfo; WebhooksInfo := infos |} in
        reconcileAttempt g k8sResInfo' (Enable ctrlState) s0 = (Returned (Again e1), s1) ->
        reconcileAttempt g k8sResInfo' (Enable ctrlState) s1 = (Returned (Again e2), s2) ->
        reconcileAttempt g k8sResInfo' (Enable ctrlState) s2 = (Returned (Again e3), s3) ->
        r = (Returned (true, e3), s3) /\ is_Some e3).
Proof.
  intros r. subst r. unfold run, calls, ConfigK8sAdmissionControl.
  rewrite bool_decide_eq_false_2 by exact HUri.
  split; [| split; [intros k8sResInfo' s; apply reconcileAttempt_steps |];
              split; [exact selectOp_table |]].
  - unfold bind.
    destruct (resolvePorts_run g (WebhooksInfo k8sResInfo) (mkStore w []))
      as (ports & Htr & Hro & Hlen).
    destruct (resolvePorts g (WebhooksInfo k8sResInfo) (mkStore w [])) as [[infos|] s0];
      simpl in Htr.
    + destruct (reconcileLoop_run g {| vi_Name := vi_Name k8sResInfo; WebhooksInfo := infos |}
                  (Enable ctrlState) 3 None s0) as (d & Htr' & Hout).
      exists ports, d. rewrite Htr', Htr.
      split; [reflexivity |]. split; [exact Hro |]. split; [exact Hlen | exact Hout].
    + exists ports, []. simpl. rewrite app_nil_r. split; [exact Htr |].
      split; [exact Hro |]. split; [exact Hlen |].
      split; [unfold countWrites; simpl; lia |]. split; [unfold countReads; simpl; lia |].
      exists []. split; [reflexivity |]. right. split; [reflexivity |]. left. reflexivity.
  - intros infos s0 e1 s1 e2 s2 e3 s3 Hports. cbv zeta. intros H1 H2 H3.
    unfold bind. rewrite Hports.
    exact (reconcileLoop_exhausted g _ (Enable ctrlState) None e1 e2 e3
             s0 s1 s2 s3 H1 H2 H3).
Qed.


End Reconcile.

(** C3, an instance: the registered configuration does not match and the
    orchestrator refuses the update three times; the function returns
    [skip = true] with the third error after three reads and three updates. *)
Lemma reconcile_bounded_retry_witness :
  let r := run (ConfigK8sAdmissionControl (K := Demo.consts) (ORCH := Demo.orch)
                  Demo.globals Demo_crdInfo (Some Demo_enabled)) Demo_conflictWorld in
  returned r = Some (true, Some "conflict 3")
  /\ map callOp (calls r) = [""; "update"; ""; "update"; ""; "update"]
  /\ exists ports d,
       calls r = (ports ++ d)%list /\ readOnly ports = true
       /\ (length ports <= length (WebhooksInfo Demo_crdInfo))%nat
       /\ LoopOutcome 3 d (fst r).
Proof.
  intros r. split; [vm_compute; reflexivity |]. split; [vm_compute; reflexivity |].
  apply (reconcile_bounded_retry (K := Demo.consts) (ORCH := Demo.orch)
           Demo.globals Demo_crdInfo Demo_enabled Demo_conflictWorld).
  vm_compute. discriminate.
Defined.

(** When the second update is accepted, the loop stops there. *)
Lemma reconcile_second_attempt_succeeds :
  let w := {| Demo.version := (1, 22);
              Demo.gets := replicate 3 (inr (ObjV1Config (Demo_crdConfig "Some")));
              Demo.writes := [Some "conflict 1"; None] |} in
  let r := run (ConfigK8sAdmissionControl (K := Demo.consts) (ORCH := Demo.orch)
                  Demo.globals Demo_crdInfo (Some Demo_enabled)) w in
  returned r = Some (false, None)
  /\ map callOp (calls r) = [""; "update"; ""; "update"].
Proof. split; vm_compute; reflexivity. Qed.



(** * Further properties *)

(** ** The trust-bundle registry *)


(** X2: a reset settles: the same bundle offered again, after a reset or
    after a set, changes nothing and answers false; and a reset never changes
    the label keys of any service. *)
Theorem ResetCABundle_settles (g : Globals) (svcName caBundle other : string) :
  let g1 := fst (ResetCABundle g svcName caBundle) in
  ResetCABundle g1 svcName caBundle = (g1, false)
  /\ ResetCABundle (SetCABundle g svcName caBundle) svcName caBundle
     = (SetCABundle g svcName caBundle, false)
  /\ GetSvcLabelKeysForTest g1 other = GetSvcLabelKeysForTest g other.
Proof.
  assert (Hsame : forall g0, mapGet (admCaBundle g0) svcName = caBundle ->
                             ResetCABundle g0 svcName caBundle = (g0, false)).
  { intros g0 Heq. unfold ResetCABundle. rewrite Heq.
    rewrite bool_decide_eq_true_2 by reflexivity. rewrite andb_false_r. reflexivity. }
  intros g1. subst g1.
  remember (ResetCABundle g svcName caBundle) as r eqn:Hr.
  unfold ResetCABundle in Hr.
  destruct ((0 <? len caBundle)
            && negb (bool_decide (mapGet (admCaBundle g) svcName = caBundle))) eqn:Hc;
    subst r; simpl.
  - split; [| split; [| reflexivity]].
    + apply Hsame. unfold mapGet. simpl. rewrite lookup_insert_eq. reflexivity.
    + apply Hsame. unfold SetCABundle, mapGet. simpl. rewrite lookup_insert_eq. reflexivity.
  - split; [| split; [| reflexivity]].
    + unfold ResetCABundle. rewrite Hc. reflexivity.
    + apply Hsame. unfold SetCABundle, mapGet. simpl. rewrite lookup_insert_eq. reflexivity.
Qed.

(** ** Namespace labels: what the correction does to each key *)

Lemma correctLabel_other (value : string) (labels : gmap string string) (b : bool)
    (k k' : string) (d : option bool) :
  k <> k' -> (correctLabel value (labels, b) (k', d)).1 !! k = labels !! k.
Proof.
  intros Hne. destruct d as [[|]|]; simpl; [| | reflexivity].
  - destruct (bool_decide (is_Some (labels !! k'))); simpl; [reflexivity |].
    apply lookup_insert_ne. congruence.
  - destruct (bool_decide (is_Some (labels !! k'))); simpl; [| reflexivity].
    apply lookup_delete_ne. congruence.
Qed.

Lemma correctLabel_own (value : string) (labels : gmap string string) (b : bool)
    (k : string) (d : option bool) :
  (correctLabel value (labels, b) (k, d)).1 !! k
  = match d with
    | Some true => Some (default value (labels !! k))
    | Some false => None
    | None => labels !! k
    end.
Proof.
  destruct d as [[|]|]; simpl; [| | reflexivity].
  - destruct (bool_decide_reflect (is_Some (labels !! k))) as [[x Hx] | Hn]; simpl.
    + rewrite Hx. reflexivity.
    + rewrite lookup_insert_eq.
      destruct (labels !! k) as [x|]; [contradiction Hn; eauto | reflexivity].
  - destruct (bool_decide_reflect (is_Some (labels !! k))) as [[x Hx] | Hn]; simpl.
    + apply lookup_delete_eq.
    + destruct (labels !! k) as [x|]; [contradiction Hn; eauto | reflexivity].
Qed.

Lemma correctLabel_flag (value : string) (labels : gmap string string) (b : bool)
    (k : string) (d : option bool) :
  (correctLabel value (labels, b) (k, d)).2 = b || labelDisagrees labels k d.
Proof.
  destruct d as [[|]|]; simpl; [| | rewrite orb_false_r; reflexivity];
    destruct (bool_decide (is_Some (labels !! k))); simpl;
    rewrite ?orb_false_r, ?orb_true_r; reflexivity.
Qed.

Lemma correctLabel_fold_at (value : string) (entries : list (string * option bool)) :
  forall (labels : gmap string string) (b : bool) (k : string) (d : option bool),
  NoDup entries.*1 -> (k, d) ∈ entries ->
  (foldl (correctLabel value) (labels, b) entries).1 !! k
  = match d with
    | Some true => Some (default value (labels !! k))
    | Some false => None
    | None => labels !! k
    end.
Proof.
  induction entries as [|[k' d'] entries IH]; intros labels b k d Hnd Hin.
  - apply elem_of_nil in Hin. contradiction.
  - simpl in Hnd. apply NoDup_cons in Hnd as [Hnotin Hnd]. cbn [foldl].
    apply elem_of_cons in Hin as [Heq | Hin].
    + inversion Heq; subst k' d'.
      destruct (correctLabel value (labels, b) (k, d)) as [labels1 b1] eqn:Hstep.
      rewrite correctLabel_keep by exact Hnotin.
      pose proof (correctLabel_own value labels b k d) as Hown.
      rewrite Hstep in Hown. exact Hown.
    + assert (Hne : k <> k').
      { intros ->. apply Hnotin. apply list_elem_of_fmap. exists (k', d). split; [reflexivity | exact Hin]. }
      pose proof (correctLabel_other value labels b k k' d' Hne) as Hoth.
      destruct (correctLabel value (labels, b) (k', d')) as [labels1 b1].
      rewrite (IH labels1 b1 k d Hnd Hin). simpl in Hoth. rewrite Hoth. reflexivity.
Qed.

Lemma correctLabel_fold_flag (value : string) (entries : list (string * option bool)) :
  forall (labels : gmap string string) (b : bool),
  NoDup entries.*1 ->
  (foldl (correctLabel value) (labels, b) entries).2
  = b || existsb (fun e => labelDisagrees labels e.1 e.2) entries.
Proof.
  induction entries as [|[k d] entries IH]; intros labels b Hnd.
  - simpl. rewrite orb_false_r. reflexivity.
  - simpl in Hnd. apply NoDup_cons in Hnd as [Hnotin Hnd]. cbn [foldl existsb fst snd].
    pose proof (correctLabel_flag value labels b k d) as Hflag.
    assert (Hext : forall k', k' <> k ->
              (correctLabel value (labels, b) (k, d)).1 !! k' = labels !! k').
    { intros k' Hne. apply correctLabel_other. exact Hne. }
    destruct (correctLabel value (labels, b) (k, d)) as [labels1 b1]. simpl in Hflag, Hext.
    rewrite (IH labels1 b1 Hnd). subst b1. rewrite <- orb_assoc. f_equal. f_equal.
    clear IH Hnd. induction entries as [|[k' d'] entries IHe]; [reflexivity |].
    simpl in Hnotin. apply not_elem_of_cons in Hnotin as [Hne Hnotin].
    cbn [existsb fst snd]. rewrite (IHe Hnotin).
    rewrite (labelDisagrees_ext labels1 labels k' d') by (apply Hext; congruence).
    reflexivity.
Qed.

Lemma map_to_list_fst_None {A : Type} (m : gmap string A) (k : string) :
  m !! k = None -> k ∉ (map_to_list m).*1.
Proof.
  intros Hnone Hin. apply list_elem_of_fmap in Hin as ([k' x] & Hk & Hin). simpl in Hk. subst k'.
  apply elem_of_map_to_list in Hin. congruence.
Qed.

Lemma correctLabels_at (value : string) (labelKeys : gmap string (option bool))
    (labels0 : gmap string string) (k : string) :
  (correctLabels value labelKeys labels0).1 !! k
  = match labelKeys !! k with
    | Some (Some true) => Some (default value (labels0 !! k))
    | Some (Some false) => None
    | _ => labels0 !! k
    end.
Proof.
  unfold correctLabels. destruct (labelKeys !! k) as [d|] eqn:Hk.
  - rewrite (correctLabel_fold_at value _ labels0 false k d);
      [destruct d as [[|]|]; reflexivity | apply NoDup_fst_map_to_list |].
    apply elem_of_map_to_list. exact Hk.
  - apply correctLabel_keep. apply map_to_list_fst_None. exact Hk.
Qed.

Lemma correctLabels_flag (value : string) (labelKeys : gmap string (option bool))
    (labels0 : gmap string string) :
  (correctLabels value labelKeys labels0).2 = true
  <-> exists k d, labelKeys !! k = Some d /\ labelDisagrees labels0 k d = true.
Proof.
  unfold correctLabels.
  rewrite correctLabel_fold_flag by apply NoDup_fst_map_to_list. simpl.
  rewrite existsb_exists. split.
  - intros ([k d] & Hin & Hd). exists k, d. split; [| exact Hd].
    apply elem_of_map_to_list, list_elem_of_In. exact Hin.
  - intros (k & d & Hk & Hd). exists (k, d). split; [| exact Hd].
    apply list_elem_of_In, elem_of_map_to_list. exact Hk.
Qed.

(** X3: what the correction of [workSingleK8sNsLabels] does, key by key: a
    key that must exist keeps the value it has and gets the selector value
    when it is missing; a key that must not exist is removed; every other
    label is left as it is. An update is asked for exactly when some key
    disagrees with the labels read. *)
Theorem correctLabels_spec (value : string) (labelKeys : gmap string (option bool))
    (labels0 : gmap string string) (k : string) :
  (correctLabels value labelKeys labels0).1 !! k
  = match labelKeys !! k with
    | Some (Some true) => Some (default value (labels0 !! k))
    | Some (Some false) => None
    | _ => labels0 !! k
    end
  /\ ((correctLabels value labelKeys labels0).2 = true
      <-> exists k' d, labelKeys !! k' = Some d /\ labelDisagrees labels0 k' d = true).
Proof. split; [apply correctLabels_at | apply correctLabels_flag]. Qed.

(** ** Namespace labels: the status key and the control-plane key *)

Section OtherKeys.
Context {K : Consts}.

Lemma markWildcard_other (wild : list string) (nsName : string)
    (labelKeys : gmap string (option bool)) (k : string) :
  k <> NsSelectorKeySkipNV ->
  markWildcard wild nsName labelKeys !! k = labelKeys !! k.
Proof.
  intros Hne. rewrite markWildcard_existsb.
  destruct (existsb _ wild); [| reflexivity].
  apply lookup_insert_ne. congruence.
Qed.

(** X4: the status key must exist exactly when admission control is
    enabled and the namespace is the one the admission service runs in; in
    every other case it must not exist. *)
Theorem status_key_desired (g : Globals) (admCtrlEnabled : bool) (nsName : string)
    (Hskip : NsSelectorKeyStatusNV <> NsSelectorKeySkipNV)
    (Hplane : NsSelectorKeyStatusNV <> NsSelectorKeyCtrlPlane) :
  desiredLabelKeys g admCtrlEnabled nsName !! NsSelectorKeyStatusNV
  = Some (Some (admCtrlEnabled && bool_decide (NvAdmSvcNamespace = nsName))).
Proof.
  unfold desiredLabelKeys. destruct admCtrlEnabled; simpl.
  - destruct (bool_decide (NvAdmSvcNamespace = nsName)); [apply lookup_insert_eq |].
    destruct (bool_decide (nsName ∈ allowedNamespaces g)).
    + rewrite lookup_insert_ne by congruence.
      destruct (bool_decide (CtrlPlaneOpInWhExpr = NsSelectorOpNotExist));
        [destruct (bool_decide (nsName ∈ defAllowedNamespaces g)) |];
        repeat (rewrite lookup_insert_ne by congruence); apply lookup_insert_eq.
    + rewrite markWildcard_other by exact Hskip.
      destruct (bool_decide (CtrlPlaneOpInWhExpr = NsSelectorOpNotExist));
        [destruct (bool_decide (nsName ∈ defAllowedNamespaces g)) |];
        repeat (rewrite lookup_insert_ne by congruence); apply lookup_insert_eq.
  - apply lookup_insert_eq.
Qed.

(** X5: the control-plane key is in the map only when admission control is
    enabled and the webhook expression on it is "does not exist"; it then
    must not exist, unless the namespace is in the default allowed set, where
    it may or may not exist. *)
Theorem control_plane_key_desired (g : Globals) (admCtrlEnabled : bool) (nsName : string)
    (Hskip : NsSelectorKeyCtrlPlane <> NsSelectorKeySkipNV)
    (Hstatus : NsSelectorKeyCtrlPlane <> NsSelectorKeyStatusNV) :
  desiredLabelKeys g admCtrlEnabled nsName !! NsSelectorKeyCtrlPlane
  = if admCtrlEnabled && bool_decide (CtrlPlaneOpInWhExpr = NsSelectorOpNotExist)
    then Some (if bool_decide (nsName ∈ defAllowedNamespaces g) then None else Some false)
    else None.
Proof.
  unfold desiredLabelKeys. destruct admCtrlEnabled; simpl.
  - destruct (bool_decide (NvAdmSvcNamespace = nsName));
      [rewrite lookup_insert_ne by congruence |];
      (destruct (bool_decide (nsName ∈ allowedNamespaces g));
       [rewrite lookup_insert_ne by congruence | rewrite markWildcard_other by exact Hskip]);
      (destruct (bool_decide (CtrlPlaneOpInWhExpr = NsSelectorOpNotExist));
       [destruct (bool_decide (nsName ∈ defAllowedNamespaces g)) |]);
      rewrite ?lookup_insert_eq; try reflexivity;
      repeat (rewrite lookup_insert_ne by congruence); rewrite ?lookup_empty; try reflexivity;
      rewrite lookup_singleton_ne by congruence; reflexivity.
  - rewrite lookup_insert_ne by congruence. apply lookup_singleton_ne. congruence.
Qed.

(** X6: with admission control disabled the correction only removes: the
    labels it leaves are the labels read without the skip key and the status
    key, whatever the allowed sets hold. *)
Theorem disabled_only_removes (g : Globals) (nsName : string)
    (labels0 : gmap string string) :
  (correctLabels (nsSelectorValue g) (desiredLabelKeys g false nsName) labels0).1
  = delete NsSelectorKeyStatusNV (delete NsSelectorKeySkipNV labels0).
Proof.
  apply map_eq. intros k. rewrite correctLabels_at. unfold desiredLabelKeys.
  rewrite lookup_insert. destruct (decide (NsSelectorKeyStatusNV = k)) as [<- | Hs].
  - rewrite lookup_delete_eq. reflexivity.
  - rewrite lookup_delete_ne by exact Hs.
    rewrite lookup_singleton. destruct (decide (NsSelectorKeySkipNV = k)) as [<- | Hk].
    + rewrite lookup_delete_eq. reflexivity.
    + rewrite lookup_delete_ne by exact Hk. reflexivity.
Qed.

End OtherKeys.

(** X4, an instance: the namespace [neuvector] with admission control
    enabled. *)
Lemma status_key_desired_witness :
  desiredLabelKeys (K := Demo.consts) Demo.globals true "neuvector"
    !! NsSelectorKeyStatusNV (Consts := Demo.consts) = Some (Some true).
Proof.
  apply (status_key_desired (K := Demo.consts) Demo.globals true "neuvector");
    vm_compute; discriminate.
Defined.

(** X5, an instance: [kube-system] is in the default allowed set, [default]
    is not. *)
Lemma control_plane_key_desired_witness :
  desiredLabelKeys (K := Demo.consts) Demo.globals true "kube-system"
    !! NsSelectorKeyCtrlPlane (Consts := Demo.consts) = Some None
  /\ desiredLabelKeys (K := Demo.consts) Demo.globals true "default"
       !! NsSelectorKeyCtrlPlane (Consts := Demo.consts) = Some (Some false).
Proof.
  split.
  - rewrite (control_plane_key_desired (K := Demo.consts) Demo.globals true "kube-system")
      by (vm_compute; discriminate).
    vm_compute. reflexivity.
  - rewrite (control_plane_key_desired (K := Demo.consts) Demo.globals true "default")
      by (vm_compute; discriminate).
    vm_compute. reflexivity.
Defined.

(** ** Namespace labels: the calls of one verification *)

Section VerifyCalls.
Context {K : Consts} {World : Type} {ORCH : Orchestrator World}.

(** The calls of [workSingleK8sNsLabels]: the read of the namespace, then
    an update when the labels read need one. *)
Lemma workSingleK8sNsLabels_delta (g : Globals) (nsName : string)
    (labelKeys : gmap string (option bool)) (s : Store World) :
  exists ans,
    (trace (snd (workSingleK8sNsLabels g nsName labelKeys s))
     = (trace s ++ [CallGet RscTypeNamespace "" nsName ans])%list
     /\ forall md, ans = inr (ObjNamespace (Some {| ns_Metadata := Some md |})) ->
          (correctLabels (nsSelectorValue g) labelKeys (default ∅ (om_Labels md))).2 = false)
    \/ exists md res,
         ans = inr (ObjNamespace (Some {| ns_Metadata := Some md |}))
         /\ (correctLabels (nsSelectorValue g) labelKeys (default ∅ (om_Labels md))).2 = true
         /\ trace (snd (workSingleK8sNsLabels g nsName labelKeys s))
            = (trace s
               ++ [CallGet RscTypeNamespace "" nsName ans;
                   CallUpdate RscTypeNamespace
                     (correctedNamespace md
                        (correctLabels (nsSelectorValue g) labelKeys
                           (default ∅ (om_Labels md))).1) res])%list
         /\ fst (workSingleK8sNsLabels g nsName labelKeys s) = Returned res.
Proof.
  rewrite workSingleK8sNsLabels_run.
  destruct (GetResource RscTypeNamespace "" nsName (world s)) as [r wa].
  exists r. destruct r as [err | [c | c | sv | [[[md|]]|] | ]]; simpl;
    try (left; split; [reflexivity | intros md0 Hmd0; discriminate]).
  destruct (correctLabels (nsSelectorValue g) labelKeys (default ∅ (om_Labels md)))
    as [labels need] eqn:Hcorr.
  destruct need.
  - destruct (UpdateResource RscTypeNamespace (correctedNamespace md labels) wa) as [res wb].
    right. exists md, res. rewrite Hcorr. simpl. rewrite <- app_assoc.
    repeat split; reflexivity.
  - left. split; [reflexivity |]. intros md0 Hmd0. inversion Hmd0; subst md0.
    rewrite Hcorr. reflexivity.
Qed.

Lemma app_grows {A : Type} (l d : list A) : (l ++ d)%list = l -> d = [].
Proof.
  intros Heq. apply (f_equal length) in Heq. rewrite length_app in Heq.
  destruct d; [reflexivity | simpl in Heq; lia].
Qed.

(** X7: [VerifyK8sNs] leaves the orchestrator alone (and returns with the
    store as it was) exactly when the labels it is given agree with every key
    of the desired map; as soon as one key disagrees its first call is the
    read of the namespace. *)
Theorem VerifyK8sNs_silent_iff (g : Globals) (admCtrlEnabled : bool) (nsName : string)
    (nsLabels : option (gmap string string)) (s : Store World) :
  (VerifyK8sNs g admCtrlEnabled nsName nsLabels s = (Returned tt, s)
   <-> forall k d, desiredLabelKeys g admCtrlEnabled nsName !! k = Some d ->
                   labelDisagrees (default ∅ nsLabels) k d = false)
  /\ ((exists k d, desiredLabelKeys g admCtrlEnabled nsName !! k = Some d
                   /\ labelDisagrees (default ∅ nsLabels) k d = true) ->
      exists rest,
        trace (snd (VerifyK8sNs g admCtrlEnabled nsName nsLabels s))
        = (trace s
           ++ CallGet RscTypeNamespace "" nsName
                (fst (GetResource RscTypeNamespace "" nsName (world s))) :: rest)%list).
Proof.
  set (lk := desiredLabelKeys g admCtrlEnabled nsName).
  assert (Hex : existsb (fun e => labelDisagrees (default ∅ nsLabels) e.1 e.2) (map_to_list lk)
                = false
                <-> forall k d, lk !! k = Some d ->
                      labelDisagrees (default ∅ nsLabels) k d = false).
  { split.
    - intros Hf k d Hk. destruct (labelDisagrees (default ∅ nsLabels) k d) eqn:Hd;
        [| reflexivity].
      assert (Ht : existsb (fun e => labelDisagrees (default ∅ nsLabels) e.1 e.2)
                     (map_to_list lk) = true).
      { apply existsb_exists. exists (k, d). split; [| exact Hd].
        apply list_elem_of_In, elem_of_map_to_list. exact Hk. }
      congruence.
    - intros Hall. destruct (existsb _ _) eqn:Hx; [| reflexivity].
      apply existsb_exists in Hx as ([k d] & Hin & Hd).
      apply list_elem_of_In, elem_of_map_to_list in Hin. simpl in Hd.
      rewrite (Hall k d Hin) in Hd. discriminate. }
  pose proof (VerifyK8sNs_store g admCtrlEnabled nsName nsLabels s) as Hst. fold lk in Hst.
  split.
  - rewrite <- Hex. clear Hex.
    unfold VerifyK8sNs in *. rewrite verifyLoop_decides in *.
    replace (match nsLabels with Some m => m | None => ∅ end) with (default ∅ nsLabels) in *
      by (destruct nsLabels; reflexivity).
    fold lk. fold lk in Hst.
    destruct (existsb (fun e => labelDisagrees (default ∅ nsLabels) e.1 e.2) (map_to_list lk)).
    + split; [| discriminate]. intros Heq. rewrite Heq in Hst. simpl in Hst.
      destruct (workSingleK8sNsLabels_delta g nsName lk s)
        as (ans & [[Htr _] | (md & res & _ & _ & Htr & _)]);
        rewrite <- Hst in Htr; symmetry in Htr; apply app_grows in Htr; discriminate.
    + split; reflexivity.
  - intros (k & d & Hk & Hd).
    destruct (existsb (fun e => labelDisagrees (default ∅ nsLabels) e.1 e.2) (map_to_list lk))
      eqn:Hx.
    2: { rewrite (proj1 Hex eq_refl k d Hk) in Hd. discriminate. }
    rewrite Hst, workSingleK8sNsLabels_run.
    destruct (GetResource RscTypeNamespace "" nsName (world s)) as [r wa]. cbn [fst].
    destruct r as [err | [c | c | sv | [[[md|]]|] | ]]; cbn [snd trace];
      try (exists []; reflexivity).
    destruct (correctLabels (nsSelectorValue g) lk (default ∅ (om_Labels md)))
      as [labels [|]]; [| exists []; reflexivity].
    destruct (UpdateResource RscTypeNamespace (correctedNamespace md labels) wa) as [res wb].
    eexists. cbn [snd trace]. rewrite <- app_assoc. reflexivity.
Qed.

(** X8: one verification makes no call, or reads the namespace, or reads
    it and updates it; nothing else. The update follows the read at once and
    writes back the object read (its name and its version token) with the
    corrected labels. *)
Theorem VerifyK8sNs_calls (g : Globals) (admCtrlEnabled : bool) (nsName : string)
    (nsLabels : option (gmap string string)) (w : World) :
  let r := run (VerifyK8sNs g admCtrlEnabled nsName nsLabels) w in
  let lk := desiredLabelKeys g admCtrlEnabled nsName in
  calls r = []
  \/ (exists ans, calls r = [CallGet RscTypeNamespace "" nsName ans])
  \/ exists md res,
       calls r
       = [CallGet RscTypeNamespace "" nsName (inr (ObjNamespace (Some {| ns_Metadata := Some md |})));
          CallUpdate RscTypeNamespace
            (correctedNamespace md
               (correctLabels (nsSelectorValue g) lk (default ∅ (om_Labels md))).1) res]
       /\ fst r = Returned tt.
Proof.
  intros r lk. subst r. unfold run, calls. rewrite VerifyK8sNs_store. fold lk.
  destruct (existsb _ _) eqn:Hex; [| left; reflexivity].
  right.
  destruct (workSingleK8sNsLabels_delta g nsName lk (mkStore w []))
    as (ans & [[Htr _] | (md & res & -> & _ & Htr & Hres)]).
  - left. exists ans. exact Htr.
  - right. exists md, res. split; [exact Htr |].
    unfold VerifyK8sNs. rewrite verifyLoop_decides. fold lk.
    replace (match nsLabels with Some m => m | None => ∅ end) with (default ∅ nsLabels)
      by (destruct nsLabels; reflexivity).
    rewrite Hex. unfold bind. 
    destruct (workSingleK8sNsLabels g nsName lk (mkStore w [])) as [out s'].
    simpl in Hres. subst out. reflexivity.
Qed.

End VerifyCalls.

(** ** The scan of all namespaces *)

Section Scan.
Context {K : Consts} {World : Type} {ORCH : Orchestrator World} {LIST : Lister World}.







End Scan.

(** ** Drift detection: the result of the read phase *)

Section ReadPhase.
Context {K : Consts} {World : Type} {ORCH : Orchestrator World}.

(** X11: a configuration whose number of webhooks differs from the number
    of rules asked for is reported as found and not matched, with its version
    token and without an error, after the one read. *)
Theorem rule_count_mismatch (g : Globals) (k8sResInfo : ValidatingWebhookConfigInfo)
    (s : Store World) (useApiV1 : bool) (k8sConfig : ValidatingWebhookConfiguration)
    (w' : World) (verRead : string)
    (Hname : vi_Name k8sResInfo = NvAdmValidatingName
             \/ vi_Name k8sResInfo = NvCrdValidatingName)
    (Hget : GetResource RscTypeValidatingWebhookConfiguration AllNamespaces
              (vi_Name k8sResInfo) (world s) = (inr (configObj useApiV1 k8sConfig), w'))
    (Hver : om_ResourceVersion (vwc_Metadata k8sConfig) = Some verRead)
    (Hcount : length (vwc_Webhooks k8sConfig) <> length (WebhooksInfo k8sResInfo)) :
  isK8sConfiguredAsExpected g k8sResInfo s
  = (Returned (true, false, verRead, None),
     mkStore w' (trace s ++ [CallGet RscTypeValidatingWebhookConfiguration AllNamespaces
                               (vi_Name k8sResInfo) (inr (configObj useApiV1 k8sConfig))])%list).
Proof.
  unfold isK8sConfiguredAsExpected.
  assert (Hn : bool_decide (vi_Name k8sResInfo = NvAdmValidatingName)
               || bool_decide (vi_Name k8sResInfo = NvCrdValidatingName) = true).
  { apply orb_true_iff. destruct Hname as [H | H]; [left | right];
      apply bool_decide_eq_true; exact H. }
  rewrite Hn. unfold bind, orchGet. rewrite Hget. unfold orchVersion. cbn [fst snd world trace].
  destruct (GetK8sVersion w') as [major minor].
  assert (Hc : negb (Nat.eqb (length (vwc_Webhooks k8sConfig))
                             (length (WebhooksInfo k8sResInfo))) = true).
  { apply negb_true_iff, Nat.eqb_neq. exact Hcount. }
  destruct useApiV1; simpl; unfold compareConfig; rewrite Hver, Hc; reflexivity.
Qed.

(** X12: what the read phase may report. A match is reported only with
    the configuration found and without an error; an error comes with no
    match and with an empty version token; a configuration not found always
    comes with an error. The read phase makes at most one call, a read. *)
Theorem read_phase_result (g : Globals) (k8sResInfo : ValidatingWebhookConfigInfo)
    (s : Store World) (found matched : bool) (verRead : string) (err : option Err)
    (Hresult : fst (isK8sConfiguredAsExpected g k8sResInfo s)
               = Returned (found, matched, verRead, err)) :
  (matched = true -> found = true /\ err = None)
  /\ (is_Some err -> matched = false /\ verRead = "")
  /\ (found = false -> is_Some err)
  /\ exists d, trace (snd (isK8sConfiguredAsExpected g k8sResInfo s)) = (trace s ++ d)%list
               /\ readOnly d = true /\ (length d <= 1)%nat.
Proof.
  destruct (isK8sConfiguredAsExpected_run g k8sResInfo s) as (d & Htr & Hro & Hlen & _).
  assert (Hcases : (found = true /\ err = None)
                   \/ (matched = false /\ verRead = "" /\ is_Some err)).
  { revert Hresult. unfold isK8sConfiguredAsExpected.
    destruct (bool_decide (vi_Name k8sResInfo = NvAdmValidatingName)
              || bool_decide (vi_Name k8sResInfo = NvCrdValidatingName)).
    - unfold bind, orchGet.
      destruct (GetResource RscTypeValidatingWebhookConfiguration AllNamespaces
                  (vi_Name k8sResInfo) (world s)) as [r w].
      destruct r as [e | obj].
      + simpl. intros Heq. inversion Heq. right. eauto.
      + unfold orchVersion. cbn [fst snd world trace].
        destruct (GetK8sVersion w) as [major minor].
        destruct obj as [c | c | sv | n | ].
        1,2: edestruct (compareConfig_run g k8sResInfo) as (out & Hrun & Hout);
             rewrite Hrun; simpl; intros Heq;
             (destruct Hout as [-> | (m & v & ->)];
              [discriminate | inversion Heq; left; split; reflexivity]).
        all: simpl; intros Heq; inversion Heq; right; eauto.
    - simpl. intros Heq. inversion Heq. right. eauto. }
  split; [| split; [| split]].
  - intros ->. destruct Hcases as [H | (H & _)]; [exact H | discriminate].
  - intros [e ->]. destruct Hcases as [[_ H] | (H1 & H2 & _)]; [discriminate | eauto].
  - intros ->. destruct Hcases as [[H _] | (_ & _ & H)]; [discriminate | exact H].
  - exists d. repeat split; assumption.
Qed.

End ReadPhase.

(** X11, an instance: the CRD configuration is registered with two
    webhooks where one rule is asked for. *)
Lemma rule_count_mismatch_witness :
  let twice := {| vwc_Metadata := vwc_Metadata (Demo_crdConfig "NoneOnDryRun");
                  vwc_Webhooks := vwc_Webhooks (Demo_crdConfig "NoneOnDryRun")
                                  ++ vwc_Webhooks (Demo_crdConfig "NoneOnDryRun") |} in
  let w := {| Demo.version := (1, 22); Demo.gets := [inr (ObjV1Config twice)];
              Demo.writes := [] |} in
  returned (run (isK8sConfiguredAsExpected (K := Demo.consts) (ORCH := Demo.orch)
                   Demo.globals Demo_crdInfo) w)
  = Some (true, false, "7", None).
Proof.
  intros twice w. unfold run.
  rewrite (rule_count_mismatch (K := Demo.consts) (ORCH := Demo.orch) Demo.globals
             Demo_crdInfo (mkStore w []) true twice
             {| Demo.version := (1, 22); Demo.gets := []; Demo.writes := [] |} "7").
  - reflexivity.
  - right. reflexivity.
  - reflexivity.
  - reflexivity.
  - simpl. lia.
Defined.

(** X12, an instance: the matched CRD configuration of server 1.22. *)
Lemma read_phase_result_witness :
  (true = true -> true = true /\ (None : option Err) = None)
  /\ (is_Some (None : option Err) -> true = false /\ "7" = "").
Proof.
  pose proof (read_phase_result (K := Demo.consts) (ORCH := Demo.orch) Demo.globals
                Demo_crdInfo (mkStore (Demo_crdWorld (1, 22) true "NoneOnDryRun") [])
                true true "7" None) as H.
  destruct H as (H1 & H2 & _); [vm_compute; reflexivity |].
  split; assumption.
Defined.

(** ** Writing the configuration: the call made *)

Section WriteCalls.
Context {K : Consts} {World : Type} {ORCH : Orchestrator World}.

(** With a bundle for every rule the loop builds one webhook for each
    rule, in order, and leaves the store as it is. *)
Lemma buildWebhooks_all (g : Globals) (useApiV1 : bool) (k8sVersionMajor k8sVersionMinor : Z)
    (infos : list WebhookInfo) (s : Store World) :
  (forall whInfo, whInfo ∈ infos ->
     mapGet (admCaBundle g) (ServiceName (wi_ClientConfig whInfo)) <> "") ->
  buildWebhooks g useApiV1 k8sVersionMajor k8sVersionMinor infos s
  = (Returned (inr (map (fun whInfo =>
                           if useApiV1 then buildWebhookV1 g whInfo
                           else buildWebhookV1beta1 g k8sVersionMajor k8sVersionMinor
                                  (bool_decide ((GetK8sVersion (world s)).1 = 1)
                                   && (14 <=? (GetK8sVersion (world s)).2))
                                  whInfo) infos)), s).
Proof.
  intros Hall. induction infos as [|whInfo infos IH]; [reflexivity |].
  cbn [buildWebhooks map].
  assert (Hlen : (len (mapGet (admCaBundle g) (ServiceName (wi_ClientConfig whInfo))) =? 0)
                 = false).
  { destruct (len _ =? 0) eqn:Hz; [| reflexivity].
    apply len_zero in Hz. contradiction (Hall whInfo (list_elem_of_here _ _)). }
  rewrite Hlen. unfold bind.
  assert (IH' := IH (fun x Hx => Hall x (list_elem_of_further _ _ _ Hx))).
  destruct useApiV1.
  - unfold ret at 1. rewrite IH'. reflexivity.
  - rewrite IsNsSelectorSupported_run. unfold ret at 1. rewrite IH'. reflexivity.
Qed.

(** X13: with a bundle in the registry for every rule, a create is one
    call, an add of the configuration without a version token, and an update
    is one call, an update that carries the version token given; either
    submits one webhook for each rule, in the order of the rules, in the
    schema generation of the server version, and returns what the
    orchestrator answers. *)
Theorem write_one_call (g : Globals) (resVersion : string)
    (k8sResInfo : ValidatingWebhookConfigInfo) (s : Store World)
    (Hall : forall whInfo, whInfo ∈ WebhooksInfo k8sResInfo ->
              mapGet (admCaBundle g) (ServiceName (wi_ClientConfig whInfo)) <> "") :
  let '(k8sVersionMajor, k8sVersionMinor) := GetK8sVersion (world s) in
  let useApiV1 := bool_decide (k8sVersionMajor = 1) && (22 <=? k8sVersionMinor) in
  let webhooks :=
    map (fun whInfo =>
           if useApiV1 then buildWebhookV1 g whInfo
           else buildWebhookV1beta1 g k8sVersionMajor k8sVersionMinor
                  (bool_decide (k8sVersionMajor = 1) && (14 <=? k8sVersionMinor)) whInfo)
        (WebhooksInfo k8sResInfo) in
  let obj := fun ver =>
    configObj useApiV1 {| vwc_Metadata := metaNamed (vi_Name k8sResInfo) ver;
                          vwc_Webhooks := webhooks |} in
  configK8sAdmCtrlValidateResource g K8sResOpCreate resVersion k8sResInfo s
  = (let '(res, w') := AddResource RscTypeValidatingWebhookConfiguration (obj None) (world s) in
     (Returned res,
      mkStore w' (trace s ++ [CallAdd RscTypeValidatingWebhookConfiguration (obj None) res])%list))
  /\ configK8sAdmCtrlValidateResource g K8sResOpUpdate resVersion k8sResInfo s
     = (let '(res, w') := UpdateResource RscTypeValidatingWebhookConfiguration
                            (obj (Some resVersion)) (world s) in
        (Returned res,
         mkStore w' (trace s ++ [CallUpdate RscTypeValidatingWebhookConfiguration
                                   (obj (Some resVersion)) res])%list)).
Proof.
  pose proof (fun v => buildWebhooks_all g v (GetK8sVersion (world s)).1
                         (GetK8sVersion (world s)).2 (WebhooksInfo k8sResInfo) s Hall) as Hb.
  unfold configK8sAdmCtrlValidateResource, bind, orchVersion, orchAdd, orchUpdate.
  destruct (GetK8sVersion (world s)) as [major minor]. cbn [fst snd] in *.
  split; simpl; rewrite Hb; reflexivity.
Qed.

(** X14: a delete needs no bundle and no rule: it is one call, a delete of
    the object that carries the name alone, and returns what the orchestrator
    answers; [UnregK8sAdmissionControl] is that delete. An operation other
    than create, update and delete is refused without a call. *)
Theorem delete_one_call (g : Globals) (op resVersion admType : string)
    (k8sResInfo : ValidatingWebhookConfigInfo) (s : Store World) :
  let '(k8sVersionMajor, k8sVersionMinor) := GetK8sVersion (world s) in
  let obj :=
    configObj (bool_decide (k8sVersionMajor = 1) && (22 <=? k8sVersionMinor))
      {| vwc_Metadata := metaNamed (vi_Name k8sResInfo) None; vwc_Webhooks := [] |} in
  let deleted :=
    let '(res, w') := DeleteResource RscTypeValidatingWebhookConfiguration obj (world s) in
    (Returned res,
     mkStore w' (trace s ++ [CallDelete RscTypeValidatingWebhookConfiguration obj res])%list) in
  configK8sAdmCtrlValidateResource g K8sResOpDelete resVersion k8sResInfo s = deleted
  /\ UnregK8sAdmissionControl g admType (vi_Name k8sResInfo) s = deleted
  /\ (op <> K8sResOpCreate -> op <> K8sResOpUpdate -> op <> K8sResOpDelete ->
      configK8sAdmCtrlValidateResource g op resVersion k8sResInfo s
      = (Returned (Some "unsupported k8s resource operation"), s)).
Proof.
  unfold UnregK8sAdmissionControl, configK8sAdmCtrlValidateResource, bind, orchVersion,
    orchDelete.
  destruct (GetK8sVersion (world s)) as [major minor]. cbn [fst snd].
  split; [reflexivity |]. split; [reflexivity |].
  intros Hc Hu Hd.
  rewrite (bool_decide_eq_false_2 (op = K8sResOpDelete)) by exact Hd.
  rewrite (bool_decide_eq_false_2 (op = K8sResOpCreate)) by exact Hc.
  rewrite (bool_decide_eq_false_2 (op = K8sResOpUpdate)) by exact Hu.
  reflexivity.
Qed.

End WriteCalls.

(** X13, an instance: the update of the CRD configuration on server 1.22
    with the bundle of the scripted registry. *)
Lemma write_one_call_witness :
  map callOp (calls (run (configK8sAdmCtrlValidateResource (K := Demo.consts)
                            (ORCH := Demo.orch) Demo.globals "update" "7" Demo_crdInfo)
                         Demo_emptyWorld))
  = ["update"].
Proof.
  unfold run, calls.
  pose proof (write_one_call (K := Demo.consts) (ORCH := Demo.orch) Demo.globals "7"
                Demo_crdInfo (mkStore Demo_emptyWorld [])) as H.
  simpl in H. destruct H as [_ H].
  - intros whInfo Hin. apply list_elem_of_singleton in Hin. subst whInfo.
    vm_compute. discriminate.
  - change "update" with K8sResOpUpdate at 1. rewrite H. reflexivity.
Defined.

(** ** Writing then reading *)

Section RoundTrip.
Context {K : Consts}.

Lemma strings_EqualFold_refl (s : string) : strings_EqualFold s s = true.
Proof. unfold strings_EqualFold. apply bool_decide_eq_true. reflexivity. Qed.

Lemma ruleTable_sideEffects (useApiV1 : bool) (whInfo : WebhookInfo) (name : string) :
  (name = NvCrdValidatingName <-> wi_Name whInfo = NvCrdValidatingWebhookName) ->
  NvCrdValidatingWebhookName <> NvAdmValidatingWebhookName ->
  (ruleTable useApiV1 whInfo).1.1.1.2
  = if bool_decide (name = NvCrdValidatingName)
    then (if useApiV1 then SideEffectNoneOnDryRun else SideEffectSome)
    else SideEffectNone.
Proof.
  intros Hcrd Hadm. unfold ruleTable.
  destruct (bool_decide_reflect (name = NvCrdValidatingName)) as [Hn | Hn].
  - apply Hcrd in Hn.
    rewrite (bool_decide_eq_false_2 (wi_Name whInfo = NvAdmValidatingWebhookName))
      by congruence.
    rewrite (bool_decide_eq_true_2 (wi_Name whInfo = NvCrdValidatingWebhookName)) by exact Hn.
    reflexivity.
  - assert (Hw : wi_Name whInfo <> NvCrdValidatingWebhookName) by (intros H; apply Hn, Hcrd, H).
    rewrite (bool_decide_eq_false_2 (wi_Name whInfo = NvCrdValidatingWebhookName)) by exact Hw.
    repeat case_bool_decide; reflexivity.
Qed.

(** X15: what the write phase builds for a rule, the read phase accepts:
    on a server of major version 1, the webhook built for [whInfo], read back
    in the schema generation it was written in, passes every test of the read
    phase but the last, the selector predicate of package [resource], which
    then decides alone. The configuration name must be the CRD one exactly
    when the rule is the CRD rule. *)
Theorem written_webhook_matches (g : Globals) (name : string) (k8sVersionMinor : Z)
    (nsSelectorSupported writtenWithSelector : bool) (whInfo : WebhookInfo)
    (Hcrd : name = NvCrdValidatingName <-> wi_Name whInfo = NvCrdValidatingWebhookName)
    (Hadm : NvCrdValidatingWebhookName <> NvAdmValidatingWebhookName) :
  let useApiV1 := 22 <=? k8sVersionMinor in
  let written :=
    normalizeWebhook useApiV1
      (if useApiV1 then buildWebhookV1 g whInfo
       else buildWebhookV1beta1 g 1 k8sVersionMinor writtenWithSelector whInfo) in
  webhookMatched g name useApiV1 1 k8sVersionMinor nsSelectorSupported written whInfo
  = IsK8sNvWebhookConfigured (wi_Name whInfo) (wi_FailurePolicy whInfo) written
      nsSelectorSupported.
Proof.
  intros useApiV1 written.
  pose proof (ruleTable_sideEffects useApiV1 whInfo name Hcrd Hadm) as Hside.
  assert (Hver : negb useApiV1 || bool_decide (k_AdmissionReviewVersions written
                                               = [K8sApiVersionV1Beta1]) = true).
  { subst written. destruct useApiV1; [| reflexivity]. simpl.
    unfold buildWebhookV1. destruct (ruleTable true whInfo) as [[[[res side] key] op] pol].
    simpl. apply bool_decide_eq_true. reflexivity. }
  assert (Hcfg : k_ClientConfig written = buildClientConfig g whInfo).
  { subst written. destruct useApiV1; simpl.
    - unfold buildWebhookV1. destruct (ruleTable true whInfo) as [[[[res side] key] op] pol].
      simpl. unfold buildClientConfig.
      destruct (bool_decide (ClientMode (wi_ClientConfig whInfo) = AdmClientModeUrl));
        reflexivity.
    - unfold buildWebhookV1beta1.
      destruct (ruleTable false whInfo) as [[[[res side] key] op] pol].
      simpl. unfold buildClientConfig.
      destruct (bool_decide (ClientMode (wi_ClientConfig whInfo) = AdmClientModeUrl));
        reflexivity. }
  assert (Hse : sideEffectsAccepted k8sVersionMinor (k_SideEffects written)
                  (expectedSideEffects name 1 k8sVersionMinor) = true).
  { unfold sideEffectsAccepted, expectedSideEffects.
    rewrite (bool_decide_eq_true_2 (1 = 1)) by reflexivity. cbn [andb].
    destruct (k8sVersionMinor <=? 11) eqn:Hle; [reflexivity |].
    apply Z.leb_gt in Hle. rewrite (proj2 (Z.ltb_lt 11 k8sVersionMinor)) by lia. simpl.
    subst written. unfold useApiV1 in *. destruct (22 <=? k8sVersionMinor) eqn:H22; simpl.
    - unfold buildWebhookV1. destruct (ruleTable true whInfo) as [[[[res side] key] op] pol].
      simpl in *. subst side. apply bool_decide_eq_true. reflexivity.
    - unfold buildWebhookV1beta1.
      destruct (ruleTable false whInfo) as [[[[res side] key] op] pol].
      simpl in *. subst side.
      rewrite ?(bool_decide_eq_true_2 (1 = 1)) by reflexivity.
      rewrite ?(proj2 (Z.ltb_lt 11 k8sVersionMinor)) by lia. simpl.
      apply bool_decide_eq_true. reflexivity. }
  unfold webhookMatched. rewrite Hver, Hse, Hcfg. unfold buildClientConfig.
  destruct (bool_decide (ClientMode (wi_ClientConfig whInfo) = AdmClientModeUrl)); simpl.
  - rewrite (bool_decide_eq_true_2 (mapGet _ _ = mapGet _ _)) by reflexivity.
    rewrite orb_true_r, strings_EqualFold_refl. reflexivity.
  - rewrite ?(bool_decide_eq_true_2 (is_Some (Some _))) by eauto.
    rewrite ?(bool_decide_eq_true_2 (mapGet _ _ = mapGet _ _)) by reflexivity.
    rewrite ?(bool_decide_eq_true_2 (Some _ = Some _)) by reflexivity.
    rewrite ?orb_true_r. simpl. rewrite ?strings_EqualFold_refl. reflexivity.
Qed.

End RoundTrip.

(** X15, an instance: the CRD rule on server 1.22 and on server 1.15. *)
Lemma written_webhook_matches_witness :
  let whInfo := {| wi_Name := "neuvector-validating-crd-webhook.neuvector.svc";
                   wi_ClientConfig := {| ClientMode := "url";
                                         ServiceName := "neuvector-svc-admission-webhook";
                                         Path := "/v1/validate/crd";
                                         Port := 30443 |};
                   wi_FailurePolicy := "Ignore";
                   wi_TimeoutSeconds := 30 |} in
  webhookMatched (K := Demo.consts) Demo.globals "neuvector-validating-crd-webhook" true 1 22
    true (normalizeWebhook true (buildWebhookV1 (K := Demo.consts) Demo.globals whInfo)) whInfo
  = true
  /\ webhookMatched (K := Demo.consts) Demo.globals "neuvector-validating-crd-webhook" false
       1 15 true
       (normalizeWebhook false
          (buildWebhookV1beta1 (K := Demo.consts) Demo.globals 1 15 true whInfo)) whInfo
     = true.
Proof.
  intros whInfo.
  assert (Hcrd : "neuvector-validating-crd-webhook" = NvCrdValidatingName (Consts := Demo.consts)
                 <-> wi_Name whInfo = NvCrdValidatingWebhookName (Consts := Demo.consts))
    by (split; intros _; reflexivity).
  assert (Hadm : NvCrdValidatingWebhookName (Consts := Demo.consts)
                 <> NvAdmValidatingWebhookName (Consts := Demo.consts))
    by (vm_compute; discriminate).
  split.
  - etransitivity;
      [exact (written_webhook_matches (K := Demo.consts) Demo.globals
                "neuvector-validating-crd-webhook" 22 true true whInfo Hcrd Hadm)
      | vm_compute; reflexivity].
  - etransitivity;
      [exact (written_webhook_matches (K := Demo.consts) Demo.globals
                "neuvector-validating-crd-webhook" 15 true true whInfo Hcrd Hadm)
      | vm_compute; reflexivity].
Defined.

(** ** Service information and port discovery *)

Section Ports.
Context {K : Consts} {World : Type} {ORCH : Orchestrator World}.

Lemma svcInfoOfAnswer_cases (g : Globals) (svcname : string) (r : Err + Obj)
    (e : option Err) (info : ValidateWebhookSvcInfo) :
  svcInfoOfAnswer g svcname r = Returned (e, info) ->
  (forall err, e = Some err <-> r = inl err)
  /\ ((SvcNodePort info = 443 /\ SvcType info = ServiceTypeClusterIP)
      \/ (SvcType info = ServiceTypeNodePort
          /\ exists sv sp, r = inr (ObjService (Some sv)) /\ svc_Spec sv = Some sp
               /\ spec_Type sp = Some ServiceTypeNodePort
               /\ firstNodePort (spec_Ports sp) = Some (SvcNodePort info))).
Proof.
  unfold svcInfoOfAnswer. destruct r as [err | obj].
  - destruct ((0 <? strings_Index err " 403 ") && (0 <? strings_Index err "forbidden"));
      intros Heq; inversion Heq; subst; simpl;
      (split; [intros err0; split; congruence | left; split; reflexivity]).
  - assert (Hno : forall err, None = Some err <-> @inr Err Obj obj = inl err)
      by (intros err; split; discriminate).
    destruct obj as [c | c | [sv|] | n | ];
      try (intros Heq; inversion Heq; subst; simpl;
           split; [exact Hno | left; split; reflexivity]).
    match goal with
    | |- match ?lab with Returned _ => _ | Panicked => _ end = _ -> _ =>
        destruct lab as [info0|] eqn:Hlab; [| discriminate]
    end.
    assert (Hdef : SvcNodePort info0 = 443 /\ SvcType info0 = ServiceTypeClusterIP).
    { destruct (svcLabelKeys g !! svcname) as [keys|].
      - destruct (svc_Metadata sv) as [md|]; [| discriminate].
        inversion Hlab; subst; split; reflexivity.
      - inversion Hlab; subst; split; reflexivity. }
    destruct (svc_Spec sv) as [[[t|] ports]|] eqn:Hspec;
      try (intros Heq; inversion Heq; subst; split; [exact Hno | left; exact Hdef]).
    destruct (bool_decide_reflect (t = ServiceTypeNodePort)) as [Ht | Ht];
      [| intros Heq; inversion Heq; subst; split; [exact Hno | left; exact Hdef]].
    destruct (firstNodePort ports) as [p|] eqn:Hp;
      intros Heq; inversion Heq; subst; (split; [exact Hno |]); [| left; exact Hdef].
    right. split; [reflexivity |]. eexists sv, _. split; [reflexivity |].
    split; [exact Hspec |]. split; [reflexivity | exact Hp].
Qed.

(** A service of type NodePort one of whose ports has a node port gets the
    first such port reported, with the NodePort type and without an error. *)
Lemma svcInfoOfAnswer_nodePort (g : Globals) (svcname : string) (sv : Service)
    (sp : ServiceSpec) (p : Z) (e : option Err) (info : ValidateWebhookSvcInfo) :
  svcInfoOfAnswer g svcname (inr (ObjService (Some sv))) = Returned (e, info) ->
  svc_Spec sv = Some sp ->
  spec_Type sp = Some ServiceTypeNodePort ->
  firstNodePort (spec_Ports sp) = Some p ->
  e = None /\ SvcNodePort info = p /\ SvcType info = ServiceTypeNodePort.
Proof.
  unfold svcInfoOfAnswer. intros Hret Hspec Htype Hport.
  match type of Hret with
  | match ?lab with Returned _ => _ | Panicked => _ end = _ =>
      destruct lab as [info0|]; [| discriminate]
  end.
  rewrite Hspec in Hret. destruct sp as [ty ports]. simpl in Htype, Hport. subst ty.
  rewrite bool_decide_eq_true_2 in Hret by reflexivity. rewrite Hport in Hret.
  inversion Hret; subst. repeat split.
Qed.

(** X16: what [GetValidateWebhookSvcInfo] reports when it returns. It
    reports an error exactly when the read failed, and that error. For a
    service of type NodePort one of whose ports has a node port it reports
    the first such port and the NodePort type, without an error; in every
    other case it reports port 443 and the cluster-IP type. *)
Theorem service_port_default (g : Globals) (svcname : string) (s : Store World)
    (e : option Err) (info : ValidateWebhookSvcInfo)
    (Hret : fst (GetValidateWebhookSvcInfo g svcname s) = Returned (e, info)) :
  let r := fst (GetResource RscTypeService NvAdmSvcNamespace svcname (world s)) in
  (forall err, e = Some err <-> r = inl err)
  /\ (forall sv sp p,
        r = inr (ObjService (Some sv)) -> svc_Spec sv = Some sp ->
        spec_Type sp = Some ServiceTypeNodePort ->
        firstNodePort (spec_Ports sp) = Some p ->
        e = None /\ SvcNodePort info = p /\ SvcType info = ServiceTypeNodePort)
  /\ ((SvcNodePort info = 443 /\ SvcType info = ServiceTypeClusterIP)
      \/ (SvcType info = ServiceTypeNodePort
          /\ exists sv sp, r = inr (ObjService (Some sv)) /\ svc_Spec sv = Some sp
               /\ spec_Type sp = Some ServiceTypeNodePort
               /\ firstNodePort (spec_Ports sp) = Some (SvcNodePort info))).
Proof.
  rewrite GetValidateWebhookSvcInfo_run in Hret.
  destruct (GetResource RscTypeService NvAdmSvcNamespace svcname (world s)) as [r w].
  simpl in *.
  destruct (svcInfoOfAnswer_cases g svcname r e info Hret) as [Herr Hcases].
  split; [exact Herr |]. split; [| exact Hcases].
  intros sv sp p Hr Hspec Htype Hport. subst r.
  exact (svcInfoOfAnswer_nodePort g svcname sv sp p e info Hret Hspec Htype Hport).
Qed.

Lemma resolvePorts_shape (g : Globals) (infos : list WebhookInfo) :
  forall (s s' : Store World) (infos' : list WebhookInfo),
  resolvePorts g infos s = (Returned infos', s') ->
  Forall2 (fun whInfo whInfo' =>
             (exists port, whInfo' = withPort whInfo port)
             /\ (ClientMode (wi_ClientConfig whInfo) <> AdmClientModeUrl -> whInfo' = whInfo))
          infos infos'.
Proof.
  induction infos as [|whInfo infos IH]; intros s s' infos'.
  - simpl. intros Heq. inversion Heq. constructor.
  - cbn [resolvePorts]. unfold bind at 1.
    destruct (bool_decide_reflect (ClientMode (wi_ClientConfig whInfo) = AdmClientModeUrl))
      as [Hurl | Hurl].
    + unfold bind at 1. rewrite GetValidateWebhookSvcInfo_run.
      destruct (GetResource RscTypeService NvAdmSvcNamespace
                  (ServiceName (wi_ClientConfig whInfo)) (world s)) as [r w].
      destruct (svcInfoOfAnswer g (ServiceName (wi_ClientConfig whInfo)) r)
        as [[err svcInfo]|]; [| discriminate].
      unfold ret at 1. unfold bind.
      destruct (resolvePorts g infos _) as [[rest|] s1] eqn:Hrest; [| discriminate].
      intros Heq. inversion Heq; subst. constructor; [| exact (IH _ _ _ Hrest)].
      split; [eauto | intros Hn; contradiction].
    + unfold ret at 1. unfold bind.
      destruct (resolvePorts g infos s) as [[rest|] s1] eqn:Hrest; [| discriminate].
      intros Heq. inversion Heq; subst. constructor; [| exact (IH _ _ _ Hrest)].
      split; [| reflexivity]. exists (Port (wi_ClientConfig whInfo)).
      destruct whInfo as [n [m sn p pt] fp ts]. reflexivity.
Qed.

(** X17: port discovery returns the rules it was given, in their order,
    changed in nothing but the port, and a rule that is not in URL mode
    unchanged altogether. *)
Theorem resolvePorts_preserves (g : Globals) (infos infos' : list WebhookInfo)
    (s s' : Store World)
    (Hret : resolvePorts g infos s = (Returned infos', s')) :
  length infos' = length infos
  /\ Forall2 (fun whInfo whInfo' =>
                (exists port, whInfo' = withPort whInfo port)
                /\ (ClientMode (wi_ClientConfig whInfo) <> AdmClientModeUrl ->
                    whInfo' = whInfo))
             infos infos'.
Proof.
  pose proof (resolvePorts_shape g infos s s' infos' Hret) as Hshape.
  split; [symmetry; exact (Forall2_length _ _ _ Hshape) | exact Hshape].
Qed.

End Ports.

(** X16, an instance: a NodePort service whose third port has the node
    port 30443. *)
Lemma service_port_default_witness :
  let w := {| Demo.version := (1, 22); Demo.gets := [inr (Demo_nodePortService 30443)];
              Demo.writes := [] |} in
  option_map (fun r => (fst r, SvcNodePort (snd r), SvcType (snd r)))
    (returned (run (GetValidateWebhookSvcInfo (K := Demo.consts) (ORCH := Demo.orch)
                      Demo.globals "neuvector-svc-admission-webhook") w))
  = Some (None, 30443, "NodePort")
  /\ forall err : Err, (None : option Err) = Some err
                       <-> @inr Err Obj (Demo_nodePortService 30443) = inl err.
Proof.
  intros w. split; [vm_compute; reflexivity |].
  apply (service_port_default (K := Demo.consts) (ORCH := Demo.orch) Demo.globals
           "neuvector-svc-admission-webhook" (mkStore w []) None
           {| Status := 31; SvcNodePort := 30443; SvcType := "NodePort";
              LabelTag := ""; LabelEcho := "" |}).
  vm_compute. reflexivity.
Defined.

(** X17, an instance: a rule in URL mode takes the node port, the rule in
    service mode that follows keeps its port. *)
Lemma resolvePorts_preserves_witness :
  let w := {| Demo.version := (1, 22); Demo.gets := [inr (Demo_nodePortService 30443)];
              Demo.writes := [] |} in
  returned (run (resolvePorts (K := Demo.consts) (ORCH := Demo.orch) Demo.globals
                   [Demo_urlRule; Demo_serviceRule]) w)
  = Some [withPort Demo_urlRule 30443; Demo_serviceRule]
  /\ length [withPort Demo_urlRule 30443; Demo_serviceRule]
     = length [Demo_urlRule; Demo_serviceRule].
Proof.
  intros w. split; [vm_compute; reflexivity |].
  apply (resolvePorts_preserves (K := Demo.consts) (ORCH := Demo.orch) Demo.globals
           [Demo_urlRule; Demo_serviceRule] [withPort Demo_urlRule 30443; Demo_serviceRule]
           (mkStore w [])
           (mkStore {| Demo.version := (1, 22); Demo.gets := []; Demo.writes := [] |}
              [CallGet "service" "neuvector" "neuvector-svc-admission-webhook"
                 (inr (Demo_nodePortService 30443))])).
  vm_compute. reflexivity.
Defined.

(** ** The reconcile loop: which writes it makes *)

Section WriteKinds.
Context {K : Consts} {World : Type} {ORCH : Orchestrator World}.

Lemma writesAmong_app (ops : list string) (a b : list StoreCall) :
  writesAmong ops (a ++ b) = writesAmong ops a && writesAmong ops b.
Proof. unfold writesAmong. apply forallb_app. Qed.

Lemma readOnly_writesAmong (ops : list string) (d : list StoreCall) :
  readOnly d = true -> writesAmong ops d = true.
Proof.
  unfold readOnly, writesAmong. induction d as [|c d IH]; simpl; [reflexivity |].
  intros Hro. apply andb_true_iff in Hro as [Hc Hd]. rewrite Hc, (IH Hd). reflexivity.
Qed.

Lemma selectOp_kinds (k8sConfigured matchedCfg enable : bool) :
  selectOp k8sConfigured matchedCfg enable = ""
  \/ existsb (String.eqb (selectOp k8sConfigured matchedCfg enable)) (opsFor enable) = true.
Proof. destruct k8sConfigured, matchedCfg, enable; vm_compute; auto. Qed.

Lemma reconcileAttempt_kinds (g : Globals) (k8sResInfo : ValidatingWebhookConfigInfo)
    (enable : bool) (s : Store World) :
  exists d,
    trace (snd (reconcileAttempt g k8sResInfo enable s)) = (trace s ++ d)%list
    /\ writesAmong (opsFor enable) d = true.
Proof.
  rewrite reconcileAttempt_steps.
  destruct (isK8sConfiguredAsExpected_run g k8sResInfo s) as (dr & Htr & Hro & _).
  pose proof (readOnly_writesAmong (opsFor enable) dr Hro) as Hdr.
  destruct (isK8sConfiguredAsExpected g k8sResInfo s) as [[[[[found matched] ver] e]|] s1];
    simpl in Htr; [| exists dr; split; assumption].
  destruct ((negb found && negb enable) || (matched && found && enable));
    [exists dr; split; assumption |].
  destruct (configK8sAdmCtrlValidateResource_run g (selectOp found matched enable) ver
              k8sResInfo s1) as (res & dw & Hres & Htw & Hdw).
  destruct (configK8sAdmCtrlValidateResource g (selectOp found matched enable) ver
              k8sResInfo s1) as [out s2]. simpl in Hres, Htw. subst out.
  assert (Hall : trace s2 = (trace s ++ dr ++ dw)%list
                 /\ writesAmong (opsFor enable) (dr ++ dw) = true).
  { split; [rewrite Htw, Htr, <- app_assoc; reflexivity |].
    rewrite writesAmong_app, Hdr. simpl.
    destruct Hdw as [[-> _] | (c & -> & Hw & _ & Hop)]; [reflexivity |].
    unfold writesAmong. simpl. rewrite Hop, andb_true_r.
    destruct (selectOp_kinds found matched enable) as [Hempty | Hk].
    - rewrite Hempty in Hop. destruct c; simpl in *; discriminate.
    - rewrite Hk. apply orb_true_r. }
  destruct res as [err|]; exists (dr ++ dw)%list; exact Hall.
Qed.

Lemma reconcileLoop_kinds (g : Globals) (k8sResInfo : ValidatingWebhookConfigInfo)
    (enable : bool) (n : nat) :
  forall (err0 : option Err) (s : Store World),
  exists d,
    trace (snd (reconcileLoop g k8sResInfo enable n err0 s)) = (trace s ++ d)%list
    /\ writesAmong (opsFor enable) d = true.
Proof.
  induction n as [|n IH]; intros err0 s.
  - exists []. simpl. rewrite app_nil_r. split; reflexivity.
  - cbn [reconcileLoop]. unfold bind.
    destruct (reconcileAttempt_kinds g k8sResInfo enable s) as (d1 & Htr1 & Hk1).
    destruct (reconcileAttempt g k8sResInfo enable s) as [[[skip e | e]|] s1];
      simpl in Htr1; try (exists d1; split; assumption).
    destruct (IH e s1) as (d2 & Htr2 & Hk2).
    exists (d1 ++ d2)%list. rewrite Htr2, Htr1, <- app_assoc. split; [reflexivity |].
    rewrite writesAmong_app, Hk1, Hk2. reflexivity.
Qed.

(** X18: [ConfigK8sAdmissionControl] never adds or updates the
    configuration when admission control is disabled, and never deletes it
    when admission control is enabled: every write it makes is a delete in
    the first case, an add or an update in the second. *)
Theorem reconcile_write_kinds (g : Globals) (k8sResInfo : ValidatingWebhookConfigInfo)
    (ctrlState : CLUSAdmCtrlState) (w : World) :
  writesAmong (if Enable ctrlState then [K8sResOpCreate; K8sResOpUpdate]
               else [K8sResOpDelete])
    (calls (run (ConfigK8sAdmissionControl g k8sResInfo (Some ctrlState)) w)) = true.
Proof.
  change (if Enable ctrlState then _ else _) with (opsFor (Enable ctrlState)).
  unfold run, calls, ConfigK8sAdmissionControl.
  destruct (bool_decide (Uri ctrlState = "")); [reflexivity |].
  unfold bind.
  destruct (resolvePorts_run g (WebhooksInfo k8sResInfo) (mkStore w []))
    as (ports & Htr & Hro & _).
  pose proof (readOnly_writesAmong (opsFor (Enable ctrlState)) ports Hro) as Hp.
  destruct (resolvePorts g (WebhooksInfo k8sResInfo) (mkStore w [])) as [[infos|] s0];
    simpl in Htr; [| simpl; rewrite Htr; exact Hp].
  destruct (reconcileLoop_kinds g {| vi_Name := vi_Name k8sResInfo; WebhooksInfo := infos |}
              (Enable ctrlState) 3 None s0) as (d & Htr' & Hk).
  rewrite Htr', Htr, writesAmong_app, Hp, Hk. reflexivity.
Qed.

(** X19: with admission control enabled and the configuration found and
    matched at the first read, [ConfigK8sAdmissionControl] returns
    [(true, nil)] at once and writes nothing. *)
Theorem reconcile_enabled_matched (g : Globals) (k8sResInfo : ValidatingWebhookConfigInfo)
    (ctrlState : CLUSAdmCtrlState) (w : World) (infos : list WebhookInfo)
    (s0 : Store World) (verRead : string) (err : option Err)
    (Henabled : Enable ctrlState = true)
    (HUri : Uri ctrlState <> "")
    (Hports : resolvePorts g (WebhooksInfo k8sResInfo) (mkStore w []) = (Returned infos, s0))
    (Hread : fst (isK8sConfiguredAsExpected g
                    {| vi_Name := vi_Name k8sResInfo; WebhooksInfo := infos |} s0)
             = Returned (true, true, verRead, err)) :
  let r := run (ConfigK8sAdmissionControl g k8sResInfo (Some ctrlState)) w in
  returned r = Some (true, None)
  /\ readOnly (calls r) = true
  /\ snd r = snd (isK8sConfiguredAsExpected g
                    {| vi_Name := vi_Name k8sResInfo; WebhooksInfo := infos |} s0).
Proof.
  intros r. subst r. unfold run, calls, returned, ConfigK8sAdmissionControl.
  rewrite bool_decide_eq_false_2 by exact HUri.
  unfold bind. rewrite Hports.
  destruct (resolvePorts_run g (WebhooksInfo k8sResInfo) (mkStore w []))
    as (ports & Htr & Hro & _).
  rewrite Hports in Htr. simpl in Htr.
  set (k8sResInfo' := {| vi_Name := vi_Name k8sResInfo; WebhooksInfo := infos |}) in *.
  cbn [reconcileLoop]. unfold bind. rewrite reconcileAttempt_steps.
  destruct (isK8sConfiguredAsExpected_run g k8sResInfo' s0) as (dr & Htr' & Hro' & _).
  destruct (isK8sConfiguredAsExpected g k8sResInfo' s0) as [out s1].
  simpl in Hread, Htr'. subst out. rewrite Henabled. simpl.
  split; [reflexivity |]. split; [| reflexivity].
  rewrite Htr', Htr. unfold readOnly in *. rewrite forallb_app, Hro, Hro'. reflexivity.
Qed.

End WriteKinds.

(** X19, an instance: the CRD configuration of server 1.22 is registered as
    asked for. *)
Lemma reconcile_enabled_matched_witness :
  let r := run (ConfigK8sAdmissionControl (K := Demo.consts) (ORCH := Demo.orch)
                  Demo.globals Demo_crdInfo (Some Demo_enabled))
               (Demo_crdWorld (1, 22) true "NoneOnDryRun") in
  returned r = Some (true, None) /\ readOnly (calls r) = true.
Proof.
  intros r.
  pose proof (reconcile_enabled_matched (K := Demo.consts) (ORCH := Demo.orch)
                Demo.globals Demo_crdInfo Demo_enabled
                (Demo_crdWorld (1, 22) true "NoneOnDryRun")
                (WebhooksInfo Demo_crdInfo)
                (mkStore (Demo_crdWorld (1, 22) true "NoneOnDryRun") []) "7" None) as H.
  destruct H as (Hret & Hro & _).
  - reflexivity.
  - vm_compute. discriminate.
  - reflexivity.
  - vm_compute. reflexivity.
  - split; [exact Hret | exact Hro].
Defined.

(** ** The connectivity probe: before the poll loop *)

Section ProbeCalls.
Context {K : Consts} {World : Type} {ORCH : Orchestrator World}.

Lemma TestAdmWebhookConnection_shape (g : Globals) (now : Z) (events : nat -> PollEvent)
    (svcname : string) (w : World) :
  let r := run (TestAdmWebhookConnection g now events svcname) w in
  (exists ans,
     calls r = [CallGet RscTypeService NvAdmSvcNamespace svcname ans]
     /\ (fst r = Panicked
         \/ (exists e, fst r = Returned (TestFailedAtRead, Some e))
         \/ fst r = Returned (TestFailed, None)))
  \/ (exists ans obj e,
        calls r = [CallGet RscTypeService NvAdmSvcNamespace svcname ans;
                   CallUpdate RscTypeService obj (Some e)]
        /\ fst r = Returned (TestFailedAtWrite, Some e))
  \/ (exists ans obj polls,
        calls r = CallGet RscTypeService NvAdmSvcNamespace svcname ans
                  :: CallUpdate RscTypeService obj None :: polls
        /\ readOnly polls = true /\ (length polls <= 10)%nat).
Proof.
  unfold run, calls, TestAdmWebhookConnection.
  remember (pollLoop g svcname (pretty now) events 0 pollBudget) as loop eqn:Hloop.
  unfold bind, orchGet, orchUpdate, ret, panic. simpl.
  destruct (GetResource RscTypeService NvAdmSvcNamespace svcname w) as [r0 w1].
  destruct r0 as [err | o]; simpl.
  { left. eexists. split; [reflexivity |]. right. left. eauto. }
  destruct (svcLabelKeys g !! svcname) as [keys|] eqn:Hkeys; simpl.
  2: { left. eexists. split; [reflexivity |]. right. left. eauto. }
  destruct o as [c | c | [[[md|] spec]|] | n | ]; simpl;
    try (left; eexists; split; [reflexivity |]; left; reflexivity);
    try (left; eexists; split; [reflexivity |]; right; right; reflexivity).
  destruct (om_ResourceVersion md) as [rv|]; simpl;
    [| left; eexists; split; [reflexivity |]; right; right; reflexivity].
  match goal with
  | |- context [UpdateResource RscTypeService ?o w1] =>
      set (written := o); destruct (UpdateResource RscTypeService written w1) as [res w2]
  end.
  destruct res as [e|]; simpl.
  { right. left. eexists _, _, e. split; reflexivity. }
  right. right.
  match goal with
  | |- context [loop ?s0] =>
      destruct (pollLoop_outcome g svcname (pretty now) events pollBudget 0 s0)
        as (polls & Htr & Hro & Hlen & _)
  end.
  rewrite <- Hloop in Htr. rewrite Htr. simpl.
  eexists _, _, polls. split; [reflexivity |]. split; [exact Hro | exact Hlen].
Qed.

(** X20: the calls of the initiator probe. It reads the service once; it
    writes at most once, the update of the tag, right after that read; it
    polls only after that update was accepted, at most ten reads; it returns
    the failed-at-write code with the orchestrator's error exactly in the
    shape "read, refused update". Hence at most one write and eleven reads. *)
Theorem probe_calls (g : Globals) (now : Z) (events : nat -> PollEvent)
    (svcname : string) (w : World) :
  let r := run (TestAdmWebhookConnection g now events svcname) w in
  ((exists ans,
      calls r = [CallGet RscTypeService NvAdmSvcNamespace svcname ans]
      /\ (fst r = Panicked
          \/ (exists e, fst r = Returned (TestFailedAtRead, Some e))
          \/ fst r = Returned (TestFailed, None)))
   \/ (exists ans obj e,
         calls r = [CallGet RscTypeService NvAdmSvcNamespace svcname ans;
                    CallUpdate RscTypeService obj (Some e)]
         /\ fst r = Returned (TestFailedAtWrite, Some e))
   \/ (exists ans obj polls,
         calls r = CallGet RscTypeService NvAdmSvcNamespace svcname ans
                   :: CallUpdate RscTypeService obj None :: polls
         /\ readOnly polls = true /\ (length polls <= 10)%nat))
  /\ (countWrites (calls r) <= 1)%nat
  /\ (countReads (calls r) <= 11)%nat.
Proof.
  intros r. pose proof (TestAdmWebhookConnection_shape g now events svcname w) as Hshape.
  fold r in Hshape. split; [exact Hshape |].
  destruct Hshape as [(ans & -> & _) | [(ans & obj & e & -> & _)
                                       | (ans & obj & polls & -> & Hro & Hlen)]].
  - unfold countWrites, countReads. simpl. lia.
  - unfold countWrites, countReads. simpl. lia.
  - destruct (readOnly_facts polls Hro) as (_ & Hw & Hr).
    change (CallGet RscTypeService NvAdmSvcNamespace svcname ans
            :: CallUpdate RscTypeService obj None :: polls)
      with ([CallGet RscTypeService NvAdmSvcNamespace svcname ans;
             CallUpdate RscTypeService obj None] ++ polls)%list.
    rewrite countWrites_app, countReads_app, Hw, Hr.
    unfold countWrites, countReads. simpl. lia.
Qed.

(** X21: the probe gives up at the read, with the failed-at-read code, one
    call and no write, when the read of the service fails (it hands back that
    error) and when the label keys of the service were never set (error
    "svc labels unknown"). *)
Theorem probe_fails_at_read (g : Globals) (now : Z) (events : nat -> PollEvent)
    (svcname : string) (w : World)
    (Hcause : (exists err, fst (GetResource RscTypeService NvAdmSvcNamespace svcname w)
                           = inl err)
              \/ svcLabelKeys g !! svcname = None) :
  let r := run (TestAdmWebhookConnection g now events svcname) w in
  let ans := fst (GetResource RscTypeService NvAdmSvcNamespace svcname w) in
  returned r = Some (TestFailedAtRead,
                     Some (match ans with inl err => err | inr _ => "svc labels unknown" end))
  /\ calls r = [CallGet RscTypeService NvAdmSvcNamespace svcname ans].
Proof.
  unfold run, calls, returned, TestAdmWebhookConnection, bind, orchGet, ret. simpl.
  destruct (GetResource RscTypeService NvAdmSvcNamespace svcname w) as [r0 w1]. simpl in *.
  destruct r0 as [err | o]; simpl; [split; reflexivity |].
  destruct Hcause as [[err Herr] | Hkeys]; [discriminate |].
  rewrite Hkeys. simpl. split; reflexivity.
Qed.

(** X22: a service that is nil, or has no metadata, or no version token,
    makes the probe return the failed code without an error, after the one
    read and without a write (the label keys being known). *)
Theorem probe_needs_version (g : Globals) (now : Z) (events : nat -> PollEvent)
    (svcname : string) (w : World) (keys : WebhookSvcLabelKey) (sv : option Service)
    (Hkeys : svcLabelKeys g !! svcname = Some keys)
    (Hget : fst (GetResource RscTypeService NvAdmSvcNamespace svcname w)
            = inr (ObjService sv))
    (Hbare : match sv with
             | Some {| svc_Metadata := Some md |} => om_ResourceVersion md = None
             | _ => True
             end) :
  let r := run (TestAdmWebhookConnection g now events svcname) w in
  returned r = Some (TestFailed, None)
  /\ calls r = [CallGet RscTypeService NvAdmSvcNamespace svcname (inr (ObjService sv))].
Proof.
  unfold run, calls, returned, TestAdmWebhookConnection, bind, orchGet, ret. simpl.
  destruct (GetResource RscTypeService NvAdmSvcNamespace svcname w) as [r0 w1]. simpl in *.
  subst r0. rewrite Hkeys. simpl.
  destruct sv as [[[md|] spec]|]; simpl; try (split; reflexivity).
  rewrite Hbare. simpl. split; reflexivity.
Qed.

End ProbeCalls.

(** X21, an instance: the label keys of the service were never set. *)
Lemma probe_fails_at_read_witness :
  let g := {| admCaBundle := {[ "svc" := "PEM" ]}; svcLabelKeys := ∅;
              defAllowedNamespaces := ∅; allowedNamespaces := ∅;
              allowedNamespacesWild := ∅; nsSelectorValue := "true" |} in
  returned (run (TestAdmWebhookConnection (K := Demo.consts) (ORCH := Demo.orch) g 1700000000
                   (fun _ => Tick) "svc") (Demo_probeWorld []))
  = Some (TestFailedAtRead, Some "svc labels unknown").
Proof.
  intros g.
  apply (probe_fails_at_read (K := Demo.consts) (ORCH := Demo.orch) g 1700000000
           (fun _ => Tick) "svc" (Demo_probeWorld [])).
  right. reflexivity.
Defined.

(** X22, an instance: the service read has no version token. *)
Lemma probe_needs_version_witness :
  let sv := Some {| svc_Metadata := Some {| om_Name := Some "neuvector-svc-admission-webhook";
                                            om_ResourceVersion := None;
                                            om_Labels := None |};
                    svc_Spec := None |} in
  let w := {| Demo.version := (1, 22); Demo.gets := [inr (ObjService sv)];
              Demo.writes := [] |} in
  returned (run (TestAdmWebhookConnection (K := Demo.consts) (ORCH := Demo.orch)
                   Demo.globals 1700000000 (fun _ => Tick)
                   "neuvector-svc-admission-webhook") w)
  = Some (TestFailed, None).
Proof.
  intros sv w.
  apply (probe_needs_version (K := Demo.consts) (ORCH := Demo.orch) Demo.globals 1700000000
           (fun _ => Tick) "neuvector-svc-admission-webhook" w
           {| TagKey := "tag-neuvector-svc-admission-webhook";
              EchoKey := "echo-neuvector-svc-admission-webhook" |} sv).
  - vm_compute. reflexivity.
  - reflexivity.
  - reflexivity.
Defined.

(** ** The connectivity probe: the responder *)

Section Responder.
Context {K : Consts} {World : Type} {ORCH : Orchestrator World}.

(** One tick: a read, then an update exactly when the service read carries
    the expected tag; the object updated passes the initiator's test; the
    tick ends the loop exactly when the update was accepted. *)
Lemma echoTick_run (g : Globals) (keys : WebhookSvcLabelKey) (tag svcname : string)
    (Hkeys : svcLabelKeys g !! svcname = Some keys) (s : Store World) :
  let ans := fst (GetResource RscTypeService NvAdmSvcNamespace svcname (world s)) in
  let get := CallGet RscTypeService NvAdmSvcNamespace svcname ans in
  (fst (echoTick g keys tag svcname s) = Returned false
   /\ trace (snd (echoTick g keys tag svcname s)) = (trace s ++ [get])%list
   /\ carriesTag keys tag get = false)
  \/ (exists obj res,
        carriesTag keys tag get = true
        /\ fst (echoTick g keys tag svcname s)
           = Returned (match res with None => true | Some _ => false end)
        /\ trace (snd (echoTick g keys tag svcname s))
           = (trace s ++ [get; CallUpdate RscTypeService obj res])%list
        /\ echoed g svcname tag (CallGet RscTypeService NvAdmSvcNamespace svcname (inr obj))
           = true).
Proof.
  cbv zeta. unfold echoTick, bind, orchGet, orchUpdate, ret, carriesTag. simpl.
  destruct (GetResource RscTypeService NvAdmSvcNamespace svcname (world s)) as [r w1]. simpl.
  destruct r as [err | o]; [left; repeat split; reflexivity |].
  destruct o as [c | c | [[[md|] spec]|] | n | ]; try solve [left; repeat split; reflexivity].
  destruct (om_ResourceVersion md) as [rv|] eqn:Hrv; [| left; repeat split; reflexivity].
  destruct (om_Labels md) as [labels|] eqn:Hlabels; simpl.
  2: { left. split; [reflexivity |]. split; [reflexivity |].
       apply bool_decide_eq_false_2. rewrite lookup_empty. discriminate. }
  destruct (labels !! TagKey keys) as [t|] eqn:Htag.
  2: { left. destruct (0 <? Z.of_nat (size labels)); (split; [reflexivity |]);
       (split; [reflexivity |]); apply bool_decide_eq_false_2; discriminate. }
  assert (Hsize : (0 <? Z.of_nat (size labels)) = true).
  { apply Z.ltb_lt. destruct (size labels) eqn:Hsz; [| lia].
    apply map_size_empty_iff in Hsz. subst labels. rewrite lookup_empty in Htag.
    discriminate. }
  rewrite Hsize.
  destruct (bool_decide_reflect (t = tag)) as [-> | Hne].
  2: { left. split; [reflexivity |]. split; [reflexivity |].
       apply bool_decide_eq_false_2. congruence. }
  right. simpl.
  match goal with
  | |- context [UpdateResource RscTypeService ?o w1] =>
      set (written := o); destruct (UpdateResource RscTypeService written w1) as [res w2]
  end.
  exists written, res.
  split; [apply bool_decide_eq_true_2; reflexivity |].
  split; [destruct res; reflexivity |].
  split; [destruct res; simpl; rewrite <- app_assoc; reflexivity |].
  unfold echoed, svcInfoOfAnswer, written. rewrite Hkeys. cbn [svc_Metadata om_Labels default].
  assert (Ht : <[EchoKey keys := tag]> labels !! TagKey keys = Some tag).
  { destruct (decide (EchoKey keys = TagKey keys)) as [e | n].
    - rewrite e. apply lookup_insert_eq.
    - rewrite lookup_insert_ne by exact n. exact Htag. }
  unfold id. rewrite Ht, lookup_insert_eq. cbn [svc_Spec default from_option].
  destruct spec as [[[ty|] ports]|]; cbn;
    try (rewrite !bool_decide_eq_true_2 by reflexivity; reflexivity).
  destruct (bool_decide (ty = ServiceTypeNodePort));
    [destruct (firstNodePort ports) |]; cbn;
    rewrite !bool_decide_eq_true_2 by reflexivity; reflexivity.
Qed.

Lemma echoLoop_outcome (g : Globals) (keys : WebhookSvcLabelKey) (tag svcname : string)
    (Hkeys : svcLabelKeys g !! svcname = Some keys) (events : nat -> PollEvent) (fuel : nat) :
  forall (i : nat) (s : Store World),
  fst (echoLoop g keys tag svcname events i fuel s) = Returned tt
  /\ exists d,
       trace (snd (echoLoop g keys tag svcname events i fuel s)) = (trace s ++ d)%list
       /\ EchoOutcome g svcname tag fuel d
       /\ countWrites d = length (List.filter (carriesTag keys tag) d).
Proof.
  induction fuel as [|fuel IH]; intros i s.
  - simpl. split; [reflexivity |]. exists []. rewrite app_nil_r. split; [reflexivity |].
    split; [| reflexivity].
    split; [reflexivity |]. split; [unfold countReads; simpl; lia |].
    split; [unfold countReads, countWrites; simpl; lia |].
    exists []. split; [reflexivity | left; reflexivity].
  - simpl. destruct (events i).
    2: { split; [reflexivity |]. exists []. rewrite app_nil_r. split; [reflexivity |].
         split; [| reflexivity].
         split; [reflexivity |]. split; [unfold countReads; simpl; lia |].
         split; [unfold countReads, countWrites; simpl; lia |].
         exists []. split; [reflexivity | left; reflexivity]. }
    unfold bind.
    pose proof (echoTick_run g keys tag svcname Hkeys s) as Htick. cbv zeta in Htick.
    set (get := CallGet RscTypeService NvAdmSvcNamespace svcname
                  (fst (GetResource RscTypeService NvAdmSvcNamespace svcname (world s)))) in *.
    assert (Hget : responderCall g svcname tag get = true).
    { unfold responderCall, get. rewrite !bool_decide_eq_true_2 by reflexivity. reflexivity. }
    destruct (echoTick g keys tag svcname s) as [out s1]. cbn [fst snd] in Htick.
    destruct Htick as [(-> & Htr & Hcarry) | (obj & res & Hcarry & -> & Htr & Hecho)].
    + destruct (IH (S i) s1)
        as (Hout & d & Hd & (Hcalls & Hreads & Hwrites & pre & Hpre & Hlast) & Hcount).
      split; [exact Hout |]. exists (get :: d). rewrite Hd, Htr, <- app_assoc.
      split; [reflexivity |].
      split.
      2: { cbn [List.filter]. rewrite Hcarry. change (get :: d) with ([get] ++ d)%list.
           rewrite countWrites_app, Hcount. reflexivity. }
      split. { cbn [forallb]. rewrite Hget. exact Hcalls. }
      change (get :: d) with ([get] ++ d)%list.
      rewrite countReads_app, countWrites_app.
      split; [unfold countReads at 1; simpl; lia |].
      split; [unfold countReads at 1, countWrites at 1; simpl; lia |].
      exists (get :: pre). split. { unfold noSuccessfulWrite in *. simpl. exact Hpre. }
      destruct Hlast as [-> | (rt & o & ->)]; [left; reflexivity |].
      right. exists rt, o. reflexivity.
    + assert (Hupd : responderCall g svcname tag (CallUpdate RscTypeService obj res) = true).
      { unfold responderCall. rewrite bool_decide_eq_true_2 by reflexivity. exact Hecho. }
      destruct res as [e|].
      * destruct (IH (S i) s1)
          as (Hout & d & Hd & (Hcalls & Hreads & Hwrites & pre & Hpre & Hlast) & Hcount).
        split; [exact Hout |].
        exists ([get; CallUpdate RscTypeService obj (Some e)] ++ d)%list.
        rewrite Hd, Htr, <- app_assoc.
        split; [reflexivity |].
        split.
        2: { rewrite countWrites_app, List.filter_app, length_app, Hcount.
             cbn [List.filter]. rewrite Hcarry. reflexivity. }
        split. { rewrite forallb_app. cbn [forallb]. rewrite Hget, Hupd. exact Hcalls. }
        rewrite countReads_app, countWrites_app.
        split; [unfold countReads at 1; simpl; lia |].
        split; [unfold countReads at 1, countWrites at 1; simpl; lia |].
        exists ([get; CallUpdate RscTypeService obj (Some e)] ++ pre)%list.
        split. { rewrite noSuccessfulWrite_app, Hpre. reflexivity. }
        destruct Hlast as [-> | (rt & o & ->)]; [left; reflexivity |].
        right. exists rt, o. rewrite <- app_assoc. reflexivity.
      * split; [reflexivity |].
        exists [get; CallUpdate RscTypeService obj None]. unfold ret. cbn [fst snd trace].
        rewrite Htr.
        split; [reflexivity |].
        split.
        2: { cbn [List.filter]. rewrite Hcarry. reflexivity. }
        split. { cbn [forallb]. rewrite Hget, Hupd. reflexivity. }
        split; [unfold countReads; simpl; lia |].
        split; [unfold countReads, countWrites; simpl; lia |].
        exists [get]. split; [reflexivity |]. right. exists RscTypeService, obj. reflexivity.
Qed.

(** X23: the responder never panics and always returns. It serves at most
    four ticks: at most four reads, and never more updates than reads; an
    update that the orchestrator accepts is its last call. When the label
    keys of the service were never set, or the first event is the signal, it
    makes no call at all. *)
Theorem responder_bounded (g : Globals) (events : nat -> PollEvent)
    (tagExpected svcname : string) (w : World) :
  let r := run (EchoAdmWebhookConnection g events tagExpected svcname) w in
  fst r = Returned tt
  /\ (countReads (calls r) <= 4)%nat
  /\ (countWrites (calls r) <= countReads (calls r))%nat
  /\ (exists pre,
        noSuccessfulWrite pre = true
        /\ (calls r = pre \/ exists rt obj, calls r = (pre ++ [CallUpdate rt obj None])%list))
  /\ (svcLabelKeys g !! svcname = None \/ events 0%nat = Signal -> calls r = []).
Proof.
  unfold run, calls, EchoAdmWebhookConnection.
  destruct (svcLabelKeys g !! svcname) as [keys|] eqn:Hkeys.
  - destruct (echoLoop_outcome g keys tagExpected svcname Hkeys events 4 0 (mkStore w []))
      as (Hout & d & Hd & (_ & Hreads & Hwrites & Hlast) & _).
    cbn [trace app] in Hd. cbv zeta. rewrite Hd.
    split; [exact Hout |]. split; [exact Hreads |]. split; [exact Hwrites |].
    split; [exact Hlast |].
    intros [Hnone | Hsig]; [discriminate |].
    rewrite <- Hd. simpl. rewrite Hsig. reflexivity.
  - simpl. split; [reflexivity |]. split; [unfold countReads; simpl; lia |].
    split; [unfold countReads, countWrites; simpl; lia |].
    split; [exists []; split; [reflexivity | left; reflexivity] |].
    intros _. reflexivity.
Qed.

(** X24: responder and initiator agree. Every call of the responder is a
    read of the probed service in the admission namespace, or an update of a
    service object whose tag label and echo label both hold the expected
    tag: an object that, read back by a poll of the initiator for that tag,
    passes the initiator's test. The responder adds and deletes nothing. *)
Theorem responder_echo_passes_probe (g : Globals) (events : nat -> PollEvent)
    (tagExpected svcname : string) (w : World) :
  let r := run (EchoAdmWebhookConnection g events tagExpected svcname) w in
  forallb (responderCall g svcname tagExpected) (calls r) = true.
Proof.
  unfold run, calls, EchoAdmWebhookConnection.
  destruct (svcLabelKeys g !! svcname) as [keys|] eqn:Hkeys; [| reflexivity].
  destruct (echoLoop_outcome g keys tagExpected svcname Hkeys events 4 0 (mkStore w []))
    as (_ & d & Hd & (Hcalls & _) & _).
  cbn [trace app] in Hd. cbv zeta. rewrite Hd. exact Hcalls.
Qed.

(** X25: the responder answers the expected tag and nothing else. With the
    label keys of the service known, it submits one update for each read
    that returned a service with metadata, a version token and the expected
    tag under the tag key, and no update for any other read; so a run whose
    reads never show the expected tag writes nothing. *)
Theorem responder_answers_tag (g : Globals) (events : nat -> PollEvent)
    (tagExpected svcname : string) (w : World) (keys : WebhookSvcLabelKey)
    (Hkeys : svcLabelKeys g !! svcname = Some keys) :
  let r := run (EchoAdmWebhookConnection g events tagExpected svcname) w in
  countWrites (calls r) = length (List.filter (carriesTag keys tagExpected) (calls r))
  /\ (forallb (fun c => negb (carriesTag keys tagExpected c)) (calls r) = true ->
      readOnly (calls r) = true).
Proof.
  unfold run, calls, EchoAdmWebhookConnection. rewrite Hkeys.
  destruct (echoLoop_outcome g keys tagExpected svcname Hkeys events 4 0 (mkStore w []))
    as (_ & d & Hd & _ & Hcount).
  cbn [trace app] in Hd. cbv zeta. rewrite Hd. split; [exact Hcount |].
  intros Hnone.
  assert (Hzero : countWrites d = 0%nat).
  { rewrite Hcount. clear -Hnone. induction d as [|c d IH]; [reflexivity |].
    cbn [forallb List.filter] in *. apply andb_true_iff in Hnone as [Hc Hd].
    apply negb_true_iff in Hc. rewrite Hc. exact (IH Hd). }
  clear -Hzero. unfold countWrites, readOnly, isGet in *.
  induction d as [|c d IH]; [reflexivity |].
  cbn [forallb List.filter] in *. destruct (isWrite c); [discriminate |].
  simpl. exact (IH Hzero).
Qed.

End Responder.

(** X25, an instance: three ticks are served, the third read shows the
    expected tag and is the only one answered by an update. *)
Lemma responder_answers_tag_witness :
  let keys := {| TagKey := "tag-neuvector-svc-admission-webhook";
                 EchoKey := "echo-neuvector-svc-admission-webhook" |} in
  let r := run (EchoAdmWebhookConnection (K := Demo.consts) (ORCH := Demo.orch) Demo.globals
                  (fun _ => Tick) "1700000000" "neuvector-svc-admission-webhook")
               Demo_echoWorld in
  countWrites (calls r) = length (List.filter (carriesTag keys "1700000000") (calls r))
  /\ countWrites (calls r) = 1%nat /\ countReads (calls r) = 3%nat.
Proof.
  intros keys r. split; [| split; vm_compute; reflexivity].
  apply (responder_answers_tag (K := Demo.consts) (ORCH := Demo.orch) Demo.globals
           (fun _ => Tick) "1700000000" "neuvector-svc-admission-webhook" Demo_echoWorld keys).
  vm_compute. reflexivity.
Defined.
